(** * coco-promotions: promotion allocation and lifecycle engine

    A shallow embedding of the TypeScript services
    (pricing-strategy, targeting-engine, experience-protector,
    promotion-optimizer, refund and scheduler services, promotion
    controller, and the endpoint [/promotions/fetch] of index.ts) and the
    properties of their specification.

    JavaScript numbers are IEEE 754 binary64 values: they are modelled by
    Rocq's primitive floats, so that [NaN], signed zeros and rounding are
    the ones of the running program.  Rows of the relational store are
    records; amounts of the DECIMAL(10,4) columns are integers counting
    ten-thousandths of a COCO coin, and timestamps are integers counting
    milliseconds. *)

From Stdlib Require Import ZArith List String Ascii Bool Floats Lia Permutation.
From stdpp Require Import gmap strings list.
Import ListNotations.

Set Warnings "-inexact-float".

#[local] Open Scope Z_scope.
#[local] Open Scope string_scope.

(** ** JavaScript numbers *)

Module JS.

#[local] Open Scope float_scope.

(** [z] as a double; exact for |z| < 2^53. *)
Definition Number_of_Z (z : Z) : float :=
  SF2Prim (binary_normalize prec emax z 0 false).

Definition Number_of_nat (n : nat) : float := Number_of_Z (Z.of_nat n).

(** The integer a double denotes, when it denotes one. *)
Definition integer_value (x : float) : option Z :=
  match Prim2SF x with
  | S754_zero _ => Some 0%Z
  | S754_finite s m e =>
      if (0 <=? e)%Z then Some (cond_Zopp s (Z.pos m * 2 ^ e))
      else if (Z.pos m mod 2 ^ (- e) =? 0)%Z
           then Some (cond_Zopp s (Z.pos m / 2 ^ (- e)))
           else None
  | _ => None
  end.

(** [Math.ceil]. *)
Definition Math_ceil (x : float) : float :=
  match Prim2SF x with
  | S754_finite s m e =>
      if (0 <=? e)%Z then x
      else
        let q := (Z.pos m / 2 ^ (- e))%Z in
        let r := (Z.pos m mod 2 ^ (- e))%Z in
        if s then (if (q =? 0)%Z then neg_zero else Number_of_Z (- q))
        else Number_of_Z (if (r =? 0)%Z then q else q + 1)
  | _ => x
  end.

(** [Math.floor]. *)
Definition Math_floor (x : float) : float :=
  match Prim2SF x with
  | S754_finite s m e =>
      if (0 <=? e)%Z then x
      else
        let q := (Z.pos m / 2 ^ (- e))%Z in
        let r := (Z.pos m mod 2 ^ (- e))%Z in
        if s then Number_of_Z (- (if (r =? 0)%Z then q else q + 1))
        else Number_of_Z q
  | _ => x
  end.

(** [Math.min(a, b)] and [Math.max(a, b)]: [NaN] if either argument is,
    and [-0] below [+0]. *)
Definition Math_min (a b : float) : float :=
  if is_nan a || is_nan b then nan
  else if a <? b then a
  else if b <? a then b
  else if get_sign a then a else b.

Definition Math_max (a b : float) : float :=
  if is_nan a || is_nan b then nan
  else if a <? b then b
  else if b <? a then a
  else if get_sign a then b else a.

(** Truthiness of a number: [0], [-0] and [NaN] are falsy. *)
Definition truthy (x : float) : bool := negb (is_nan x || is_zero x).

(** [x || d] on numbers. *)
Definition or_else (x d : float) : float := if truthy x then x else d.

(** [v || d] where [v] is a property that may be [undefined]. *)
Definition prop_or_else (v : option float) (d : float) : float :=
  match v with
  | Some x => or_else x d
  | None => d
  end.

(** [undefined] in arithmetic position is [NaN]. *)
Definition ToNumber (v : option float) : float :=
  match v with
  | Some x => x
  | None => nan
  end.

(** [xs.reduce((sum, x) => sum + x, 0)]. *)
Definition sum (xs : list float) : float := fold_left add xs 0.

(** An object used as a string-keyed record, in insertion order. *)
Definition obj := list (string * float).

Fixpoint obj_get (o : obj) (k : string) : option float :=
  match o with
  | [] => None
  | (k', v) :: o' => if String.eqb k' k then Some v else obj_get o' k
  end.

(** [o[k] = v]: an existing key keeps its place. *)
Fixpoint obj_set (o : obj) (k : string) (v : float) : obj :=
  match o with
  | [] => [(k, v)]
  | (k', v') :: o' =>
      if String.eqb k' k then (k', v) :: o' else (k', v') :: obj_set o' k v
  end.

Definition obj_values (o : obj) : list float := map snd o.

(** [xs.slice(a, b)] for indices within range. *)
Definition slice {A} (a b : nat) (xs : list A) : list A :=
  firstn (b - a) (skipn a xs).

(** The index [slice] makes of a number: [NaN] is 0, a fraction is
    truncated, a negative index counts from the end, and the result is
    clamped to the length. *)
Definition relative_index (len : nat) (x : float) : nat :=
  match Prim2SF x with
  | S754_nan | S754_zero _ => 0%nat
  | S754_infinity s => if s then 0%nat else len
  | S754_finite s m e =>
      let z := (if (0 <=? e)%Z then Z.pos m * 2 ^ e
                else Z.pos m / 2 ^ (- e))%Z in
      if s then Z.to_nat (Z.max (Z.of_nat len - z) 0)
      else Z.to_nat (Z.min z (Z.of_nat len))
  end.

(** [xs.slice(a, b)] for numbers [a] and [b]. *)
Definition slice_by {A} (a b : float) (xs : list A) : list A :=
  slice (relative_index (length xs) a) (relative_index (length xs) b) xs.

(** [xs.slice(a)]. *)
Definition slice_from {A} (a : float) (xs : list A) : list A :=
  skipn (relative_index (length xs) a) xs.

(** The values [0, 1, ...] that [for (let d = 0; d < n; d++)] runs
    through, for a bound that is not [Infinity]. *)
Definition loop_count (n : float) : nat :=
  match integer_value (Math_ceil n) with
  | Some z => Z.to_nat z
  | None => 0%nat
  end.

Definition loop_range (n : float) : list float :=
  map Number_of_nat (seq 0 (loop_count n)).

(** Notions of the properties below. *)

(** A double that is a whole number of coins, at least one. *)
Definition positive_integer (x : float) : bool :=
  match integer_value x with
  | Some n => (1 <=? n)%Z
  | None => false
  end.

(** [lo <= x && x <= hi]. *)
Definition between (lo hi x : float) : bool := (lo <=? x) && (x <=? hi).

End JS.

(** ** Shared types (types/promotion.types.ts) *)

Inductive WealthLevel :=
| foam | plankton | crab | fish | turtle | dolphin | shark | whale | giant_whale.

Inductive ActionType :=
| view | like | unlike | share | comment | unlock
| promo_view | promo_click | promo_comment | follow.



(** The string a tier is at run time. *)
Definition wealth_key (w : WealthLevel) : string :=
  match w with
  | foam => "foam" | plankton => "plankton" | crab => "crab"
  | fish => "fish" | turtle => "turtle" | dolphin => "dolphin"
  | shark => "shark" | whale => "whale" | giant_whale => "giant_whale"
  end.

#[global] Instance WealthLevel_eq_dec : EqDecision WealthLevel.
Proof. solve_decision. Defined.

#[global] Instance ActionType_eq_dec : EqDecision ActionType.
Proof. solve_decision. Defined.

Record Location := { country : string; loc_region : option string }.

(** A target user as the consumers read it.  A property the object does
    not carry reads as [undefined], here [None]. *)
Record TargetUser := {
  userId : option string;
  wealthLevel : option WealthLevel;
  relevanceScore : float;
  engagementProbability : float;
  influenceMultiplier : float;
  location : option Location
}.

(** ** PricingStrategyService (services/pricing-strategy.service.ts) *)

Module Pricing.

Import JS.
#[local] Open Scope float_scope.

Record PricingStrategy := {
  basePrices : ActionType -> float;
  wealthMultipliers : WealthLevel -> float;
  demandMultipliers : obj;
  qualityDiscounts : obj
}.

Definition basePrices_table (a : ActionType) : float :=
  match a with
  | view => 1 | like => 2 | unlike => 1 | share => 6 | comment => 8
  | unlock => 15 | promo_view => 1 | promo_click => 5
  | promo_comment => 10 | follow => 12
  end.

Definition wealthMultipliers_table (w : WealthLevel) : float :=
  match w with
  | foam => 0.5 | plankton => 1.0 | crab => 1.5 | fish => 2.0
  | turtle => 3.0 | dolphin => 5.0 | shark => 8.0 | whale => 12.0
  | giant_whale => 20.0
  end.

(** [new Date().getDay()] is read from the clock and passed as [day]. *)
Definition isWeekend (day : Z) : bool := (day =? 0)%Z || (day =? 6)%Z.

Definition regionMultipliers : obj :=
  [("CN", 1.2); ("US", 1.5); ("EU", 1.3); ("default", 1.0)].

(** Own properties only: a region or country is taken not to name a
    member of [Object.prototype]. *)
Definition calculateDemandMultipliers
  (day : Z) (timeOfDay : float) (region : string) : obj :=
  let timeMultipliers : obj :=
    [("business_hours",
       if (9 <=? timeOfDay) && (timeOfDay <=? 18) then 1.5 else 1.0);
     ("evening",
       if (19 <=? timeOfDay) && (timeOfDay <=? 23) then 1.3 else 1.0);
     ("weekend", if isWeekend day then 0.8 else 1.0)] in
  obj_set timeMultipliers region
    (prop_or_else (obj_get regionMultipliers region)
       (ToNumber (obj_get regionMultipliers "default"))).

Definition calculateQualityDiscounts (contentQuality : float) : obj :=
  if 90 <=? contentQuality then [("premium", 0.7)]
  else if 75 <=? contentQuality then [("high", 0.8)]
  else if 60 <=? contentQuality then [("medium", 0.9)]
  else [("low", 1.2)].

Definition calculateRelevanceDiscount (relevanceScore : float) : float :=
  if 80 <=? relevanceScore then 0.8
  else if 60 <=? relevanceScore then 0.9
  else 1.1.

Definition getQualityTier (quality : float) : string :=
  if 90 <=? quality then "premium"
  else if 75 <=? quality then "high"
  else if 60 <=? quality then "medium"
  else "low".

Definition calculateDynamicPricing
  (day : Z) (targetWealthLevels : list WealthLevel)
  (contentQuality timeOfDay : float) (region : string) : PricingStrategy :=
  {| basePrices := basePrices_table;
     wealthMultipliers := wealthMultipliers_table;
     demandMultipliers := calculateDemandMultipliers day timeOfDay region;
     qualityDiscounts := calculateQualityDiscounts contentQuality |}.

(** [targetUser.location?.country || 'default']: the empty string is
    falsy. *)
Definition demand_key (u : TargetUser) : string :=
  match location u with
  | Some l => if String.eqb (country l) "" then "default" else country l
  | None => "default"
  end.

(** The class declares [calculateActionPrice] twice: with four
    parameters at lines 59-80 and, further down, with three at lines
    318-324.  A class body keeps the later of two methods of one name,
    so the first declaration, embedded here as [finalPrice] and
    [calculateActionPrice_first], is the body of no call. *)

(** The product of the first declaration, before rounding. *)
Definition finalPrice
  (action : ActionType) (targetUser : TargetUser)
  (pricing : PricingStrategy) (contentQuality : float) : float :=
  let basePrice := basePrices pricing action in
  let wealthMultiplier :=
    ToNumber (option_map (wealthMultipliers pricing) (wealthLevel targetUser)) in
  let demandMultiplier :=
    prop_or_else (obj_get (demandMultipliers pricing) (demand_key targetUser)) 1.0 in
  let qualityDiscount :=
    ToNumber (obj_get (qualityDiscounts pricing) (getQualityTier contentQuality)) in
  let relevanceDiscount :=
    calculateRelevanceDiscount (relevanceScore targetUser) in
  basePrice * wealthMultiplier * demandMultiplier * qualityDiscount
  * relevanceDiscount.

(** The first declaration (lines 59-80), which the second replaces. *)
Definition calculateActionPrice_first
  (action : ActionType) (targetUser : TargetUser)
  (pricing : PricingStrategy) (contentQuality : float) : float :=
  Math_ceil (finalPrice action targetUser pricing contentQuality).

Definition conversionRate (w : WealthLevel) : float :=
  match w with
  | giant_whale => 0.25 | whale => 0.20 | shark => 0.15 | dolphin => 0.12
  | turtle => 0.08 | fish => 0.06 | crab => 0.04 | plankton => 0.03
  | foam => 0.02
  end.

Definition averageValue (w : WealthLevel) : float :=
  match w with
  | giant_whale => 100 | whale => 80 | shark => 60 | dolphin => 40
  | turtle => 20 | fish => 12 | crab => 8 | plankton => 5 | foam => 3
  end.

Definition calculateAverageCost (w : WealthLevel) : float :=
  match w with
  | giant_whale => 50 | whale => 30 | shark => 20 | dolphin => 12
  | turtle => 8 | fish => 5 | crab => 3 | plankton => 2 | foam => 1
  end.

Record LevelROI := { level : WealthLevel; roi : float; allocation : float }.

Definition levelROI_of (w : WealthLevel) : LevelROI :=
  let expectedReturn := conversionRate w * averageValue w in
  {| level := w; roi := expectedReturn / calculateAverageCost w;
     allocation := 0 |}.

(** The second [forEach]: every item receives its share. *)
Definition allocate (totalROI totalBudget : float) (item : LevelROI) : LevelROI :=
  {| level := level item; roi := roi item;
     allocation := (roi item / totalROI) * totalBudget |}.

(** [Record<WealthLevel, number>] filled by assignment: one entry per
    distinct tier, in the order of first assignment. *)
Definition allocation_record := list (WealthLevel * float).

Fixpoint record_set
  (r : allocation_record) (w : WealthLevel) (v : float) : allocation_record :=
  match r with
  | [] => [(w, v)]
  | (w', v') :: r' =>
      if decide (w' = w) then (w', v) :: r' else (w', v') :: record_set r' w v
  end.

Definition record_get (r : allocation_record) (w : WealthLevel) : option float :=
  snd <$> List.find (fun e => bool_decide (fst e = w)) r.

Definition calculateExpectedOutcome
  (allocations : allocation_record) : ActionType -> float :=
  let expectedViews :=
    fold_left (fun sum e => sum + snd e / calculateAverageCost (fst e))
      allocations 0 in
  fun a =>
    match a with
    | view => Math_floor expectedViews
    | like => Math_floor (expectedViews * 0.02)
    | unlike => Math_floor (expectedViews * 0.005)
    | share => Math_floor (expectedViews * 0.008)
    | comment => Math_floor (expectedViews * 0.005)
    | unlock => Math_floor (expectedViews * 0.001)
    | promo_view => Math_floor expectedViews
    | promo_click => Math_floor (expectedViews * 0.03)
    | promo_comment => Math_floor (expectedViews * 0.002)
    | follow => Math_floor (expectedViews * 0.003)
    end.

Definition calculateEfficiencyScore (levelROIs : list LevelROI) : float :=
  let avgROI := JS.sum (map roi levelROIs) / Number_of_nat (length levelROIs) in
  Math_min 100 (avgROI * 20).

Record BudgetOptimization := {
  recommendedAllocation : allocation_record;
  expectedOutcome : ActionType -> float;
  efficiencyScore : float
}.

Definition levelROIs_of
  (totalBudget : float) (targetWealthLevels : list WealthLevel) : list LevelROI :=
  let levelROIs := map levelROI_of targetWealthLevels in
  let totalROI := JS.sum (map roi levelROIs) in
  map (allocate totalROI totalBudget) levelROIs.

(** [expectedActions] is a parameter that the body never reads. *)
Definition calculateBudgetOptimization
  (totalBudget : float) (targetWealthLevels : list WealthLevel)
  (expectedActions : obj) : BudgetOptimization :=
  let levelROIs := levelROIs_of totalBudget targetWealthLevels in
  let recommendedAllocation :=
    fold_left (fun r item => record_set r (level item) (allocation item))
      levelROIs [] in
  {| recommendedAllocation := recommendedAllocation;
     expectedOutcome := calculateExpectedOutcome recommendedAllocation;
     efficiencyScore := calculateEfficiencyScore levelROIs |}.

(** The sum of the allocations of the record, as the optimizer takes it:
    [Object.values(allocation).reduce((sum, a) => sum + Number(a), 0)]. *)
Definition allocation_total (r : allocation_record) : float :=
  JS.sum (map snd r).

(** Notions of the properties below. *)


(** The share of a tier: its ROI over the sum of the ROI of the listed
    tiers, times the total. *)
Definition roi_of (w : WealthLevel) : float :=
  conversionRate w * averageValue w / calculateAverageCost w.

Definition totalROI_of (levels : list WealthLevel) : float :=
  JS.sum (map roi_of levels).

Definition share_of (totalBudget : float) (levels : list WealthLevel)
  (w : WealthLevel) : float :=
  (roi_of w / totalROI_of levels) * totalBudget.

(** ** The prediction of the consumption (lines 224-258, 306-343) *)

(** The private three-argument method of the same name (lines 318-324),
    which [calculateDaySpend] calls: no discount and no rounding. *)
Definition calculateActionPrice_private
  (action : ActionType) (user : TargetUser) (pricing : PricingStrategy) : float :=
  let basePrice := basePrices pricing action in
  let wealthMultiplier :=
    ToNumber (option_map (wealthMultipliers pricing) (wealthLevel user)) in
  let demandMultiplier :=
    prop_or_else (obj_get (demandMultipliers pricing) (demand_key user)) 1.0 in
  basePrice * wealthMultiplier * demandMultiplier.

(** [calculateActionPrice] as the class has it at run time: the later
    declaration, whatever the number of arguments of the call.  A call
    with four arguments, as the first declaration was written for, runs
    the same body, which does not read the fourth. *)
Definition calculateActionPrice
  (action : ActionType) (targetUser : TargetUser)
  (pricing : PricingStrategy) (contentQuality : float) : float :=
  calculateActionPrice_private action targetUser pricing.

(** The entries of the record, in the order of [Object.entries]. *)
Definition predictUserActions (user : TargetUser) : list (ActionType * float) :=
  let baseEngagement := engagementProbability user in
  let relevanceBonus := relevanceScore user / 100 in
  [ (view, 1.0);
    (like, baseEngagement * relevanceBonus * 0.3);
    (unlike, baseEngagement * relevanceBonus * 0.05);
    (share, baseEngagement * relevanceBonus * 0.15);
    (comment, baseEngagement * relevanceBonus * 0.1);
    (unlock, baseEngagement * relevanceBonus * 0.05);
    (promo_view, 1.0);
    (promo_click, baseEngagement * relevanceBonus * 0.2);
    (promo_comment, baseEngagement * relevanceBonus * 0.08);
    (follow, baseEngagement * relevanceBonus * 0.08) ].

Definition userCost (pricing : PricingStrategy) (user : TargetUser) : float :=
  fold_left
    (fun cost ap =>
       cost + calculateActionPrice_private (fst ap) user pricing * snd ap)
    (predictUserActions user) 0.

Definition calculateDaySpend
  (targets : list TargetUser) (pricing : PricingStrategy) : float :=
  fold_left (fun sum user => sum + userCost pricing user) targets 0.

Record Consumption := {
  dailySpend : list float;
  totalSpend : float;
  remainingBudget : float;
  durationAdjustment : option float
}.

Definition predictBudgetConsumption
  (budget : float) (targetUsers : list TargetUser)
  (pricing : PricingStrategy) (duration : float) : Consumption :=
  let dailyTargetReach :=
    Math_floor (Number_of_nat (length targetUsers) / duration) in
  let dailySpends :=
    map (fun day =>
           let dayTargets :=
             slice_by (day * dailyTargetReach) ((day + 1) * dailyTargetReach)
               targetUsers in
           calculateDaySpend dayTargets pricing)
      (loop_range duration) in
  let totalSpend := JS.sum dailySpends in
  {| dailySpend := dailySpends;
     totalSpend := totalSpend;
     remainingBudget := Math_max 0 (budget - totalSpend);
     durationAdjustment :=
       if budget <? totalSpend
       then Some (Math_floor (duration * (budget / totalSpend)))
       else None |}.

(** The bounds of the slices that [predictBudgetConsumption] takes of
    [n] users on the days of a duration. *)
Definition reach_cuts (n : nat) (duration : float) : list (nat * nat) :=
  let dailyTargetReach := Math_floor (Number_of_nat n / duration) in
  map (fun day =>
         (relative_index n (day * dailyTargetReach),
          relative_index n ((day + 1) * dailyTargetReach)))
    (loop_range duration).

(** The bounds of [d] blocks of [q] users. *)
Definition block_cuts (q d : nat) : list (nat * nat) :=
  map (fun k => (k * q, (k + 1) * q)%nat) (seq 0 d).

Fixpoint cuts_eqb (a b : list (nat * nat)) : bool :=
  match a, b with
  | [], [] => true
  | (x, y) :: a', (x', y') :: b' => Nat.eqb x x' && Nat.eqb y y' && cuts_eqb a' b'
  | _, _ => false
  end.



(** The keys of the time multipliers of a strategy. *)
Definition time_keys : list string := ["business_hours"; "evening"; "weekend"].

End Pricing.

(** ** Rows the store returns *)

(** A text as the sequence of its UTF-16 code units, so that [length]
    is JavaScript's [.length]. *)
Definition text := list N.

Definition text_of_string (s : string) : text :=
  map N_of_ascii (list_ascii_of_string s).

(** A row of [posts] joined with its author, as [getContentInfo] returns
    it.  Numeric columns are the numbers the code reads from them; a
    NULL column is [None].  [images] is the decoded JSON array of a
    non-empty column text; [target_wealth_levels] the decoded array of a
    truthy column. *)
Record Content := {
  author_id : string;
  content_text : option text;
  likes : option float;
  replies : option float;
  shares : option float;
  images : option (list string);
  target_wealth_levels : option (list string);
  content_location : option Location
}.

(** A row of the candidate query of the targeting engine. *)
Record CandidateRow := {
  user_id : string;
  country_code : option string;
  region : option string;
  wealth_level : WealthLevel;
  followers_count : float;
  recent_activity : float;
  avg_engagement : float
}.

(** [PromotionRequest['targeting']]. *)
Record Targeting := {
  wealthLevels : list WealthLevel;
  preferredRegions : option (list string);
  excludeFollowers : bool
}.

(** ** TargetingEngineService (services/targeting-engine.service.ts) *)

Module Targeting.

Import JS.
#[local] Open Scope float_scope.

(** The candidate with the three scores spread over the row:
    [{...user, relevanceScore, engagementProbability, influenceMultiplier}]. *)
Record ScoredCandidate := {
  row : CandidateRow;
  sc_relevanceScore : float;
  sc_engagementProbability : float;
  sc_influenceMultiplier : float
}.

(** What the object answers to the property names of [TargetUser]: the
    row has [user_id], [wealth_level], [country_code] and [region], and
    no [userId], [wealthLevel] or [location]. *)
Definition as_TargetUser (s : ScoredCandidate) : TargetUser :=
  {| userId := None;
     wealthLevel := None;
     relevanceScore := sc_relevanceScore s;
     engagementProbability := sc_engagementProbability s;
     influenceMultiplier := sc_influenceMultiplier s;
     location := None |}.

Definition getUserSophistication (w : WealthLevel) : float :=
  match w with
  | foam => 10 | plankton => 20 | crab => 30 | fish => 40 | turtle => 50
  | dolphin => 70 | shark => 85 | whale => 95 | giant_whale => 100
  end.

Definition valueMap (w : WealthLevel) : float :=
  match w with
  | foam => 0.5 | plankton => 1 | crab => 1.5 | fish => 2 | turtle => 3
  | dolphin => 5 | shark => 8 | whale => 12 | giant_whale => 20
  end.

(** [valueMap[wealthLevel]]: [undefined] for an absent tier. *)
Definition getWealthLevelValue (w : option WealthLevel) : option float :=
  option_map valueMap w.

Definition text_length (c : Content) : float :=
  Number_of_nat (length (default [] (content_text c))).

Definition assessContentComplexity (c : Content) : float :=
  let textLength := text_length c in
  let interactionDepth :=
    prop_or_else (replies c) 0 / Math_max 1 (prop_or_else (likes c) 1) in
  Math_min 100 (textLength / 10 + interactionDepth * 20).

Definition calculateWealthMatch (c : Content) (user : CandidateRow) : float :=
  match target_wealth_levels c with
  | Some targetLevels =>
      if existsb (String.eqb (wealth_key (wealth_level user))) targetLevels
      then 1.0 else 0.3
  | None =>
      let contentComplexity := assessContentComplexity c in
      let userSophistication := getUserSophistication (wealth_level user) in
      Math_min 1 (contentComplexity / userSophistication)
  end.

(** [!user.country_code]: NULL and the empty string are falsy.
    [content.location.region === user.region] holds between two equal
    strings only: an absent region is [undefined] on one side and
    [null] on the other. *)
Definition calculateGeoRelevance (c : Content) (user : CandidateRow) : float :=
  match content_location c, country_code user with
  | Some l, Some cc =>
      if String.eqb cc "" then 0.5
      else if String.eqb (country l) cc then
        match loc_region l, region user with
        | Some r1, Some r2 => if String.eqb r1 r2 then 1.0 else 0.8
        | _, _ => 0.8
        end
      else 0.2
  | _, _ => 0.5
  end.

Definition calculateActivityMatch (c : Content) (user : CandidateRow) : float :=
  let userActivity := or_else (recent_activity user) 0 in
  let contentEngagement :=
    prop_or_else (likes c) 0 + prop_or_else (replies c) 0 in
  if (10 <? userActivity) && (20 <? contentEngagement) then 1.0
  else if (5 <? userActivity) && (10 <? contentEngagement) then 0.8
  else if (2 <? userActivity) && (5 <? contentEngagement) then 0.6
  else 0.4.

Definition calculateRelevanceScore (c : Content) (user : CandidateRow) : float :=
  let score := 50 in
  let score := score + calculateWealthMatch c user * 25 in
  let score := score + calculateGeoRelevance c user * 15 in
  let score := score + calculateActivityMatch c user * 10 in
  Math_min 100 (Math_max 0 score).

Definition assessContentQuality (c : Content) : float :=
  let engagement :=
    prop_or_else (likes c) 0 + prop_or_else (replies c) 0 * 2
    + prop_or_else (shares c) 0 * 3 in
  let hasImages := match images c with Some _ => true | None => false end in
  let quality := 30 in
  let quality := quality + Math_min 40 (engagement * 2) in
  let quality := quality + (if 100 <? text_length c then 20 else 10) in
  let quality := quality + (if hasImages then 10 else 0) in
  Math_min 100 quality.

Definition predictEngagementProbability (c : Content) (user : CandidateRow) : float :=
  let userActivity := or_else (recent_activity user) 0 in
  let userEngagement := or_else (avg_engagement user) 0 in
  let activityFactor := Math_min 1 (userActivity / 10) in
  let engagementFactor := Math_min 1 (userEngagement / 50) in
  let contentQuality := assessContentQuality c in
  let qualityFactor := contentQuality / 100 in
  let baseProbability := 0.3 in
  Math_min 0.9
    (baseProbability * (1 + activityFactor + engagementFactor + qualityFactor)).

Definition calculateInfluenceMultiplier (user : CandidateRow) : float :=
  let followersCount := or_else (followers_count user) 0 in
  let avgEngagement := or_else (avg_engagement user) 0 in
  let influenceScore := followersCount * Math_min 1 (avgEngagement / 100) in
  1 + Math_min 4 (influenceScore / 1000).

Definition calculateUserValue (user : TargetUser) : float :=
  relevanceScore user * engagementProbability user * influenceMultiplier user
  * ToNumber (getWealthLevelValue (wealthLevel user)).

(** [Array.prototype.sort] with a comparator [cmp]: a stable sort in which
    [a] is placed after [b] when [cmp a b > 0]; a comparator value that is
    zero, negative or [NaN] leaves [a] before [b].  Written as an insertion
    from the right, which is the sort of every consistent comparator. *)
Section Sort.
Context {A : Type} (cmp : A -> A -> float).

Fixpoint insert_sorted (x : A) (l : list A) : list A :=
  match l with
  | [] => [x]
  | y :: l' => if 0 <? cmp x y then y :: insert_sorted x l' else x :: l
  end.

Definition sort (l : list A) : list A := fold_right insert_sorted [] l.

End Sort.

Definition score (c : Content) (user : CandidateRow) : ScoredCandidate :=
  {| row := user;
     sc_relevanceScore := calculateRelevanceScore c user;
     sc_engagementProbability := predictEngagementProbability c user;
     sc_influenceMultiplier := calculateInfluenceMultiplier user |}.

Definition compareByValue (a b : ScoredCandidate) : float :=
  calculateUserValue (as_TargetUser b) - calculateUserValue (as_TargetUser a).

(** [candidates] is the answer of the store to [queryCandidatesInFramework]
    for the targeting of the request. *)
Definition findTargetsWithinFramework
  (c : Content) (candidates : list CandidateRow) : list ScoredCandidate :=
  let scoredCandidates := map (score c) candidates in
  slice 0 1000 (sort compareByValue scoredCandidates).

(** Notions of the properties below. *)



End Targeting.

(** ** ExperienceProtectorService (services/experience-protector.service.ts) *)

Module Protector.

Import JS.
#[local] Open Scope float_scope.

(** The row of the quality query: [engagement_score] and [text_length]
    are computed by the store, [created_at] is [getTime()] of the column. *)
Record PostQuality := {
  engagement_score : float;
  pq_text_length : float;
  pq_author_id : string;
  created_at : float
}.

(** The answers of the store to the queries of the service.  A query
    parameter that is [undefined] reaches the store as NULL, here [None]. *)
Record Store := {
  post_quality : option string -> option PostQuality;
  author_avg_engagement : string -> float;
  user_deliveries_24h : option string -> float;
  author_deliveries_24h : option string -> float;
  type_stats : list float
}.

(** What the checks read of a promotion ([promotion: any]). *)
Record Promotion := {
  postId : option string;
  authorId : option string
}.

Inductive RejectionReason :=
| content_quality_too_low
| frequency_limit_exceeded
| diversity_requirements_not_met.

Record QualityCheck := { score : float; issues : list string }.

Record FrequencyCheck := {
  fc_passed : bool;
  recommendedLimit : float;
  violatingUsers : list (option string)
}.

Record DiversityCheck := { dc_passed : bool; dc_issues : list string }.

Record Constraints := {
  maxDailyFrequency : float;
  minOrganicGap : float;
  qualityThreshold : float
}.

Record SafetyCheck := {
  approved : bool;
  safetyScore : float;
  rejectionReason : option RejectionReason;
  constraints : option Constraints
}.

Record QualityProtection := {
  maxFrequencyPerUser : float;
  minContentQuality : float;
  organicContentRatio : float;
  maxSameAuthor : float;
  contentTypeBalance : bool
}.

Section WithStore.
Context (st : Store) (now : float).

Definition checkAuthorReputation (authorId : string) : float :=
  let avgEngagement := or_else (author_avg_engagement st authorId) 0 in
  Math_min 1 (avgEngagement / 50).

Definition checkContentQuality (postId : option string) : QualityCheck :=
  match post_quality st postId with
  | None => {| score := 0; issues := ["post_not_found"] |}
  | Some p =>
      let score0 := 30 in
      let engagementScore := or_else (engagement_score p) 0 in
      let score1 := score0 + Math_min 40 (engagementScore / 2) in
      let textLength := or_else (pq_text_length p) 0 in
      let '(issues1, score2) :=
        if textLength <? 50 then (["content_too_short"], score1 - 20)
        else if 200 <? textLength then ([], score1 + 15)
        else ([], score1) in
      let authorReputation := checkAuthorReputation (pq_author_id p) in
      let score3 := score2 + authorReputation * 15 in
      let hoursAgo := (now - created_at p) / (1000 * 60 * 60) in
      let '(issues2, score4) :=
        if 168 <? hoursAgo then ((issues1 ++ ["content_too_old"])%list, score3 - 10)
        else (issues1, score3) in
      {| score := Math_max 0 (Math_min 100 score4); issues := issues2 |}
  end.

Definition dailyLimit : float := 3.

(** The users of the sample that the loop pushes to [violatingUsers]. *)
Definition violating (targetUsers : list TargetUser) : list TargetUser :=
  List.filter
    (fun u => dailyLimit <=? or_else (user_deliveries_24h st (userId u)) 0)
    (slice 0 100 targetUsers).

Definition violationRate (targetUsers : list TargetUser) : float :=
  Number_of_nat (length (violating targetUsers))
  / Math_min (Number_of_nat (length targetUsers)) 100.

Definition checkFrequencyLimits (targetUsers : list TargetUser) : FrequencyCheck :=
  {| fc_passed := violationRate targetUsers <? 0.2;
     recommendedLimit := dailyLimit;
     violatingUsers := map userId (violating targetUsers) |}.

(** [Math.max(...xs)]: [-Infinity] for no argument. *)
Definition Math_max_list (xs : list float) : float :=
  fold_left Math_max xs neg_infinity.

Definition checkContentTypeDiversity : bool * float :=
  let totalPromotions := JS.sum (type_stats st) in
  let maxTypeCount := Math_max_list (type_stats st) in
  let dominanceRatio := maxTypeCount / Math_max 1 totalPromotions in
  (dominanceRatio <? 0.6, dominanceRatio).

Definition checkPromotionDiversity (promotion : Promotion) : DiversityCheck :=
  let authorDailyCount :=
    or_else (author_deliveries_24h st (authorId promotion)) 0 in
  let issues1 :=
    if 2 <=? authorDailyCount then ["same_author_too_frequent"] else [] in
  let issues2 :=
    if fst checkContentTypeDiversity then issues1
    else (issues1 ++ ["content_type_not_diverse"])%list in
  {| dc_passed := Nat.eqb (length issues2) 0; dc_issues := issues2 |}.

Definition calculateSafetyScore
  (qualityCheck : QualityCheck) (frequencyCheck : FrequencyCheck)
  (diversityCheck : DiversityCheck) : float :=
  let s := 0 in
  let s := s + score qualityCheck * 0.5 in
  let frequencyScore := if fc_passed frequencyCheck then 100 else 0 in
  let s := s + frequencyScore * 0.3 in
  let diversityScore := if dc_passed diversityCheck then 100 else 0 in
  let s := s + diversityScore * 0.2 in
  Math_min 100 s.

Definition checkPromotionSafety
  (promotion : Promotion) (targetUsers : list TargetUser) : SafetyCheck :=
  let qualityCheck := checkContentQuality (postId promotion) in
  if score qualityCheck <? 40 then
    {| approved := false; safetyScore := score qualityCheck;
       rejectionReason := Some content_quality_too_low; constraints := None |}
  else
    let frequencyCheck := checkFrequencyLimits targetUsers in
    if negb (fc_passed frequencyCheck) then
      {| approved := false; safetyScore := 0;
         rejectionReason := Some frequency_limit_exceeded; constraints := None |}
    else
      let diversityCheck := checkPromotionDiversity promotion in
      if negb (dc_passed diversityCheck) then
        {| approved := false; safetyScore := 0;
           rejectionReason := Some diversity_requirements_not_met;
           constraints := None |}
      else
        {| approved := true;
           safetyScore :=
             calculateSafetyScore qualityCheck frequencyCheck diversityCheck;
           rejectionReason := None;
           constraints :=
             Some {| maxDailyFrequency := recommendedLimit frequencyCheck;
                     minOrganicGap := 3;
                     qualityThreshold := score qualityCheck |} |}.

Definition generateProtectionReport : QualityProtection :=
  {| maxFrequencyPerUser := 3;
     minContentQuality := 40;
     organicContentRatio := 0.85;
     maxSameAuthor := 2;
     contentTypeBalance := true |}.

Record Approved := {
  a_promotion : Promotion;
  a_safetyScore : float;
  deliveryConstraints : option Constraints
}.

Record Rejected := {
  r_promotion : Promotion;
  r_rejectionReason : option RejectionReason
}.

Record Protection := {
  approvedPromotions : list Approved;
  rejectedPromotions : list Rejected;
  protectionReport : QualityProtection
}.

(** The loop pushes every promotion to one of the two lists, in order. *)
Definition protectUserExperience
  (promotions : list Promotion) (targetUsers : list TargetUser) : Protection :=
  let checks :=
    map (fun p => (p, checkPromotionSafety p targetUsers)) promotions in
  {| approvedPromotions :=
       map (fun pc => {| a_promotion := fst pc;
                         a_safetyScore := safetyScore (snd pc);
                         deliveryConstraints := constraints (snd pc) |})
         (List.filter (fun pc => approved (snd pc)) checks);
     rejectedPromotions :=
       map (fun pc => {| r_promotion := fst pc;
                         r_rejectionReason := rejectionReason (snd pc) |})
         (List.filter (fun pc => negb (approved (snd pc))) checks);
     protectionReport := generateProtectionReport |}.

End WithStore.

End Protector.

(** ** PromotionOptimizerService (services/promotion-optimizer.service.ts) *)

Module Optimizer.

Import JS.
#[local] Open Scope float_scope.

Record Budget := {
  total : float;
  dailyLimit : option float;
  duration : float
}.

(** [goals] is never read. *)
Record PromotionRequest := {
  req_authorId : string;
  req_postId : string;
  budget : Budget;
  targeting : Targeting
}.

(** The store as the optimizer queries it. *)
Record Store := {
  getContentInfo : string -> option Content;
  queryCandidatesInFramework : Targeting -> list CandidateRow;
  protector_store : Protector.Store
}.

(** What one run reads of the clock and of [Math.random], in the order
    of the calls: [new Date().getHours()] and [new Date().getDay()]
    for the pricing, [Date.now()] in the quality check, [new Date()] and
    [Date.now()] for the schedule, [Date.now()] and the digits of
    [Math.random().toString(36).slice(2)] for the identifier. *)
Record Env := {
  hours_now : float;
  day_now : Z;
  quality_now : float;
  schedule_start : float;
  schedule_now : float;
  id_now : N;
  random_digits : string
}.

Record BudgetAllocation := {
  ba_total : float;
  wealthLevelAllocations : Pricing.allocation_record;
  timeSlotAllocations : list float;
  actionPricing : ActionType -> float
}.

Record TargetingPlan := {
  primaryTargets : list Targeting.ScoredCandidate;
  secondaryTargets : list Targeting.ScoredCandidate;
  totalReach : float;
  averageRelevance : float
}.

Record DaySchedule := {
  ds_day : float;
  ds_budget : float;
  ds_targets : list Targeting.ScoredCandidate;
  hourlyDistribution : list float
}.

Record DeliverySchedule := {
  startTime : float;
  endTime : float;
  dailySchedule : list DaySchedule;
  timeAllocations : list float
}.

Record ExpectedOutcome := {
  estimatedViews : float;
  estimatedClicks : float;
  estimatedEngagements : float;
  estimatedFollows : float;
  expectedROI : float;
  goalAchievementProbability : float
}.

Record PromotionPlan := {
  promotionId : string;
  plan_postId : string;
  plan_authorId : string;
  plan_budget : BudgetAllocation;
  plan_targeting : TargetingPlan;
  schedule : DeliverySchedule;
  expectedOutcome : ExpectedOutcome;
  qualityProtection : Protector.QualityProtection
}.

(** [user.wealthLevel === k] for a string literal [k]. *)
Definition wealth_is (w : option WealthLevel) (k : string) : bool :=
  match w with
  | Some w => String.eqb (wealth_key w) k
  | None => false
  end.

(** The property name [user.wealthLevel] makes as an index. *)
Definition wealth_index (w : option WealthLevel) : string :=
  match w with
  | Some w => wealth_key w
  | None => "undefined"
  end.

(** [patterns[h] += d] for the hours [lo..hi]; the hour is the index. *)
Definition add_hours (lo hi : nat) (d : float) (patterns : list float) : list float :=
  imap (fun h v => if (lo <=? h)%nat && (h <=? hi)%nat then v + d else v) patterns.

Definition analyzeUserActivityPatterns (targetUsers : list TargetUser) : list float :=
  let patterns := repeat 0.1 24 in
  let patterns :=
    fold_left
      (fun patterns user =>
         if wealth_is (wealthLevel user) "Whale"
            || wealth_is (wealthLevel user) "Dolphin"
         then add_hours 9 18 0.3 patterns
         else add_hours 19 23 0.2 patterns)
      targetUsers patterns in
  let maxActivity := Protector.Math_max_list patterns in
  map (fun v => v / maxActivity) patterns.

(** The entry of hour [h] stands for the property [hour_h]. *)
Definition distributeByActivity
  (budgetAllocations : Pricing.allocation_record)
  (activityPatterns : list float) : list float :=
  let totalBudget := Pricing.allocation_total budgetAllocations in
  let totalActivity := JS.sum activityPatterns in
  map (fun activity => (activity / totalActivity) * totalBudget) activityPatterns.

Definition selectDayTargets {A}
  (allTargets : list A) (day totalDays : float) : list A :=
  let len := Number_of_nat (length allTargets) in
  let usersPerDay := Math_ceil (len / totalDays) in
  let startIndex := day * usersPerDay in
  let endIndex := Math_min (startIndex + usersPerDay) len in
  slice_by startIndex endIndex allTargets.

Definition calculateAverageRelevance (users : list TargetUser) : float :=
  if Nat.eqb (length users) 0 then 0
  else JS.sum (map relevanceScore users) / Number_of_nat (length users).

Definition assessContentQuality (c : Content) : float :=
  let engagement :=
    prop_or_else (likes c) 0 + prop_or_else (replies c) 0 * 2
    + prop_or_else (shares c) 0 * 3 in
  let hasImages :=
    match images c with
    | Some l => negb (Nat.eqb (length l) 0)
    | None => false
    end in
  let quality := 20 in
  let quality := quality + Math_min 50 engagement in
  let quality := quality + (if 200 <? Targeting.text_length c then 20 else 10) in
  let quality := quality + (if hasImages then 10 else 0) in
  Math_min 100 quality.

(** [toLowerCase] on the letters A to Z. *)
Definition toLowerCase (t : text) : text :=
  map (fun u => if (65 <=? u)%N && (u <=? 90)%N then (u + 32)%N else u) t.

Fixpoint starts_with (k t : text) : bool :=
  match k, t with
  | [], _ => true
  | _ :: _, [] => false
  | a :: k', b :: t' => (a =? b)%N && starts_with k' t'
  end.

Fixpoint includes (t k : text) : bool :=
  starts_with k t ||
  match t with
  | [] => false
  | _ :: t' => includes t' k
  end.

Definition businessKeywords : list text :=
  [ [0x6295; 0x8D44]%N; [0x5408; 0x4F5C]%N; [0x521B; 0x4E1A]%N;
    [0x9879; 0x76EE]%N; [0x5546; 0x673A]%N;
    text_of_string "investment"; text_of_string "partnership";
    text_of_string "startup"; text_of_string "business" ].

Definition assessContentBusinessPotential (c : Content) : float :=
  let t := toLowerCase (default [] (content_text c)) in
  let keywordMatches :=
    Number_of_nat (length (List.filter (includes t) businessKeywords)) in
  Math_min 100 (keywordMatches * 20 + 20).

Definition wealthValues : obj :=
  [("Plankton", 1); ("Turtle", 3); ("Dolphin", 7); ("Whale", 15)].

Definition calculateAudienceBusinessValue (targetUsers : list TargetUser) : float :=
  let len := Number_of_nat (length targetUsers) in
  let avgWealthValue :=
    fold_left
      (fun sum user =>
         sum + ToNumber (obj_get wealthValues (wealth_index (wealthLevel user))))
      targetUsers 0 / len in
  let avgInfluence := JS.sum (map influenceMultiplier targetUsers) / len in
  avgWealthValue * avgInfluence.

Definition calculateExpectedBusinessValue
  (c : Content) (targetUsers : list TargetUser) : float :=
  let contentValue := assessContentBusinessPotential c in
  let audienceValue := calculateAudienceBusinessValue targetUsers in
  contentValue * audienceValue * Number_of_nat (length targetUsers) * 0.01.

Section WithLog.
(** [Math.log2], which the primitive floats do not provide. *)
Context (Math_log2 : float -> float).

Definition calculateWealthDistribution (targetUsers : list TargetUser) : float :=
  let distribution : obj :=
    [("Plankton", 0); ("Turtle", 0); ("Dolphin", 0); ("Whale", 0)] in
  let distribution :=
    fold_left
      (fun d user =>
         let k := wealth_index (wealthLevel user) in
         obj_set d k (ToNumber (obj_get d k) + 1))
      targetUsers distribution in
  let total := Number_of_nat (length targetUsers) in
  let entropy :=
    fold_left
      (fun sum count =>
         if count =? 0 then sum
         else let p := count / total in sum - p * Math_log2 p)
      (obj_values distribution) 0 in
  (entropy / 2) * 100.

Definition calculateAudienceQuality (targetUsers : list TargetUser) : float :=
  let avgRelevance := calculateAverageRelevance targetUsers in
  let avgEngagement :=
    JS.sum (map engagementProbability targetUsers)
    / Number_of_nat (length targetUsers) in
  let wealthDistribution := calculateWealthDistribution targetUsers in
  (avgRelevance + avgEngagement * 100 + wealthDistribution) / 3.

Definition calculateGoalAchievementProbability
  (c : Content) (targetUsers : list TargetUser) (averageRelevance : float) : float :=
  let contentQuality := assessContentQuality c in
  let audienceQuality := calculateAudienceQuality targetUsers in
  let baseProbability := 0.4 in
  let qualityBonus := (contentQuality / 100) * 0.3 in
  let audienceBonus := (audienceQuality / 100) * 0.2 in
  let relevanceBonus := (averageRelevance / 100) * 0.1 in
  Math_min 0.95 (baseProbability + qualityBonus + audienceBonus + relevanceBonus).

(** [pricingStrategy] is a parameter that the body never reads. *)
Definition predictPromotionOutcome
  (c : Content) (targetUsers : list TargetUser)
  (budgetOptimization : Pricing.BudgetOptimization)
  (pricingStrategy : Pricing.PricingStrategy) : ExpectedOutcome :=
  let totalBudget :=
    Pricing.allocation_total (Pricing.recommendedAllocation budgetOptimization) in
  let averageRelevance := calculateAverageRelevance targetUsers in
  let averageEngagementProb :=
    JS.sum (map engagementProbability targetUsers)
    / Number_of_nat (length targetUsers) in
  let estimatedViews := Math_floor (totalBudget / 0.002) in
  let expectedBusinessValue := calculateExpectedBusinessValue c targetUsers in
  {| estimatedViews := estimatedViews;
     estimatedClicks := Math_floor (estimatedViews * averageEngagementProb * 0.1);
     estimatedEngagements :=
       Math_floor (estimatedViews * averageEngagementProb * 0.05);
     estimatedFollows := Math_floor (estimatedViews * averageEngagementProb * 0.02);
     expectedROI := expectedBusinessValue / totalBudget;
     goalAchievementProbability :=
       calculateGoalAchievementProbability c targetUsers averageRelevance |}.

Definition estimateExpectedActions (targetUsers : list TargetUser) : obj :=
  let totalUsers := Number_of_nat (length targetUsers) in
  let avgEngagement :=
    JS.sum (map engagementProbability targetUsers) / totalUsers in
  [("view", totalUsers);
   ("click", Math_floor (totalUsers * avgEngagement * 0.1));
   ("like", Math_floor (totalUsers * avgEngagement * 0.05));
   ("comment", Math_floor (totalUsers * avgEngagement * 0.02));
   ("share", Math_floor (totalUsers * avgEngagement * 0.03));
   ("unlock", Math_floor (totalUsers * avgEngagement * 0.01));
   ("follow", Math_floor (totalUsers * avgEngagement * 0.02))].

(** [startTime] and [endTime] are the [getTime()] of the two dates. *)
Definition createOptimalSchedule
  (start now : float) (targetUsers : list Targeting.ScoredCandidate)
  (duration : float) (budgetAllocations : Pricing.allocation_record)
  : DeliverySchedule :=
  let activityPatterns :=
    analyzeUserActivityPatterns (map Targeting.as_TargetUser targetUsers) in
  let hourlyAllocations := distributeByActivity budgetAllocations activityPatterns in
  let dailySchedule :=
    map (fun day =>
           {| ds_day := day;
              ds_budget := Pricing.allocation_total budgetAllocations / duration;
              ds_targets := selectDayTargets targetUsers day duration;
              hourlyDistribution := hourlyAllocations |})
      (loop_range duration) in
  {| startTime := start;
     endTime := now + duration * 24 * 60 * 60 * 1000;
     dailySchedule := dailySchedule;
     timeAllocations := hourlyAllocations |}.

(** The digit of a value below 36 in [toString(36)]. *)
Definition digit36 (d : N) : ascii :=
  if (d <? 10)%N then ascii_of_N (48 + d) else ascii_of_N (87 + d).

Fixpoint to_base36_fuel (fuel : nat) (n : N) (acc : string) : string :=
  match fuel with
  | O => acc
  | S fuel' =>
      let acc' := String (digit36 (n mod 36)) acc in
      if (n <? 36)%N then acc' else to_base36_fuel fuel' (n / 36) acc'
  end.

(** [n.toString(36)] for a non-negative integer [n]. *)
Definition toString36 (n : N) : string :=
  to_base36_fuel (S (N.to_nat (N.log2 n))) n "".

Definition generatePromotionId (env : Env) : string :=
  "promo_" ++ toString36 (id_now env) ++ "_" ++ random_digits env.

(** The steps 2 to 7 and the returned plan, for the content found. *)
Definition plan_for
  (env : Env) (st : Store) (request : PromotionRequest) (c : Content)
  : PromotionPlan :=
  let targetUsers :=
    Targeting.findTargetsWithinFramework c
      (queryCandidatesInFramework st (targeting request)) in
  let users := map Targeting.as_TargetUser targetUsers in
  let pricingStrategy :=
    Pricing.calculateDynamicPricing (day_now env)
      (wealthLevels (targeting request)) (assessContentQuality c)
      (hours_now env) "CN" in
  let budgetOptimization :=
    Pricing.calculateBudgetOptimization (total (budget request))
      (wealthLevels (targeting request)) (estimateExpectedActions users) in
  let experienceProtection :=
    Protector.protectUserExperience (protector_store st) (quality_now env)
      [ {| Protector.postId := Some (req_postId request);
           Protector.authorId := Some (req_authorId request) |} ]
      users in
  let deliverySchedule :=
    createOptimalSchedule (schedule_start env) (schedule_now env)
      targetUsers (duration (budget request))
      (Pricing.recommendedAllocation budgetOptimization) in
  let expectedOutcome :=
    predictPromotionOutcome c users budgetOptimization pricingStrategy in
  let len := Number_of_nat (length targetUsers) in
  {| promotionId := generatePromotionId env;
     plan_postId := req_postId request;
     plan_authorId := req_authorId request;
     plan_budget :=
       {| ba_total := total (budget request);
          wealthLevelAllocations :=
            Pricing.recommendedAllocation budgetOptimization;
          timeSlotAllocations := timeAllocations deliverySchedule;
          actionPricing := Pricing.basePrices pricingStrategy |};
     plan_targeting :=
       {| primaryTargets :=
            slice_by 0 (Math_floor (len * 0.7)) targetUsers;
          secondaryTargets :=
            slice_from (Math_floor (len * 0.7)) targetUsers;
          totalReach := len;
          averageRelevance := calculateAverageRelevance users |};
     schedule := deliverySchedule;
     expectedOutcome := expectedOutcome;
     qualityProtection :=
       Protector.protectionReport experienceProtection |}.

(** [None] is the thrown [Error('Post not found')]. *)
Definition optimizePromotionWithinFramework
  (env : Env) (st : Store) (request : PromotionRequest) : option PromotionPlan :=
  match getContentInfo st (req_postId request) with
  | None => None
  | Some c => Some (plan_for env st request c)
  end.

End WithLog.

(** Notions of the properties below. *)

(** A plan without what it takes from the clock and from [Math.random]:
    the identifier and the two ends of the schedule. *)
Definition clock_free (p : PromotionPlan) : PromotionPlan :=
  {| promotionId := "";
     plan_postId := plan_postId p;
     plan_authorId := plan_authorId p;
     plan_budget := plan_budget p;
     plan_targeting := plan_targeting p;
     schedule :=
       {| startTime := 0; endTime := 0;
          dailySchedule := dailySchedule (schedule p);
          timeAllocations := timeAllocations (schedule p) |};
     expectedOutcome := expectedOutcome p;
     qualityProtection := qualityProtection p |}.

(** The bounds of the slices that [selectDayTargets] takes of [n]
    targets on the days of a schedule. *)
Definition day_cuts (n : nat) (totalDays : float) : list (nat * nat) :=
  let len := Number_of_nat n in
  let usersPerDay := Math_ceil (len / totalDays) in
  map (fun day =>
         (relative_index n (day * usersPerDay),
          relative_index n (Math_min (day * usersPerDay + usersPerDay) len)))
    (loop_range totalDays).

(** The slices follow one another from [start] to [n]. *)
Fixpoint chain_ok (start : nat) (cuts : list (nat * nat)) (n : nat) : bool :=
  match cuts with
  | [] => Nat.eqb start n
  | (a, b) :: cuts' => Nat.eqb a start && Nat.leb a b && chain_ok b cuts' n
  end.

End Optimizer.

(** ** The promotion tables (migrations/001_create_promotion_tables.sql) *)

Module Lifecycle.

#[local] Open Scope Z_scope.

Inductive PromotionStatus := active | completed | stopped_early.

Inductive RefundTaskStatus := task_scheduled | task_completed | task_failed.

Inductive QueueStatus := queue_scheduled | queue_delivered | queue_cancelled.

#[global] Instance PromotionStatus_eq_dec : EqDecision PromotionStatus.
Proof. solve_decision. Defined.

#[global] Instance RefundTaskStatus_eq_dec : EqDecision RefundTaskStatus.
Proof. solve_decision. Defined.

#[global] Instance QueueStatus_eq_dec : EqDecision QueueStatus.
Proof. solve_decision. Defined.

(** A row of [promotions]; the primary key [id] is the key of the table. *)
Record PromotionRow := {
  post_id : string;
  p_author_id : string;
  budget_total : Z;
  duration_days : Z;
  p_target_wealth_levels : list WealthLevel;
  preferred_regions : list string;
  exclude_followers : bool;
  status : PromotionStatus;
  p_created_at : Z;
  expires_at : Z;
  completed_at : option Z
}.

Record QueueRow := {
  q_promotion_id : string;
  q_user_id : string;
  scheduled_delivery : Z;
  q_status : QueueStatus;
  cancelled_at : option Z;
  cancellation_reason : option string
}.

Record ExpenseRow := {
  e_promotion_id : string;
  e_user_id : string;
  action_type : string;
  cost : Z
}.

Record RefundTaskRow := {
  t_promotion_id : string;
  original_budget : Z;
  refund_date : Z;
  refund_amount : option Z;
  t_status : RefundTaskStatus;
  processed_at : option Z
}.

(** A row of [points_ledger] as [executeRefund] writes it: type [earn],
    reference type [promotion_refund]. *)
Record LedgerRow := {
  l_user_id : string;
  amount : Z;
  reference_id : string;
  l_created_at : Z
}.

Record DB := {
  promotions : gmap string PromotionRow;
  promotion_queue : list QueueRow;
  promotion_expenses : list ExpenseRow;
  refund_tasks : list RefundTaskRow;
  points_ledger : list LedgerRow
}.

Definition with_promotions (db : DB) (ps : gmap string PromotionRow) : DB :=
  {| promotions := ps; promotion_queue := promotion_queue db;
     promotion_expenses := promotion_expenses db;
     refund_tasks := refund_tasks db; points_ledger := points_ledger db |}.

Definition with_queue (db : DB) (q : list QueueRow) : DB :=
  {| promotions := promotions db; promotion_queue := q;
     promotion_expenses := promotion_expenses db;
     refund_tasks := refund_tasks db; points_ledger := points_ledger db |}.

Definition with_tasks (db : DB) (ts : list RefundTaskRow) : DB :=
  {| promotions := promotions db; promotion_queue := promotion_queue db;
     promotion_expenses := promotion_expenses db;
     refund_tasks := ts; points_ledger := points_ledger db |}.

Definition with_ledger (db : DB) (l : list LedgerRow) : DB :=
  {| promotions := promotions db; promotion_queue := promotion_queue db;
     promotion_expenses := promotion_expenses db;
     refund_tasks := refund_tasks db; points_ledger := l |}.

Definition set_status (s : PromotionStatus) (now : Z) (p : PromotionRow) : PromotionRow :=
  {| post_id := post_id p; p_author_id := p_author_id p;
     budget_total := budget_total p; duration_days := duration_days p;
     p_target_wealth_levels := p_target_wealth_levels p;
     preferred_regions := preferred_regions p;
     exclude_followers := exclude_followers p;
     status := s; p_created_at := p_created_at p;
     expires_at := expires_at p; completed_at := Some now |}.

(** [COALESCE(SUM(pe.cost), 0)] over the expenses of a promotion. *)
Definition total_spent (db : DB) (pid : string) : Z :=
  foldr Z.add 0
    (map cost
       (List.filter (fun e => bool_decide (e_promotion_id e = pid))
          (promotion_expenses db))).

(** ** RefundService (services/refund.service.ts) *)

(** [INSERT INTO points_ledger]. *)
Definition executeRefund
  (authorId : string) (amt : Z) (promotionId : string) (now : Z) (db : DB) : DB :=
  with_ledger db
    (points_ledger db ++
     [ {| l_user_id := authorId; amount := amt;
          reference_id := promotionId; l_created_at := now |} ])%list.

(** A row of the query of [processScheduledRefunds]. *)
Record RefundRow := {
  rr_promotion_id : string;
  rr_original_budget : Z;
  rr_author_id : string;
  rr_post_id : string;
  rr_total_spent : Z
}.

(** The tasks that the WHERE clause and the join with [promotions] keep. *)
Definition due_task (now : Z) (db : DB) (t : RefundTaskRow) : bool :=
  bool_decide (t_status t = task_scheduled)
  && (refund_date t <=? now)
  && bool_decide (is_Some (promotions db !! t_promotion_id t)).

Definition due_tasks (now : Z) (db : DB) : list RefundTaskRow :=
  List.filter (due_task now db) (refund_tasks db).

Definition task_key (t : RefundTaskRow) : string * Z :=
  (t_promotion_id t, original_budget t).

(** One row per group of [GROUP BY rt.promotion_id, rt.original_budget,
    p.author_id, p.post_id]; the sum runs over the joined rows of the
    group, one per task of the group and expense of the promotion. *)
Definition refund_row (now : Z) (db : DB) (k : string * Z) : list RefundRow :=
  match promotions db !! k.1 with
  | Some p =>
      let n :=
        length (List.filter (fun t => bool_decide (task_key t = k))
                  (due_tasks now db)) in
      [ {| rr_promotion_id := k.1; rr_original_budget := k.2;
           rr_author_id := p_author_id p; rr_post_id := post_id p;
           rr_total_spent := Z.of_nat n * total_spent db k.1 |} ]
  | None => []
  end.

Definition expiredPromotions (now : Z) (db : DB) : list RefundRow :=
  flat_map (refund_row now db) (remove_dups (map task_key (due_tasks now db))).

Definition complete_task (refundAmount now : Z) (t : RefundTaskRow) : RefundTaskRow :=
  {| t_promotion_id := t_promotion_id t;
     original_budget := original_budget t;
     refund_date := refund_date t;
     refund_amount := Some refundAmount;
     t_status := task_completed;
     processed_at := Some now |}.

Definition processRefund (now : Z) (db : DB) (promotion : RefundRow) : DB :=
  let originalBudget := rr_original_budget promotion in
  let totalSpent := rr_total_spent promotion in
  let refundAmount := Z.max 0 (originalBudget - totalSpent) in
  let db1 :=
    if 0 <? refundAmount
    then executeRefund (rr_author_id promotion) refundAmount
           (rr_promotion_id promotion) now db
    else db in
  let db2 :=
    with_promotions db1
      (alter (set_status completed now) (rr_promotion_id promotion)
         (promotions db1)) in
  with_tasks db2
    (map (fun t =>
            if bool_decide (t_promotion_id t = rr_promotion_id promotion)
            then complete_task refundAmount now t else t)
       (refund_tasks db2)).

Definition processScheduledRefunds (now : Z) (db : DB) : DB :=
  fold_left (processRefund now) (expiredPromotions now db) db.

(** [None] is the thrown [Error('Promotion not found')]. *)
Definition checkRemainingBudget (db : DB) (promotionId : string) : option Z :=
  p ← promotions db !! promotionId;
  Some (Z.max 0 (budget_total p - total_spent db promotionId)).

Definition cancel_queue (reason : string) (now : Z) (q : QueueRow) : QueueRow :=
  {| q_promotion_id := q_promotion_id q; q_user_id := q_user_id q;
     scheduled_delivery := scheduled_delivery q;
     q_status := queue_cancelled;
     cancelled_at := Some now;
     cancellation_reason := Some reason |}.

(** The boolean is [false] when the call throws; the writes made before
    the throw stay. *)
Definition stopPromotionEarly
  (promotionId reason : string) (now : Z) (db : DB) : DB * bool :=
  let db1 :=
    with_queue db
      (map (fun q =>
              if bool_decide (q_promotion_id q = promotionId)
                 && bool_decide (q_status q = queue_scheduled)
              then cancel_queue reason now q else q)
         (promotion_queue db)) in
  let db2 :=
    with_promotions db1
      (alter (set_status stopped_early now) promotionId (promotions db1)) in
  match checkRemainingBudget db2 promotionId with
  | None => (db2, false)
  | Some remainingBudget =>
      if 0 <? remainingBudget then
        match promotions db2 !! promotionId with
        | Some p =>
            (executeRefund (p_author_id p) remainingBudget promotionId now db2,
             true)
        | None => (db2, true)
        end
      else (db2, true)
  end.

(** ** SchedulerService (services/scheduler.service.ts) *)

(** The HAVING clause: the spend has reached 98% of the budget. *)
Definition exhausted (now : Z) (db : DB) (pid : string) (p : PromotionRow) : bool :=
  bool_decide (status p = active)
  && (now <? expires_at p)
  && (98 * budget_total p <=? 100 * total_spent db pid).

Definition exhaustedPromotions (now : Z) (db : DB) : list string :=
  map fst
    (List.filter (fun kp => exhausted now db kp.1 kp.2)
       (map_to_list (promotions db))).

(** The loop stops at the first call that throws. *)
Fixpoint stop_each (ids : list string) (now : Z) (db : DB) : DB :=
  match ids with
  | [] => db
  | id :: ids' =>
      let '(db', ok) := stopPromotionEarly id "budget_exhausted" now db in
      if ok then stop_each ids' now db' else db'
  end.

Definition checkBudgetExhaustion (now : Z) (db : DB) : DB :=
  stop_each (exhaustedPromotions now db) now db.

(** One run of a sweep of the scheduler. *)
Inductive Sweep :=
| RefundSweep (now : Z)
| ExhaustionSweep (now : Z).

Definition run_sweep (db : DB) (s : Sweep) : DB :=
  match s with
  | RefundSweep now => processScheduledRefunds now db
  | ExhaustionSweep now => checkBudgetExhaustion now db
  end.

Definition run_sweeps (ss : list Sweep) (db : DB) : DB :=
  fold_left run_sweep ss db.

(** The per-item operations of the two sweeps, as racing runs may
    apply them: a refund for a row, or an early stop for an identifier,
    selected at some earlier time. *)
Inductive Operation :=
| RefundOperation (now : Z) (row : RefundRow)
| StopOperation (id reason : string) (now : Z).

Definition run_operation (db : DB) (op : Operation) : DB :=
  match op with
  | RefundOperation now row => processRefund now db row
  | StopOperation id reason now => (stopPromotionEarly id reason now db).1
  end.

Definition run_operations (ops : list Operation) (db : DB) : DB :=
  fold_left run_operation ops db.

(** The refund credits of a promotion on the ledger. *)
Definition credits (db : DB) (pid : string) : list LedgerRow :=
  List.filter (fun l => bool_decide (reference_id l = pid)) (points_ledger db).

Definition status_of (db : DB) (pid : string) : option PromotionStatus :=
  status <$> promotions db !! pid.

Definition tasks_of (db : DB) (pid : string) : list RefundTaskRow :=
  List.filter (fun t => bool_decide (t_promotion_id t = pid)) (refund_tasks db).

(** Notions of the properties below. *)

(** The foreign key of [refund_tasks]: a task belongs to a promotion of
    the table. *)
Definition tasks_reference_promotions (db : DB) : Prop :=
  forall t, In t (refund_tasks db) -> is_Some (promotions db !! t_promotion_id t).

Definition refund_of (row : RefundRow) : Z :=
  Z.max 0 (rr_original_budget row - rr_total_spent row).

Definition credit_of (now : Z) (row : RefundRow) : list LedgerRow :=
  if 0 <? refund_of row
  then [ {| l_user_id := rr_author_id row; amount := refund_of row;
            reference_id := rr_promotion_id row; l_created_at := now |} ]
  else [].

Definition complete_by (now : Z) (t : RefundTaskRow) (row : RefundRow) : RefundTaskRow :=
  if bool_decide (t_promotion_id t = rr_promotion_id row)
  then complete_task (refund_of row) now t else t.

Definition complete_promotion (now : Z)
  (m : gmap string PromotionRow) (row : RefundRow) : gmap string PromotionRow :=
  alter (set_status completed now) (rr_promotion_id row) m.

(** The scheduled tasks of a promotion. *)
Definition scheduled_tasks (db : DB) (pid : string) : list RefundTaskRow :=
  List.filter (fun t => bool_decide (t_status t = task_scheduled)) (tasks_of db pid).


(** The credit of an early stop: the remaining budget, when positive. *)
Definition early_credit (now : Z) (db : DB) (pid : string) : list LedgerRow :=
  match promotions db !! pid with
  | Some p =>
      if 0 <? Z.max 0 (budget_total p - total_spent db pid)
      then [ {| l_user_id := p_author_id p;
                amount := Z.max 0 (budget_total p - total_spent db pid);
                reference_id := pid; l_created_at := now |} ]
      else []
  | None => []
  end.

Definition active_count (db : DB) (pid : string) : nat :=
  match status_of db pid with
  | Some active => 1
  | _ => 0
  end.

(** The credits of a promotion, plus one if it is active, plus its
    scheduled refund tasks. *)
Definition refund_potential (db : DB) (pid : string) : nat :=
  length (credits db pid) + active_count db pid
  + length (scheduled_tasks db pid).

(** ** RefundService: expenses *)

Definition with_expenses (db : DB) (es : list ExpenseRow) : DB :=
  {| promotions := promotions db; promotion_queue := promotion_queue db;
     promotion_expenses := es;
     refund_tasks := refund_tasks db; points_ledger := points_ledger db |}.

(** What the store makes of a text that a statement assigns to a
    column: [uuid_in s] is the UUID that [s] denotes and [varchar_in n s]
    the text that a column VARCHAR(n) keeps of [s]; [None] is the error
    the store raises, for a text that is no UUID and for a text that
    does not fit [n] characters. *)
Section WithColumnTypes.

Context (uuid_in : string -> option string)
        (varchar_in : nat -> string -> option string).

(** [INSERT INTO promotion_expenses].  The columns are [promotion_id
    VARCHAR(255)], [user_id UUID], [action_type VARCHAR(50)] and [cost
    DECIMAL(8,4)], all NOT NULL (migration, lines 32-40).  [cost] is the
    amount in the units of the column; DECIMAL(8,4) refuses an amount of
    10000 coins or more, and the foreign key of the table a row for a
    promotion that is not in [promotions].  The boolean is [false] when
    the insert throws. *)
Definition recordPromotionExpense
  (promotionId userId action : string) (cost : Z) (db : DB) : DB * bool :=
  match varchar_in 255 promotionId, uuid_in userId, varchar_in 50 action with
  | Some pid, Some uid, Some act =>
      if bool_decide (is_Some (promotions db !! pid))
         && (Z.abs cost <? 100000000)
      then
        (with_expenses db
           (promotion_expenses db ++
            [ {| e_promotion_id := pid; e_user_id := uid;
                 action_type := act; cost := cost |} ])%list,
         true)
      else (db, false)
  | _, _, _ => (db, false)
  end.

End WithColumnTypes.

(** ** SchedulerService: the timers *)

Inductive Job := ProcessRefunds | CheckBudgetExhaustion | ResetDailyStats.

(** The flag of the service and the intervals registered with
    [setInterval], each with its period in milliseconds. *)
Record Scheduler := {
  isRunning : bool;
  intervals : list (Z * Job)
}.

(** The second component is the jobs that the call runs at once. *)
Definition start (s : Scheduler) : Scheduler * list Job :=
  if isRunning s then (s, [])
  else
    ({| isRunning := true;
        intervals :=
          (intervals s ++
           [ (60 * 60 * 1000, ProcessRefunds);
             (10 * 60 * 1000, CheckBudgetExhaustion);
             (24 * 60 * 60 * 1000, ResetDailyStats) ])%list |},
     [ProcessRefunds]).

Definition stop (s : Scheduler) : Scheduler :=
  {| isRunning := false; intervals := intervals s |}.

Inductive Call := Start | Stop.

Definition run_call (s : Scheduler) (c : Call) : Scheduler :=
  match c with
  | Start => (start s).1
  | Stop => stop s
  end.

Definition run_calls (cs : list Call) (s : Scheduler) : Scheduler :=
  fold_left run_call cs s.

(** Notions of the properties of the expenses, of the exhaustion sweep
    and of the timers. *)

(** The queue rows that the early stops of [ids] cancel. *)
Definition cancel_exhausted (ids : list string) (now : Z) (q : QueueRow) : QueueRow :=
  if bool_decide (q_promotion_id q ∈ ids)
     && bool_decide (q_status q = queue_scheduled)
  then cancel_queue "budget_exhausted" now q else q.

(** The terms of a promotion, which no sweep writes. *)
Definition same_terms (p p' : PromotionRow) : Prop :=
  post_id p' = post_id p /\ p_author_id p' = p_author_id p
  /\ budget_total p' = budget_total p /\ duration_days p' = duration_days p
  /\ p_target_wealth_levels p' = p_target_wealth_levels p
  /\ preferred_regions p' = preferred_regions p
  /\ exclude_followers p' = exclude_followers p
  /\ p_created_at p' = p_created_at p /\ expires_at p' = expires_at p.

(** The two states have the same promotions, with the same terms. *)
Definition terms_kept (db db' : DB) : Prop :=
  forall pid,
    match promotions db !! pid, promotions db' !! pid with
    | Some p, Some p' => same_terms p p'
    | None, None => True
    | _, _ => False
    end.

(** The starts of a list of calls that find the service stopped. *)
Fixpoint effective_starts (running : bool) (cs : list Call) : nat :=
  match cs with
  | [] => 0
  | Start :: cs' => (if running then 0 else 1) + effective_starts true cs'
  | Stop :: cs' => effective_starts false cs'
  end.

End Lifecycle.

(** ** PromotionController: creation (controllers/promotion.controller.ts) *)

Module Controller.

Import Lifecycle.
#[local] Open Scope Z_scope.

(** The request after validation.  [total] is the DECIMAL(10,4) amount
    the store keeps of [budget.total]; [duration] is a whole number of
    days, the INTEGER column [duration_days] accepting no other. *)
Record PromotionRequest := {
  authorId : string;
  postId : string;
  total : Z;
  duration : Z;
  targeting : Targeting
}.

(** The clock as the three steps of [startPromotionExecution] read it. *)
Record Clock := {
  at_record : Z;
  at_delivery : Z;
  at_refund : Z
}.

Definition day_ms : Z := 24 * 60 * 60 * 1000.

(** [requestData.budget.duration = Math.min(requestData.budget.duration, 7)]. *)
Definition cap_duration (r : PromotionRequest) : PromotionRequest :=
  {| authorId := authorId r; postId := postId r; total := total r;
     duration := Z.min (duration r) 7; targeting := targeting r |}.

(** [INSERT INTO promotions]: refused when the primary key exists. *)
Definition recordPromotionRequest
  (now : Z) (promotionId : string) (request : PromotionRequest) (db : DB)
  : DB * bool :=
  match promotions db !! promotionId with
  | Some _ => (db, false)
  | None =>
      (with_promotions db
         (<[promotionId :=
              {| post_id := postId request;
                 p_author_id := authorId request;
                 budget_total := total request;
                 duration_days := duration request;
                 p_target_wealth_levels := wealthLevels (targeting request);
                 preferred_regions := default [] (preferredRegions (targeting request));
                 exclude_followers := excludeFollowers (targeting request);
                 status := active;
                 p_created_at := now;
                 expires_at := now + duration request * day_ms;
                 completed_at := None |}]> (promotions db)),
       true)
  end.

(** [INSERT INTO promotion_queue] for the users of one day: [user_id] is
    NOT NULL, so a user whose [userId] is [undefined] makes the insert
    throw. *)
Fixpoint enqueue_users
  (now : Z) (promotionId : string) (deliveryDate : Z)
  (users : list TargetUser) (db : DB) : DB * bool :=
  match users with
  | [] => (db, true)
  | user :: users' =>
      match userId user with
      | None => (db, false)
      | Some uid =>
          enqueue_users now promotionId deliveryDate users'
            (with_queue db
               (promotion_queue db ++
                [ {| q_promotion_id := promotionId; q_user_id := uid;
                     scheduled_delivery := deliveryDate;
                     q_status := queue_scheduled;
                     cancelled_at := None;
                     cancellation_reason := None |} ])%list)
      end
  end.

Fixpoint enqueue_days
  (now : Z) (promotionId : string) (usersPerDay : float)
  (targetUsers : list TargetUser) (days : list Z) (db : DB) : DB * bool :=
  match days with
  | [] => (db, true)
  | day :: days' =>
      let d := JS.Number_of_Z day in
      let dayUsers :=
        JS.slice_by (d * usersPerDay)%float ((d + 1) * usersPerDay)%float
          targetUsers in
      let '(db', ok) :=
        enqueue_users now promotionId (now + day * day_ms) dayUsers db in
      if ok then enqueue_days now promotionId usersPerDay targetUsers days' db'
      else (db', false)
  end.

(** [approvedPromotions] is a parameter that the body never reads. *)
Definition createDeliveryQueue
  (now : Z) (promotionId : string) (targetUsers : list TargetUser) (db : DB)
  : DB * bool :=
  let duration := 7%float in
  let usersPerDay :=
    JS.Math_ceil (JS.Number_of_nat (length targetUsers) / duration)%float in
  enqueue_days now promotionId usersPerDay targetUsers [0; 1; 2; 3; 4; 5; 6] db.

(** [content] and [candidates] are the answers of the store to
    [getContentInfo] and to the candidate query.  With no content the
    call throws: scoring a candidate reads [content.target_wealth_levels],
    and the safety check reads [promotion.postId], of [null].  The
    experience protection only reads the store, and its result is not
    used by [createDeliveryQueue]. *)
Definition initiateDelivery
  (now : Z) (promotionId : string)
  (content : option Content) (candidates : list CandidateRow) (db : DB)
  : DB * bool :=
  match content with
  | None => (db, false)
  | Some c =>
      let targetUsers := Targeting.findTargetsWithinFramework c candidates in
      createDeliveryQueue now promotionId
        (map Targeting.as_TargetUser targetUsers) db
  end.

(** [INSERT INTO refund_tasks].  The foreign key of the table refuses a
    task of a promotion that is not in [promotions], and DECIMAL(10,4)
    a budget of a million coins or more.  The boolean is [false] when
    the insert throws. *)
Definition scheduleRefundTask
  (now : Z) (promotionId : string) (totalBudget maxDays : Z) (db : DB)
  : DB * bool :=
  let refundDate := now + maxDays * day_ms in
  if bool_decide (is_Some (promotions db !! promotionId))
     && (Z.abs totalBudget <? 10000000000)
  then
    (with_tasks db
       (refund_tasks db ++
        [ {| t_promotion_id := promotionId;
             original_budget := totalBudget;
             refund_date := refundDate;
             refund_amount := None;
             t_status := task_scheduled;
             processed_at := None |} ])%list,
     true)
  else (db, false).

(** [this.generatePromotionId] (line 90).  [PromotionController]
    declares no member of this name and extends no class; the private
    method of this name belongs to [PromotionOptimizerService].  The
    value of the property is [undefined], here [None], and calling it
    throws a TypeError. *)
Definition generatePromotionId : option string := None.

(** The statements of [startPromotionExecution] after the first (lines
    92-101), for an identifier.  The result is the identifier, or
    [None] when a step throws. *)
Definition startPromotionExecution_from
  (clock : Clock) (promotionId : string) (request : PromotionRequest)
  (content : option Content) (candidates : list CandidateRow) (db : DB)
  : DB * option string :=
  let '(db1, ok1) :=
    recordPromotionRequest (at_record clock) promotionId request db in
  if ok1 then
    let '(db2, ok2) :=
      initiateDelivery (at_delivery clock) promotionId content candidates db1 in
    if ok2 then
      let '(db3, ok3) :=
        scheduleRefundTask (at_refund clock) promotionId (total request) 7 db2 in
      (db3, if ok3 then Some promotionId else None)
    else (db2, None)
  else (db1, None).

(** [startPromotionExecution]: the first statement is [const promotionId
    = this.generatePromotionId()], which throws before any statement
    that writes. *)
Definition startPromotionExecution
  (clock : Clock) (request : PromotionRequest)
  (content : option Content) (candidates : list CandidateRow) (db : DB)
  : DB * option string :=
  match generatePromotionId with
  | Some promotionId =>
      startPromotionExecution_from clock promotionId request content candidates db
  | None => (db, None)
  end.

(** [createPromotion] up to the response: [Some] is the identifier of
    the response [success: true], [None] the response of status 400
    with the code [PROMOTION_CREATE_ERROR] that the [catch] sends. *)
Definition createPromotion
  (clock : Clock) (request : PromotionRequest)
  (content : option Content) (candidates : list CandidateRow) (db : DB)
  : DB * option string :=
  startPromotionExecution clock (cap_duration request) content candidates db.

(** Notions of the properties below. *)

(** The task that [scheduleRefundTask] is asked for by the statements of
    [startPromotionExecution]. *)
Definition seven_day_task (clock : Clock) (id : string) (request : PromotionRequest)
  : RefundTaskRow :=
  {| t_promotion_id := id;
     original_budget := total request;
     refund_date := at_refund clock + 7 * day_ms;
     refund_amount := None;
     t_status := task_scheduled;
     processed_at := None |}.


(** What reaches the store of a running server: a request to create a
    promotion, with the clock and the answers of the store it would
    read, or a sweep of the scheduler. *)
Inductive Event :=
| Creation (clock : Clock) (request : PromotionRequest)
    (content : option Content) (candidates : list CandidateRow)
| Swept (s : Sweep).

Definition run_event (db : DB) (e : Event) : DB :=
  match e with
  | Creation clock request content candidates =>
      (createPromotion clock request content candidates db).1
  | Swept s => run_sweep db s
  end.

Definition run_events (es : list Event) (db : DB) : DB :=
  fold_left run_event es db.

(** The sweeps of a history. *)
Definition sweeps_of (es : list Event) : list Sweep :=
  flat_map (fun e => match e with Swept s => [s] | Creation _ _ _ _ => [] end) es.

(** ** PromotionController: the report and the recommendations *)

(** A JavaScript value, as far as the report reads one. *)
#[warnings="-register-all"] Inductive Value :=
| VUndefined
| VNumber (x : float)
| VString (s : string)
| VObject (fields : list (string * Value)).

Fixpoint own_property (fields : list (string * Value)) (k : string) : Value :=
  match fields with
  | [] => VUndefined
  | (k', v) :: fields' => if String.eqb k' k then v else own_property fields' k
  end.

(** [v.k] for the property names read below, none of which a number or
    a string has.  [None] is the TypeError of reading a property of
    [undefined]. *)
Definition get_property (v : Value) (k : string) : option Value :=
  match v with
  | VUndefined => None
  | VObject fields => Some (own_property fields k)
  | VNumber _ | VString _ => Some VUndefined
  end.

Record Insight := {
  metric : string;
  i_value : Value;
  benchmark : string;
  insight : string
}.

(** The body of the response: [success: false] with a code, or
    [success: true] with the report. *)
Inductive ReportBody :=
| ReportFailure (code : string)
| ReportSuccess (performance : Value) (insights : list Insight)
                (optimizationSuggestions : list string).

Record ReportResponse := { http_status : Z; report_body : ReportBody }.

Section WithNumber.
(** [Number(s)] of a string, which the comparisons below apply to a
    string operand. *)
Context (Number_of_string : string -> float).

(** The number that [<] and [>] make of an operand; a plain object is
    [NaN]. *)
Definition to_number (v : Value) : float :=
  match v with
  | VUndefined => nan
  | VNumber x => x
  | VString s => Number_of_string s
  | VObject _ => nan
  end.

Definition generateOptimizationSuggestions (plan : Value) : option (list string) :=
  expectedOutcome ← get_property plan "expectedOutcome";
  expectedROI ← get_property expectedOutcome "expectedROI";
  let s1 :=
    if (to_number expectedROI <? 1.5)%float
    then ["考虑提高内容质量或调整目标人群以提升ROI"] else [] in
  targeting ← get_property plan "targeting";
  averageRelevance ← get_property targeting "averageRelevance";
  let s2 :=
    if (to_number averageRelevance <? 60)%float
    then ["建议缩小目标人群范围，提高相关性"] else [] in
  budget ← get_property plan "budget";
  total ← get_property budget "total";
  let s3 :=
    if (1000 <? to_number total)%float
    then ["大额预算建议分批投放，观察效果后调整"] else [] in
  Some (s1 ++ s2 ++ s3)%list.

Definition getPromotionPerformance (promotionId : string) : Value :=
  VObject
    [ ("promotionId", VString promotionId);
      ("actualReach", VNumber 0);
      ("actualEngagements", VNumber 0);
      ("actualSpend", VNumber 0);
      ("costPerAction", VObject []);
      ("goalAchievement", VNumber 0);
      ("userSatisfactionScore", VNumber 0);
      ("platformHealthImpact", VNumber 0) ].

Definition generatePerformanceInsights (performance : Value)
  : option (list Insight) :=
  actualReach ← get_property performance "actualReach";
  Some [ {| metric := "reach_efficiency";
            i_value := actualReach;
            benchmark := "industry_average";
            insight := "触达效率分析" |} ].

(** [promotionId] is [req.params.promotionId]; the properties of the
    response are evaluated in the order in which they are written. *)
Definition getPromotionReport (promotionId : option string) : ReportResponse :=
  match promotionId with
  | None | Some "" =>
      {| http_status := 400; report_body := ReportFailure "MISSING_PROMOTION_ID" |}
  | Some id =>
      let performanceData := getPromotionPerformance id in
      match
        insights ← generatePerformanceInsights performanceData;
        suggestions ← generateOptimizationSuggestions performanceData;
        Some (insights, suggestions)
      with
      | Some (insights, suggestions) =>
          {| http_status := 200;
             report_body := ReportSuccess performanceData insights suggestions |}
      | None =>
          {| http_status := 500; report_body := ReportFailure "REPORT_ERROR" |}
      end
  end.

End WithNumber.

(** The parameters of an estimate, after validation. *)
Record EstimateParams := {
  ep_targetWealthLevels : list WealthLevel;
  ep_budget : float;
  ep_duration : float
}.

Definition generatePricingRecommendations
  (params : EstimateParams) (optimization : Pricing.BudgetOptimization)
  : list string :=
  let budgetPerDay := (ep_budget params / ep_duration params)%float in
  let r1 :=
    if (budgetPerDay <? 10)%float
    then ["建议增加每日预算至少到10 COCO币以获得更好效果"] else [] in
  let r2 :=
    if existsb (fun w => String.eqb (wealth_key w) "Whale")
         (ep_targetWealthLevels params)
       && (ep_budget params <? 100)%float
    then ["定向高净值用户建议预算至少100 COCO币"] else [] in
  let r3 :=
    if (Pricing.efficiencyScore optimization <? 60)%float
    then ["当前预算分配效率较低，建议调整财富等级组合"] else [] in
  (r1 ++ r2 ++ r3)%list.

End Controller.

(** ** The endpoint [/promotions/fetch] (index.ts) *)

Module Fetch.

Import JS.
#[local] Open Scope float_scope.

(** A row of the query.  [created_at] is the [getTime()] of the column;
    [target_wealth_levels] is the array that the column holds or that
    parsing it gives, [None] when there is none. *)
Record PostRow := {
  id : string;
  author_id : string;
  created_at : float;
  likes : float;
  replies : float;
  shares : float;
  unlocks_72h : float;
  target_wealth_levels : option (list string);
  promo_budget_coco : float;
  promo_views : float;
  promo_clicks : float;
  likes_promo : float;
  comments_promo : float;
  shares_promo : float;
  unlocks_promo : float
}.

(** What the handler reads of the body: [desired?.total] and the three
    properties of [context]. *)
Record Body := {
  desired_total : option float;
  seenPostIds : list string;
  blockedAuthorIds : list string;
  wealth : option string
}.

(** The prices and weights read from the environment. *)
Record Settings := {
  priceView : float;
  priceClick : float;
  priceLike : float;
  priceComment : float;
  priceShare : float;
  priceUnlock : float;
  WQ : float;
  WF : float;
  WW : float;
  WU : float
}.

Record Item := {
  postId : string;
  authorId : string;
  priority : float;
  impToken : string
}.

Definition limit (body : Body) : float :=
  Math_min (Math_max (prop_or_else (desired_total body) 3) 0) 5.

Definition not_excluded (body : Body) (r : PostRow) : bool :=
  negb (bool_decide (id r ∈ seenPostIds body))
  && negb (bool_decide (author_id r ∈ blockedAuthorIds body)).

Definition spent (env : Settings) (r : PostRow) : float :=
  or_else (promo_views r) 0 * priceView env
  + or_else (promo_clicks r) 0 * priceClick env
  + or_else (likes_promo r) 0 * priceLike env
  + or_else (comments_promo r) 0 * priceComment env
  + or_else (shares_promo r) 0 * priceShare env
  + or_else (unlocks_promo r) 0 * priceUnlock env.

Definition within_budget (env : Settings) (r : PostRow) : bool :=
  spent env r <? or_else (promo_budget_coco r) 0.

(** [!vw]: an absent and an empty wealth are falsy. *)
Definition viewer_wealth (body : Body) : option string :=
  match wealth body with
  | Some "" => None
  | w => w
  end.

Definition wealth_allowed (body : Body) (r : PostRow) : bool :=
  match viewer_wealth body with
  | None => true
  | Some vw =>
      match target_wealth_levels r with
      | None | Some [] => true
      | Some arr => existsb (String.eqb vw) arr
      end
  end.

Definition score (env : Settings) (now : float) (body : Body) (r : PostRow) : Item :=
  let ageH := Math_max 1 ((now - created_at r) / 3600000) in
  let quality :=
    or_else (likes r) 0 * 1 + or_else (replies r) 0 * 2
    + or_else (shares r) 0 * 1.5 + or_else (unlocks_72h r) 0 * WU env in
  let freshness := 10 / ageH in
  let arr := default [] (target_wealth_levels r) in
  let wealthMatch :=
    match viewer_wealth body with
    | Some vw => if existsb (String.eqb vw) arr then 1 else 0
    | None => 0
    end in
  {| postId := id r;
     authorId := author_id r;
     priority := WQ env * quality + WF env * freshness + WW env * wealthMatch;
     impToken := "imp_" ++ id r |}.

Definition byPriority (a b : Item) : float := priority b - priority a.

(** The items of the response. *)
Definition fetch
  (env : Settings) (now : float) (body : Body) (rows : list PostRow) : list Item :=
  let scored :=
    map (score env now body)
      (List.filter (wealth_allowed body)
         (List.filter (within_budget env)
            (List.filter (not_excluded body) rows))) in
  slice_by 0 (limit body) (Targeting.sort byPriority scored).

End Fetch.

(** ** Inputs of the examples *)

Module Examples.

#[local] Open Scope float_scope.

Definition user_of (w : WealthLevel) (relevance : float) : TargetUser :=
  {| userId := Some "user-1";
     wealthLevel := Some w;
     relevanceScore := relevance;
     engagementProbability := 0.5;
     influenceMultiplier := 2;
     location := None |}.

(** A post of 120 characters with 100 points of engagement, one hour old. *)
Definition good_post : Protector.PostQuality :=
  {| Protector.engagement_score := 100;
     Protector.pq_text_length := 120;
     Protector.pq_author_id := "author-1";
     Protector.created_at := 1000000 |}.

Definition quiet_store : Protector.Store :=
  {| Protector.post_quality :=
       fun id => match id with
                 | Some "post-1" => Some good_post
                 | _ => None
                 end;
     Protector.author_avg_engagement := fun _ => 0;
     Protector.user_deliveries_24h := fun _ => 0;
     Protector.author_deliveries_24h := fun _ => 0;
     Protector.type_stats := [] |}.

Definition promotion_1 : Protector.Promotion :=
  {| Protector.postId := Some "post-1"; Protector.authorId := Some "author-1" |}.

Definition post_1 : Content :=
  {| author_id := "author-1";
     content_text := Some (text_of_string "A new startup looking for investment");
     likes := Some 12;
     replies := Some 3;
     shares := Some 1;
     images := None;
     target_wealth_levels := None;
     content_location := None |}.

Definition candidate (id : string) (w : WealthLevel) : CandidateRow :=
  {| user_id := id;
     country_code := Some "CN";
     region := None;
     wealth_level := w;
     followers_count := 1500;
     recent_activity := 8;
     avg_engagement := 20 |}.

(** Two whales with the same figures; the store returns [user-b] first. *)
Definition two_whales : list CandidateRow :=
  [candidate "user-b" whale; candidate "user-a" whale].

Definition optimizer_store : Optimizer.Store :=
  {| Optimizer.getContentInfo :=
       fun id => if String.eqb id "post-1" then Some post_1 else None;
     Optimizer.queryCandidatesInFramework := fun _ => two_whales;
     Optimizer.protector_store := quiet_store |}.

Definition request_1 : Optimizer.PromotionRequest :=
  {| Optimizer.req_authorId := "author-1";
     Optimizer.req_postId := "post-1";
     Optimizer.budget :=
       {| Optimizer.total := 100;
          Optimizer.dailyLimit := None;
          Optimizer.duration := 7 |};
     Optimizer.targeting :=
       {| wealthLevels := [whale];
          preferredRegions := None;
          excludeFollowers := false |} |}.

(** Two runs at the same instant with two draws of [Math.random]. *)
Definition env_1 : Optimizer.Env :=
  {| Optimizer.hours_now := 10;
     Optimizer.day_now := 1;
     Optimizer.quality_now := 4600000;
     Optimizer.schedule_start := 4600000;
     Optimizer.schedule_now := 4600000;
     Optimizer.id_now := 4600000;
     Optimizer.random_digits := "4fzzzxjylrx" |}.

Definition env_2 : Optimizer.Env :=
  {| Optimizer.hours_now := 10;
     Optimizer.day_now := 1;
     Optimizer.quality_now := 4600000;
     Optimizer.schedule_start := 4600000;
     Optimizer.schedule_now := 4600000;
     Optimizer.id_now := 4600000;
     Optimizer.random_digits := "9x1c0p5yd2k" |}.

Definition empty_db : Lifecycle.DB :=
  {| Lifecycle.promotions := ∅;
     Lifecycle.promotion_queue := [];
     Lifecycle.promotion_expenses := [];
     Lifecycle.refund_tasks := [];
     Lifecycle.points_ledger := [] |}.

(** 100 coins over three days. *)
Definition three_day_request : Controller.PromotionRequest :=
  {| Controller.authorId := "author-1";
     Controller.postId := "post-1";
     Controller.total := 1000000;
     Controller.duration := 3;
     Controller.targeting :=
       {| wealthLevels := [whale];
          preferredRegions := None;
          excludeFollowers := false |} |}.

Definition week_ms : Z := 7 * 24 * 60 * 60 * 1000.

(** A promotion of 100 coins created at time 0 for seven days. *)
Definition promotion_100 : Lifecycle.PromotionRow :=
  {| Lifecycle.post_id := "post-1";
     Lifecycle.p_author_id := "author-1";
     Lifecycle.budget_total := 1000000;
     Lifecycle.duration_days := 7;
     Lifecycle.p_target_wealth_levels := [whale];
     Lifecycle.preferred_regions := [];
     Lifecycle.exclude_followers := false;
     Lifecycle.status := Lifecycle.active;
     Lifecycle.p_created_at := 0;
     Lifecycle.expires_at := week_ms;
     Lifecycle.completed_at := None |}.

Definition refund_task_100 : Lifecycle.RefundTaskRow :=
  {| Lifecycle.t_promotion_id := "promo_1";
     Lifecycle.original_budget := 1000000;
     Lifecycle.refund_date := week_ms;
     Lifecycle.refund_amount := None;
     Lifecycle.t_status := Lifecycle.task_scheduled;
     Lifecycle.processed_at := None |}.

Definition expense (c : Z) : Lifecycle.ExpenseRow :=
  {| Lifecycle.e_promotion_id := "promo_1";
     Lifecycle.e_user_id := "user-1";
     Lifecycle.action_type := "promo_view";
     Lifecycle.cost := c |}.

(** Scenario A: three expenses of 10, 10 and 20 coins by day 7. *)
Definition db_spent_40 : Lifecycle.DB :=
  {| Lifecycle.promotions := {[ "promo_1" := promotion_100 ]};
     Lifecycle.promotion_queue := [];
     Lifecycle.promotion_expenses := [expense 100000; expense 100000; expense 200000];
     Lifecycle.refund_tasks := [refund_task_100];
     Lifecycle.points_ledger := [] |}.

(** Scenario B: the expenses reach 99 coins on day 3. *)
Definition db_spent_99 : Lifecycle.DB :=
  {| Lifecycle.promotions := {[ "promo_1" := promotion_100 ]};
     Lifecycle.promotion_queue :=
       [ {| Lifecycle.q_promotion_id := "promo_1";
            Lifecycle.q_user_id := "user-2";
            Lifecycle.scheduled_delivery := 4 * 24 * 60 * 60 * 1000;
            Lifecycle.q_status := Lifecycle.queue_scheduled;
            Lifecycle.cancelled_at := None;
            Lifecycle.cancellation_reason := None |} ];
     Lifecycle.promotion_expenses := [expense 500000; expense 490000];
     Lifecycle.refund_tasks := [refund_task_100];
     Lifecycle.points_ledger := [] |}.

Definition day_3 : Z := 3 * 24 * 60 * 60 * 1000.

(** The exhaustion sweep of day 3, then the refund sweep of day 7. *)
Definition stop_then_refund : list Lifecycle.Sweep :=
  [Lifecycle.ExhaustionSweep day_3; Lifecycle.RefundSweep week_ms].

(** A race: the exhaustion sweep selects its promotions one millisecond
    before the refund date, the refund sweep runs at the refund date, and
    the early stops of the exhaustion sweep are applied after it. *)
Definition racing_operations : list Lifecycle.Operation :=
  (map (Lifecycle.RefundOperation week_ms)
     (Lifecycle.expiredPromotions week_ms db_spent_99)
   ++ map (fun id => Lifecycle.StopOperation id "budget_exhausted" week_ms)
        (Lifecycle.exhaustedPromotions (week_ms - 1) db_spent_99))%list.

(** The three steps of the creation read the same millisecond. *)
Definition still_clock : Controller.Clock :=
  {| Controller.at_record := 1000000;
     Controller.at_delivery := 1000000;
     Controller.at_refund := 1000000 |}.



(** A store that holds the post and returns no candidate. *)
Definition store_without_candidates : Optimizer.Store :=
  {| Optimizer.getContentInfo :=
       fun id => if String.eqb id "post-1" then Some post_1 else None;
     Optimizer.queryCandidatesInFramework := fun _ => [];
     Optimizer.protector_store := quiet_store |}.

(** A sample of 100 users, and 50 more. *)
Definition hundred_users : list TargetUser := repeat (user_of whale 90) 100.

Definition fifty_users : list TargetUser := repeat (user_of foam 10) 50.

End Examples.

(** * Properties *)

(** ** Doubles *)

Section FloatFacts.

#[local] Open Scope float_scope.

Lemma add_nan_r (x : float) : x + nan = nan.
Proof.
  apply Prim2SF_inj. rewrite add_spec. change (Prim2SF nan) with S754_nan.
  destruct (Prim2SF x) as [s|s| |s m e]; try destruct s; reflexivity.
Qed.

Lemma add_nan_l (x : float) : nan + x = nan.
Proof.
  apply Prim2SF_inj. rewrite add_spec. change (Prim2SF nan) with S754_nan.
  destruct (Prim2SF x) as [s|s| |s m e]; try destruct s; reflexivity.
Qed.

Lemma mul_nan_l (x : float) : nan * x = nan.
Proof.
  apply Prim2SF_inj. rewrite mul_spec. change (Prim2SF nan) with S754_nan.
  destruct (Prim2SF x) as [s|s| |s m e]; try destruct s; reflexivity.
Qed.

Lemma mul_nan_r (x : float) : x * nan = nan.
Proof.
  apply Prim2SF_inj. rewrite mul_spec. change (Prim2SF nan) with S754_nan.
  destruct (Prim2SF x) as [s|s| |s m e]; try destruct s; reflexivity.
Qed.

Lemma div_nan_l (x : float) : nan / x = nan.
Proof.
  apply Prim2SF_inj. rewrite div_spec. change (Prim2SF nan) with S754_nan.
  destruct (Prim2SF x) as [s|s| |s m e]; try destruct s; reflexivity.
Qed.

Lemma sub_nan_l (x : float) : nan - x = nan.
Proof.
  apply Prim2SF_inj. rewrite sub_spec. change (Prim2SF nan) with S754_nan.
  destruct (Prim2SF x) as [s|s| |s m e]; try destruct s; reflexivity.
Qed.

Lemma sub_nan_r (x : float) : x - nan = nan.
Proof.
  apply Prim2SF_inj. rewrite sub_spec. change (Prim2SF nan) with S754_nan.
  destruct (Prim2SF x) as [s|s| |s m e]; try destruct s; reflexivity.
Qed.

Lemma ltb_nan_r (x : float) : (x <? nan) = false.
Proof.
  rewrite ltb_spec. change (Prim2SF nan) with S754_nan.
  destruct (Prim2SF x) as [s|s| |s m e]; try destruct s; reflexivity.
Qed.

(** [x >= y] excludes [x < y]. *)
Lemma leb_not_ltb (x y : float) : (x <=? y) = true -> (y <? x) = false.
Proof.
  rewrite leb_spec, ltb_spec. unfold SFleb, SFltb.
  destruct (Prim2SF x) as [s|s| |s m e], (Prim2SF y) as [s'|s'| |s' m' e'];
    simpl; try destruct s; try destruct s'; simpl; try congruence.
  all: rewrite (Z.compare_antisym e e'); destruct (e ?= e')%Z; simpl;
    try congruence.
  all: change (PosDef.Pos.compare_cont Eq m' m) with (Pos.compare m' m);
    change (PosDef.Pos.compare_cont Eq m m') with (Pos.compare m m');
    rewrite (Pos.compare_antisym m m'); destruct (Pos.compare m m'); simpl;
    congruence.
Qed.

End FloatFacts.

(** ** Experience protection *)

Section ProtectorFacts.

Import Protector.
#[local] Open Scope float_scope.

(** With no target user the rate is [0 / Math.min(0, 100)], which is
    [NaN], whatever the store holds. *)
Lemma violationRate_empty (st : Store) : violationRate st [] = nan.
Proof. reflexivity. Qed.

Lemma checkFrequencyLimits_empty (st : Store) :
  checkFrequencyLimits st [] =
  {| fc_passed := false; recommendedLimit := 3; violatingUsers := [] |}.
Proof. reflexivity. Qed.

(** C10: with an empty list of target users, a promotion whose content
    quality score is at least 40 is rejected for
    [frequency_limit_exceeded]: the violation rate [0 / Math.min(0, 100)]
    is [NaN], the test [violationRate < 0.2] fails on it, and the
    frequency check reports a failure for the empty sample. *)
Theorem empty_targets_frequency_rejected
  (st : Store) (now : float) (promotion : Promotion) :
  (40 <=? score (checkContentQuality st now (postId promotion))) = true ->
  violationRate st [] = nan
  /\ (violationRate st [] <? 0.2) = false
  /\ fc_passed (checkFrequencyLimits st []) = false
  /\ checkPromotionSafety st now promotion [] =
     {| approved := false; safetyScore := 0;
        rejectionReason := Some frequency_limit_exceeded;
        constraints := None |}
  /\ approvedPromotions (protectUserExperience st now [promotion] []) = []
  /\ rejectedPromotions (protectUserExperience st now [promotion] []) =
     [ {| r_promotion := promotion;
          r_rejectionReason := Some frequency_limit_exceeded |} ].
Proof.
  intros Hq. apply leb_not_ltb in Hq.
  assert (Hs : checkPromotionSafety st now promotion [] =
               {| approved := false; safetyScore := 0;
                  rejectionReason := Some frequency_limit_exceeded;
                  constraints := None |}).
  { unfold checkPromotionSafety. rewrite Hq.
    rewrite checkFrequencyLimits_empty. reflexivity. }
  repeat split; try reflexivity; try exact Hs.
  - unfold protectUserExperience. simpl. rewrite Hs. reflexivity.
  - unfold protectUserExperience. simpl. rewrite Hs. reflexivity.
Qed.

(** A post of quality 70 in a store without deliveries. *)
Lemma empty_targets_frequency_rejected_witness :
  (40 <=? score (checkContentQuality Examples.quiet_store 4600000
                   (postId Examples.promotion_1))) = true
  /\ rejectedPromotions
       (protectUserExperience Examples.quiet_store 4600000
          [Examples.promotion_1] []) =
     [ {| r_promotion := Examples.promotion_1;
          r_rejectionReason := Some frequency_limit_exceeded |} ].
Proof.
  assert (H : (40 <=? score (checkContentQuality Examples.quiet_store 4600000
                               (postId Examples.promotion_1))) = true)
    by (vm_compute; reflexivity).
  split; [exact H |].
  apply (empty_targets_frequency_rejected
           Examples.quiet_store 4600000 Examples.promotion_1 H).
Defined.

End ProtectorFacts.

(** ** Pricing *)

Section PricingFacts.

Import JS Pricing.
#[local] Open Scope float_scope.

Lemma obj_get_set (o : obj) (k k' : string) (v : float) :
  obj_get (obj_set o k v) k' =
  if String.eqb k k' then Some v else obj_get o k'.
Proof.
  induction o as [|[k0 v0] o IH]; simpl.
  - reflexivity.
  - destruct (String.eqb k0 k) eqn:E0; simpl.
    + apply String.eqb_eq in E0 as ->.
      destruct (String.eqb k k'); reflexivity.
    + rewrite IH. destruct (String.eqb k0 k') eqn:E1; [|reflexivity].
      apply String.eqb_eq in E1 as ->.
      destruct (String.eqb k k') eqn:E2; [|reflexivity].
      apply String.eqb_eq in E2 as ->. rewrite String.eqb_refl in E0.
      discriminate.
Qed.





Lemma time_keys_lookup (o : obj) (key : string) :
  key ∉ map fst o -> obj_get o key = None.
Proof.
  induction o as [|[k v] o IH]; intros Hk; cbn [obj_get]; [reflexivity|].
  cbn [map fst] in Hk. apply not_elem_of_cons in Hk as [Hne Hk].
  destruct (String.eqb k key) eqn:E.
  - apply String.eqb_eq in E. congruence.
  - apply IH. exact Hk.
Qed.

Lemma demand_lookup (day : Z) (timeOfDay : float) (region key : string) :
  key ∉ time_keys ->
  obj_get (calculateDemandMultipliers day timeOfDay region) key =
  if String.eqb region key
  then Some (prop_or_else (obj_get regionMultipliers region)
               (ToNumber (obj_get regionMultipliers "default")))
  else None.
Proof.
  intros Hk. unfold calculateDemandMultipliers. rewrite obj_get_set.
  destruct (String.eqb region key); [reflexivity|].
  apply time_keys_lookup. exact Hk.
Qed.

(** A user without a location is priced with the multiplier 1, whatever
    the region, the day and the hour of the strategy. *)
Lemma demand_default (day : Z) (timeOfDay : float) (region : string) :
  prop_or_else
    (obj_get (calculateDemandMultipliers day timeOfDay region) "default") 1 = 1.
Proof.
  rewrite demand_lookup.
  - destruct (String.eqb region "default") eqn:E; [|reflexivity].
    apply String.eqb_eq in E as ->. vm_compute. reflexivity.
  - apply (bool_decide_unpack _). vm_compute. exact I.
Qed.

(** The rounded product of the first declaration, for a view by a user
    of the tier [foam] without a location, is 1 or [NaN] and never 0.5,
    whatever the two qualities and the relevance. *)
Lemma first_declaration_view_foam (q0 q r : float) :
  (Math_ceil
     (1 * 0.5 * 1
      * ToNumber (obj_get (calculateQualityDiscounts q0) (getQualityTier q))
      * calculateRelevanceDiscount r) =? 0.5) = false.
Proof.
  unfold calculateQualityDiscounts, getQualityTier, calculateRelevanceDiscount.
  destruct (90 <=? q0);
    [|destruct (75 <=? q0); [|destruct (60 <=? q0)]];
    (destruct (90 <=? q);
     [|destruct (75 <=? q); [|destruct (60 <=? q)]]);
    (destruct (80 <=? r); [|destruct (60 <=? r)]);
    vm_compute; reflexivity.
Qed.

(** C5: the price that [calculateActionPrice] returns is not rounded.
    The class declares the method twice, and the declaration that runs
    is the later one, which returns base price x wealth multiplier x
    demand multiplier: no quality discount, no relevance discount and
    no ceiling.  For a view by a user of the tier [foam] without a
    location it returns 0.5, under every strategy that
    [calculateDynamicPricing] builds and for every content quality and
    relevance: not an integer, below 1, and not the value of the
    rounded product of five factors. *)
Theorem calculateActionPrice_not_rounded
  (day : Z) (levels : list WealthLevel) (quality0 contentQuality timeOfDay : float)
  (region : string) (user : TargetUser) :
  wealthLevel user = Some foam ->
  location user = None ->
  let pricing := calculateDynamicPricing day levels quality0 timeOfDay region in
  let price := calculateActionPrice view user pricing contentQuality in
  price = 0.5
  /\ integer_value price = None
  /\ positive_integer price = false
  /\ (Math_ceil (finalPrice view user pricing contentQuality) =? price) = false.
Proof.
  intros Hw Hl pricing price.
  assert (Hp : price = 0.5).
  { unfold price, calculateActionPrice, calculateActionPrice_private, pricing.
    cbn [calculateDynamicPricing basePrices wealthMultipliers demandMultipliers].
    unfold demand_key. rewrite Hw, Hl. rewrite demand_default.
    vm_compute. reflexivity. }
  rewrite Hp. split; [reflexivity|].
  split; [vm_compute; reflexivity|]. split; [vm_compute; reflexivity|].
  unfold finalPrice, pricing.
  cbn [calculateDynamicPricing basePrices wealthMultipliers demandMultipliers
       qualityDiscounts].
  unfold demand_key. rewrite Hw, Hl. rewrite demand_default.
  apply first_declaration_view_foam.
Qed.

(** A view by a user of the tier [foam], on a Monday at 10 in [CN], for
    premium content. *)
Lemma calculateActionPrice_not_rounded_witness :
  calculateActionPrice view (Examples.user_of foam 90)
    (calculateDynamicPricing 1 [foam] 95 10 "CN") 95 = 0.5
  /\ positive_integer
       (calculateActionPrice view (Examples.user_of foam 90)
          (calculateDynamicPricing 1 [foam] 95 10 "CN") 95) = false.
Proof.
  assert (H1 : wealthLevel (Examples.user_of foam 90) = Some foam) by reflexivity.
  assert (H2 : location (Examples.user_of foam 90) = None) by reflexivity.
  pose proof (calculateActionPrice_not_rounded 1 [foam] 95 95 10 "CN"
                (Examples.user_of foam 90) H1 H2) as H.
  cbv zeta in H. split; [exact (proj1 H) | exact (proj1 (proj2 (proj2 H)))].
Defined.

End PricingFacts.

(** ** Budget allocation *)

Section AllocationFacts.

Import JS Pricing.
#[local] Open Scope float_scope.

Lemma record_get_set (r : allocation_record) (w w' : WealthLevel) (v : float) :
  record_get (record_set r w v) w' =
  if decide (w = w') then Some v else record_get r w'.
Proof.
  unfold record_get.
  induction r as [|[w0 v0] r IH]; simpl.
  - destruct (decide (w = w')) as [->|Hne].
    + rewrite bool_decide_eq_true_2 by reflexivity. reflexivity.
    + rewrite bool_decide_eq_false_2 by exact Hne. reflexivity.
  - destruct (decide (w0 = w)) as [->|Hne0]; simpl.
    + destruct (decide (w = w')) as [->|Hne].
      * rewrite bool_decide_eq_true_2 by reflexivity. reflexivity.
      * rewrite bool_decide_eq_false_2 by exact Hne. reflexivity.
    + destruct (decide (w0 = w')) as [->|Hne1].
      * rewrite bool_decide_eq_true_2 by reflexivity.
        destruct (decide (w = w')); [congruence | reflexivity].
      * rewrite bool_decide_eq_false_2 by exact Hne1. exact IH.
Qed.

Lemma record_set_keys (r : allocation_record) (w : WealthLevel) (v : float) :
  List.NoDup (map fst r) ->
  List.NoDup (map fst (record_set r w v))
  /\ (forall w', In w' (map fst (record_set r w v)) <-> w' = w \/ In w' (map fst r)).
Proof.
  induction r as [|[w0 v0] r IH]; simpl; intros Hnd.
  - split; [apply List.NoDup_cons; [intros [] | apply List.NoDup_nil]|].
    intros w'. intuition.
  - apply List.NoDup_cons_iff in Hnd as [Hin Hnd].
    destruct (decide (w0 = w)) as [->|Hne]; simpl.
    + split; [apply List.NoDup_cons_iff; auto|]. intros w'. intuition.
    + destruct (IH Hnd) as [IH1 IH2]. split.
      * apply List.NoDup_cons_iff. split; [|exact IH1].
        rewrite IH2. intros [->|H]; [congruence | exact (Hin H)].
      * intros w'. rewrite IH2. intuition.
Qed.

Lemma levelROIs_of_shares (totalBudget : float) (levels : list WealthLevel) :
  levelROIs_of totalBudget levels =
  map (fun w => {| level := w; roi := roi_of w;
                   allocation := share_of totalBudget levels w |}) levels.
Proof.
  unfold levelROIs_of, share_of, totalROI_of.
  rewrite !map_map. reflexivity.
Qed.

Lemma fill_record (f : WealthLevel -> float) (levels : list WealthLevel)
  (r : allocation_record) :
  List.NoDup (map fst r) ->
  let r' :=
    fold_left (fun r item => record_set r (level item) (allocation item))
      (map (fun w => {| level := w; roi := roi_of w; allocation := f w |}) levels)
      r in
  List.NoDup (map fst r')
  /\ (forall w, record_get r' w =
                if decide (w ∈ levels) then Some (f w) else record_get r w).
Proof.
  revert r. induction levels as [|w0 levels IH]; intros r Hnd; simpl.
  - split; [exact Hnd|]. intros w.
    destruct (decide (w ∈ [])) as [H|_]; [inversion H | reflexivity].
  - destruct (record_set_keys r w0 (f w0) Hnd) as [Hnd' _].
    destruct (IH _ Hnd') as [IH1 IH2]. split; [exact IH1|].
    intros w. rewrite IH2, record_get_set.
    destruct (decide (w ∈ levels)) as [Hin|Hnin];
      destruct (decide (w ∈ w0 :: levels)) as [Hin'|Hnin'];
      rewrite ?elem_of_cons in *; try tauto.
    + destruct (decide (w0 = w)) as [->|Hne]; [reflexivity|].
      destruct Hin' as [->|]; [congruence | tauto].
    + destruct (decide (w0 = w)) as [->|Hne]; [tauto | reflexivity].
Qed.

(** C4, as the code has it: for every total budget, list of target
    tiers and expected actions, [recommendedAllocation] holds one entry
    for each distinct listed tier and none for another, and the entry of
    a tier is its share [(roi / totalROI) * totalBudget] with
    [roi = (conversionRate * averageValue) / averageCost], computed in
    double arithmetic; no renormalization and no remainder follow. *)
Theorem recommendedAllocation_shares
  (totalBudget : float) (levels : list WealthLevel) (expectedActions : obj)
  (w : WealthLevel) :
  let r := recommendedAllocation
             (calculateBudgetOptimization totalBudget levels expectedActions) in
  List.NoDup (map fst r)
  /\ record_get r w =
     if decide (w ∈ levels) then Some (share_of totalBudget levels w) else None.
Proof.
  unfold calculateBudgetOptimization. cbn [recommendedAllocation].
  rewrite levelROIs_of_shares.
  destruct (fill_record (share_of totalBudget levels) levels []) as [H1 H2].
  { apply List.NoDup_nil. }
  split; [exact H1 | exact (H2 w)].
Qed.

(** C4, as stated, fails for a budget of one coin over the tiers foam and
    plankton: the two shares add up to the double just below 1. *)
Lemma allocation_sum_drifts :
  let r := recommendedAllocation (calculateBudgetOptimization 1 [foam; plankton] []) in
  (allocation_total r =? 1) = false
  /\ allocation_total r = 0x1.fffffffffffffp-1.
Proof. vm_compute. split; reflexivity. Qed.

(** A tier listed twice has one entry, and the sum falls short by its
    share. *)
Lemma allocation_duplicate_tier :
  let r := recommendedAllocation (calculateBudgetOptimization 100 [whale; whale] []) in
  r = [(whale, 50)] /\ allocation_total r = 50.
Proof. vm_compute. split; reflexivity. Qed.

End AllocationFacts.

(** ** Predicted outcome *)

Section OutcomeFacts.

Import JS Optimizer.
#[local] Open Scope float_scope.

Context (Math_log2 : float -> float).

(** No tier is a key of [wealthValues]: the keys are capitalised and
    the tiers are not. *)
Lemma wealthValues_undefined (w : option WealthLevel) :
  obj_get wealthValues (wealth_index w) = None.
Proof. destruct w as [[]|]; reflexivity. Qed.

Lemma wealth_sum_nan (users : list TargetUser) :
  fold_left
    (fun sum user =>
       sum + ToNumber (obj_get wealthValues (wealth_index (wealthLevel user))))
    users nan = nan.
Proof.
  induction users as [|u users IH]; simpl; [reflexivity|].
  rewrite add_nan_l. exact IH.
Qed.

Lemma calculateAudienceBusinessValue_nan (users : list TargetUser) :
  users <> [] -> calculateAudienceBusinessValue users = nan.
Proof.
  intros Hne. destruct users as [|u users]; [congruence|].
  unfold calculateAudienceBusinessValue. cbn [fold_left].
  rewrite wealthValues_undefined. cbn [ToNumber].
  rewrite add_nan_r, wealth_sum_nan, div_nan_l, mul_nan_l. reflexivity.
Qed.

Lemma calculateExpectedBusinessValue_nan (c : Content) (users : list TargetUser) :
  users <> [] -> calculateExpectedBusinessValue c users = nan.
Proof.
  intros Hne. unfold calculateExpectedBusinessValue.
  rewrite (calculateAudienceBusinessValue_nan users Hne).
  rewrite mul_nan_r, !mul_nan_l. reflexivity.
Qed.

Lemma expectedROI_unfold
  (c : Content) (users : list TargetUser)
  (opt : Pricing.BudgetOptimization) (pricing : Pricing.PricingStrategy) :
  expectedROI (predictPromotionOutcome Math_log2 c users opt pricing) =
  calculateExpectedBusinessValue c users
  / Pricing.allocation_total (Pricing.recommendedAllocation opt).
Proof. reflexivity. Qed.

(** C8: the predicted ROI over a non-empty target list.  The weight of a
    tier is looked up in a table whose keys are [Plankton], [Turtle],
    [Dolphin] and [Whale]; none of the nine tiers is among them, so the
    mean weight, the audience value, the business value and the ROI are
    [NaN] for every content, budget and list of targets. *)
Theorem expectedROI_nan
  (c : Content) (users : list TargetUser)
  (opt : Pricing.BudgetOptimization) (pricing : Pricing.PricingStrategy) :
  users <> [] ->
  (forall w, obj_get wealthValues (wealth_index w) = None)
  /\ calculateAudienceBusinessValue users = nan
  /\ expectedROI (predictPromotionOutcome Math_log2 c users opt pricing) = nan.
Proof.
  intros Hne. split; [exact wealthValues_undefined|].
  split; [exact (calculateAudienceBusinessValue_nan users Hne)|].
  rewrite expectedROI_unfold, (calculateExpectedBusinessValue_nan c users Hne).
  apply div_nan_l.
Qed.

Lemma plan_for_expectedOutcome
  (env : Env) (st : Store) (request : PromotionRequest) (c : Content) :
  expectedOutcome (plan_for Math_log2 env st request c) =
  predictPromotionOutcome Math_log2 c
    (map Targeting.as_TargetUser
       (Targeting.findTargetsWithinFramework c
          (queryCandidatesInFramework st (targeting request))))
    (Pricing.calculateBudgetOptimization (total (budget request))
       (wealthLevels (targeting request))
       (estimateExpectedActions
          (map Targeting.as_TargetUser
             (Targeting.findTargetsWithinFramework c
                (queryCandidatesInFramework st (targeting request))))))
    (Pricing.calculateDynamicPricing (day_now env)
       (wealthLevels (targeting request)) (assessContentQuality c)
       (hours_now env) "CN").
Proof. reflexivity. Qed.

(** The plan of the optimizer carries that ROI. *)
Lemma plan_expectedROI_nan
  (env : Env) (st : Store) (request : PromotionRequest) (c : Content) :
  getContentInfo st (req_postId request) = Some c ->
  Targeting.findTargetsWithinFramework c
    (queryCandidatesInFramework st (targeting request)) <> [] ->
  exists plan,
    optimizePromotionWithinFramework Math_log2 env st request = Some plan
    /\ expectedROI (expectedOutcome plan) = nan.
Proof.
  intros Hc Hne. unfold optimizePromotionWithinFramework. rewrite Hc.
  eexists. split; [reflexivity|]. rewrite plan_for_expectedOutcome.
  rewrite expectedROI_unfold, calculateExpectedBusinessValue_nan.
  - apply div_nan_l.
  - intros Hnil. apply Hne. destruct (Targeting.findTargetsWithinFramework _ _);
      [reflexivity | discriminate].
Qed.

End OutcomeFacts.

(** One whale as the target list. *)
Lemma expectedROI_nan_witness :
  [Examples.user_of whale 90] <> []
  /\ Optimizer.expectedROI
       (Optimizer.predictPromotionOutcome (fun x => x) Examples.post_1
          [Examples.user_of whale 90]
          (Pricing.calculateBudgetOptimization 100 [whale] [])
          (Pricing.calculateDynamicPricing 1 [whale] 60 10 "CN")) = nan.
Proof.
  assert (H : [Examples.user_of whale 90] <> []) by discriminate.
  split; [exact H|].
  apply (expectedROI_nan (fun x => x) Examples.post_1 [Examples.user_of whale 90]
           (Pricing.calculateBudgetOptimization 100 [whale] [])
           (Pricing.calculateDynamicPricing 1 [whale] 60 10 "CN") H).
Defined.

(** ** Determinism of the optimizer *)

Section DeterminismFacts.

Import JS Optimizer.
#[local] Open Scope float_scope.

(** The three fields that a run takes from its environment. *)
Lemma plan_clock_fields
  (Math_log2 : float -> float) (env : Env) (st : Store)
  (request : PromotionRequest) (c : Content) :
  promotionId (plan_for Math_log2 env st request c) = generatePromotionId env
  /\ startTime (schedule (plan_for Math_log2 env st request c)) = schedule_start env
  /\ endTime (schedule (plan_for Math_log2 env st request c)) =
     schedule_now env + duration (budget request) * 24 * 60 * 60 * 1000.
Proof. split; [reflexivity|]. split; reflexivity. Qed.

(** What a plan keeps of the pricing strategy is the table of base
    prices; the demand multipliers, which follow the hour and the day,
    stay out of it. *)
Lemma basePrices_calculateDynamicPricing
  (day : Z) (levels : list WealthLevel) (quality timeOfDay : float) (region : string) :
  Pricing.basePrices
    (Pricing.calculateDynamicPricing day levels quality timeOfDay region) =
  Pricing.basePrices_table.
Proof. reflexivity. Qed.

Lemma protectionReport_constant
  (st : Protector.Store) (now : float) (promotions : list Protector.Promotion)
  (users : list TargetUser) :
  Protector.protectionReport
    (Protector.protectUserExperience st now promotions users) =
  Protector.generateProtectionReport.
Proof. reflexivity. Qed.

Lemma predictPromotionOutcome_pricing
  (Math_log2 : float -> float) (c : Content) (users : list TargetUser)
  (opt : Pricing.BudgetOptimization) (p1 p2 : Pricing.PricingStrategy) :
  predictPromotionOutcome Math_log2 c users opt p1 =
  predictPromotionOutcome Math_log2 c users opt p2.
Proof. reflexivity. Qed.

Lemma createOptimalSchedule_clock
  (s1 n1 s2 n2 : float) (targets : list Targeting.ScoredCandidate)
  (d : float) (a : Pricing.allocation_record) :
  dailySchedule (createOptimalSchedule s1 n1 targets d a) =
  dailySchedule (createOptimalSchedule s2 n2 targets d a)
  /\ timeAllocations (createOptimalSchedule s1 n1 targets d a) =
     timeAllocations (createOptimalSchedule s2 n2 targets d a).
Proof. split; reflexivity. Qed.

Lemma plan_for_clock_free
  (Math_log2 : float -> float) (env1 env2 : Env) (st : Store)
  (request : PromotionRequest) (c : Content) :
  clock_free (plan_for Math_log2 env1 st request c) =
  clock_free (plan_for Math_log2 env2 st request c).
Proof.
  unfold clock_free, plan_for.
  cbn [plan_postId plan_authorId plan_budget plan_targeting schedule
       expectedOutcome qualityProtection].
  rewrite !basePrices_calculateDynamicPricing, !protectionReport_constant.
  match goal with
  | |- context [createOptimalSchedule _ _ ?t ?d ?a] =>
      destruct (createOptimalSchedule_clock
                  (schedule_start env1) (schedule_now env1)
                  (schedule_start env2) (schedule_now env2) t d a) as [-> ->]
  end.
  match goal with
  | |- context [predictPromotionOutcome _ _ ?u ?o
                  (Pricing.calculateDynamicPricing (day_now env1) ?l ?q _ ?r)] =>
      rewrite (predictPromotionOutcome_pricing Math_log2 c u o
                 (Pricing.calculateDynamicPricing (day_now env1) l q
                    (hours_now env1) r)
                 (Pricing.calculateDynamicPricing (day_now env2) l q
                    (hours_now env2) r))
  end.
  reflexivity.
Qed.

(** C9, as the code has it: two runs on the same request and the same
    store snapshot return plans that are equal in every field but the
    identifier, built from [Date.now()] and [Math.random()], and the
    start and end times of the schedule, read from the clock; both fail
    when the post is absent. *)
Theorem optimizer_deterministic_up_to_clock
  (Math_log2 : float -> float) (env1 env2 : Env) (st : Store)
  (request : PromotionRequest) :
  option_map clock_free (optimizePromotionWithinFramework Math_log2 env1 st request) =
  option_map clock_free (optimizePromotionWithinFramework Math_log2 env2 st request).
Proof.
  unfold optimizePromotionWithinFramework.
  destruct (getContentInfo st (req_postId request)) as [c|]; [|reflexivity].
  cbn [option_map]. rewrite (plan_for_clock_free Math_log2 env1 env2).
  reflexivity.
Qed.

Lemma generatePromotionId_examples :
  generatePromotionId Examples.env_1 = "promo_2qlds_4fzzzxjylrx"
  /\ generatePromotionId Examples.env_2 = "promo_2qlds_9x1c0p5yd2k".
Proof. vm_compute. split; reflexivity. Qed.

(** C9, as stated, fails: two runs on the same request and store at the
    same instant, with two draws of [Math.random], return plans with
    two identifiers.  (The identifier does not depend on the logarithm;
    the identity stands for it here.) *)
Lemma optimizer_runs_differ :
  exists plan1 plan2,
    optimizePromotionWithinFramework (fun x => x) Examples.env_1
      Examples.optimizer_store Examples.request_1 = Some plan1
    /\ optimizePromotionWithinFramework (fun x => x) Examples.env_2
         Examples.optimizer_store Examples.request_1 = Some plan2
    /\ promotionId plan1 = "promo_2qlds_4fzzzxjylrx"
    /\ promotionId plan2 = "promo_2qlds_9x1c0p5yd2k"
    /\ plan1 <> plan2.
Proof.
  exists (plan_for (fun x => x) Examples.env_1 Examples.optimizer_store
            Examples.request_1 Examples.post_1),
         (plan_for (fun x => x) Examples.env_2 Examples.optimizer_store
            Examples.request_1 Examples.post_1).
  destruct generatePromotionId_examples as [I1 I2].
  split; [reflexivity|]. split; [reflexivity|].
  split; [exact I1|]. split; [exact I2|].
  intros Heq. apply (f_equal promotionId) in Heq.
  change (generatePromotionId Examples.env_1 = generatePromotionId Examples.env_2)
    in Heq.
  rewrite I1, I2 in Heq. discriminate Heq.
Qed.

End DeterminismFacts.

(** ** Ranking of the candidates *)

Section SortFacts.

Import JS Targeting.
#[local] Open Scope float_scope.

Context {A : Type} (cmp : A -> A -> float).

Lemma insert_sorted_perm (x : A) (l : list A) :
  Permutation (insert_sorted cmp x l) (x :: l).
Proof.
  induction l as [|y l IH]; simpl.
  - apply Permutation_refl.
  - destruct (0 <? cmp x y).
    + apply perm_trans with (y :: x :: l).
      * apply perm_skip. exact IH.
      * apply perm_swap.
    + apply Permutation_refl.
Qed.

Lemma sort_perm (l : list A) : Permutation (sort cmp l) l.
Proof.
  induction l as [|x l IH]; simpl.
  - apply perm_nil.
  - apply perm_trans with (x :: sort cmp l).
    + apply insert_sorted_perm.
    + apply perm_skip. exact IH.
Qed.

Lemma sort_length (l : list A) : length (sort cmp l) = length l.
Proof. apply Permutation_length, sort_perm. Qed.




(** A comparator that never answers a positive number moves nothing. *)
Lemma sort_unordered (l : list A) :
  (forall a b, (0 <? cmp a b) = false) -> sort cmp l = l.
Proof.
  intros Hc. induction l as [|x l IH]; simpl; [reflexivity|].
  rewrite IH. destruct l as [|y l]; simpl; [reflexivity|].
  rewrite Hc. reflexivity.
Qed.

End SortFacts.

Section TargetingFacts.

Import JS Targeting.
#[local] Open Scope float_scope.



(** The objects that are ranked are the rows of the store with the three
    scores added: they have a [wealth_level] and no [wealthLevel], so the
    value of every candidate, and every comparison, is [NaN]. *)
Lemma calculateUserValue_scored (s : ScoredCandidate) :
  calculateUserValue (as_TargetUser s) = nan.
Proof. unfold calculateUserValue. cbn. apply mul_nan_r. Qed.

Lemma compareByValue_nan (a b : ScoredCandidate) : compareByValue a b = nan.
Proof. unfold compareByValue. rewrite !calculateUserValue_scored. reflexivity. Qed.

(** Hence the ranking returns the candidates in the order of the store. *)
Lemma findTargetsWithinFramework_store_order
  (c : Content) (candidates : list CandidateRow) :
  findTargetsWithinFramework c candidates =
  firstn 1000 (map (score c) candidates).
Proof.
  unfold findTargetsWithinFramework, slice. cbn [skipn Nat.sub].
  rewrite sort_unordered; [reflexivity|].
  intros a b. rewrite compareByValue_nan. reflexivity.
Qed.

End TargetingFacts.

(** ** Lists *)

Section ListFacts.

Lemma filter_none {A} (f : A -> bool) (l : list A) :
  (forall x, In x l -> f x = false) -> List.filter f l = [].
Proof.
  induction l as [|x l IH]; intros H; cbn [List.filter]; [reflexivity|].
  rewrite (H x) by (left; reflexivity). apply IH.
  intros y Hy. apply H. right. exact Hy.
Qed.

Lemma filter_all {A} (f : A -> bool) (l : list A) :
  (forall x, In x l -> f x = true) -> List.filter f l = l.
Proof.
  induction l as [|x l IH]; intros H; cbn [List.filter]; [reflexivity|].
  rewrite (H x) by (left; reflexivity). f_equal. apply IH.
  intros y Hy. apply H. right. exact Hy.
Qed.

Lemma filter_filter_comm {A} (f g : A -> bool) (l : list A) :
  List.filter f (List.filter g l) = List.filter g (List.filter f l).
Proof.
  induction l as [|x l IH]; cbn [List.filter]; [reflexivity|].
  destruct (f x) eqn:Hf, (g x) eqn:Hg; cbn [List.filter];
    rewrite ?Hf, ?Hg, IH; reflexivity.
Qed.

Lemma filter_implied {A} (f g : A -> bool) (l : list A) :
  (forall x, f x = true -> g x = true) ->
  List.filter f (List.filter g l) = List.filter f l.
Proof.
  intros H. induction l as [|x l IH]; cbn [List.filter]; [reflexivity|].
  destruct (g x) eqn:Hg; cbn [List.filter].
  - rewrite IH. reflexivity.
  - destruct (f x) eqn:Hf; [|exact IH]. rewrite (H x Hf) in Hg. discriminate.
Qed.

Lemma filter_map_comm {A B} (h : A -> B) (f : B -> bool) (l : list A) :
  List.filter f (map h l) = map h (List.filter (fun x => f (h x)) l).
Proof.
  induction l as [|x l IH]; cbn [List.filter map]; [reflexivity|].
  destruct (f (h x)); cbn [map]; rewrite IH; reflexivity.
Qed.

Lemma filter_length_le {A} (f : A -> bool) (l : list A) :
  (length (List.filter f l) <= length l)%nat.
Proof.
  induction l as [|x l IH]; cbn [List.filter length]; [lia|].
  destruct (f x); cbn [length]; lia.
Qed.

Lemma filter_remove_dups {A} `{EqDecision A} (f : A -> bool) (l : list A) :
  List.filter f (remove_dups l) = remove_dups (List.filter f l).
Proof.
  induction l as [|x l IH]; cbn [remove_dups List.filter]; [reflexivity|].
  destruct (f x) eqn:Hf; cbn [remove_dups].
  - destruct (decide_rel elem_of x l) as [Hin|Hnin];
      destruct (decide_rel elem_of x (List.filter f l)) as [Hin'|Hnin'].
    + exact IH.
    + exfalso. apply Hnin'. apply list_elem_of_In, filter_In.
      split; [apply list_elem_of_In; exact Hin | exact Hf].
    + exfalso. apply Hnin. apply list_elem_of_In in Hin'.
      apply filter_In in Hin' as [Hin' _]. apply list_elem_of_In. exact Hin'.
    + cbn [List.filter]. rewrite Hf, IH. reflexivity.
  - destruct (decide_rel elem_of x l); [exact IH|].
    cbn [List.filter]. rewrite Hf. exact IH.
Qed.


Lemma remove_dups_length_le {A} `{EqDecision A} (l : list A) :
  (length (remove_dups l) <= length l)%nat.
Proof.
  induction l as [|x l IH]; cbn [remove_dups length]; [lia|].
  destruct (decide_rel elem_of x l); cbn [length]; lia.
Qed.

Lemma flat_map_length_le {A B} (h : A -> list B) (l : list A) :
  (forall x, (length (h x) <= 1)%nat) ->
  (length (flat_map h l) <= length l)%nat.
Proof.
  intros H. induction l as [|x l IH]; cbn [flat_map length]; [lia|].
  rewrite length_app. specialize (H x). lia.
Qed.

Lemma filter_flat_map_comm {A B} (h : A -> list B) (f : B -> bool) (g : A -> bool)
  (l : list A) :
  (forall x, g x = true -> List.filter f (h x) = h x) ->
  (forall x, g x = false -> List.filter f (h x) = []) ->
  List.filter f (flat_map h l) = flat_map h (List.filter g l).
Proof.
  intros Ht Hf. induction l as [|x l IH]; cbn [flat_map List.filter]; [reflexivity|].
  rewrite List.filter_app, IH. destruct (g x) eqn:Hg; cbn [flat_map].
  - rewrite (Ht x Hg). reflexivity.
  - rewrite (Hf x Hg). reflexivity.
Qed.

End ListFacts.

(** ** Creation of a promotion *)

Section CreationFacts.

Import Lifecycle Controller.
#[local] Open Scope Z_scope.

Lemma enqueue_users_tasks
  (now : Z) (id : string) (date : Z) (users : list TargetUser) (db : DB) :
  refund_tasks (enqueue_users now id date users db).1 = refund_tasks db.
Proof.
  revert db. induction users as [|u users IH]; intros db; simpl.
  - reflexivity.
  - destruct (userId u); [|reflexivity]. rewrite IH. reflexivity.
Qed.

Lemma enqueue_days_tasks
  (now : Z) (id : string) (perDay : float) (users : list TargetUser)
  (days : list Z) (db : DB) :
  refund_tasks (enqueue_days now id perDay users days db).1 = refund_tasks db.
Proof.
  revert db. induction days as [|d days IH]; intros db; cbn [enqueue_days].
  - reflexivity.
  - match goal with
    | |- context [enqueue_users ?n ?i ?dt ?us db] =>
        pose proof (enqueue_users_tasks n i dt us db) as Hu;
        destruct (enqueue_users n i dt us db) as [db' ok]
    end.
    cbn [fst] in Hu. destruct ok; cbn [fst]; [|exact Hu].
    rewrite IH. exact Hu.
Qed.

Lemma initiateDelivery_tasks
  (now : Z) (id : string) (content : option Content)
  (candidates : list CandidateRow) (db : DB) :
  refund_tasks (initiateDelivery now id content candidates db).1 = refund_tasks db.
Proof.
  unfold initiateDelivery, createDeliveryQueue.
  destruct content; [|reflexivity]. apply enqueue_days_tasks.
Qed.

Lemma recordPromotionRequest_tasks
  (now : Z) (id : string) (request : PromotionRequest) (db : DB) :
  refund_tasks (recordPromotionRequest now id request db).1 = refund_tasks db.
Proof.
  unfold recordPromotionRequest. destruct (promotions db !! id); reflexivity.
Qed.

(** The statements of [startPromotionExecution] that follow the call of
    [generatePromotionId] pass the constant 7 to [scheduleRefundTask]:
    run for an identifier, they add one refund task, scheduled, for the
    total budget and dated seven days after the clock at the time of
    scheduling, whatever the duration of the request, or none when a
    step throws. *)
Lemma startPromotionExecution_from_tasks
  (clock : Clock) (id : string) (request : PromotionRequest)
  (content : option Content) (candidates : list CandidateRow) (db : DB) :
  let out := startPromotionExecution_from clock id request content candidates db in
  refund_tasks out.1 =
  match out.2 with
  | Some _ => (refund_tasks db ++ [seven_day_task clock id request])%list
  | None => refund_tasks db
  end.
Proof.
  cbv zeta. unfold startPromotionExecution_from.
  pose proof (recordPromotionRequest_tasks (at_record clock) id request db) as H1.
  destruct (recordPromotionRequest (at_record clock) id request db) as [db1 ok1].
  cbn [fst] in H1. destruct ok1; cbn [fst snd]; [|exact H1].
  pose proof (initiateDelivery_tasks (at_delivery clock) id content candidates db1)
    as H2.
  destruct (initiateDelivery (at_delivery clock) id content candidates db1)
    as [db2 ok2].
  cbn [fst] in H2. destruct ok2; cbn [fst snd]; [|rewrite H2; exact H1].
  unfold scheduleRefundTask.
  destruct (bool_decide _ && _); cbn [fst snd with_tasks refund_tasks].
  - rewrite H2, H1. reflexivity.
  - rewrite H2. exact H1.
Qed.

(** For a request of three days and the identifier [promo_1] these
    statements date the task seven days, not three, after the clock. *)
Lemma three_day_promotion_refund_date :
  let out := startPromotionExecution_from Examples.still_clock "promo_1"
               (cap_duration Examples.three_day_request)
               (Some Examples.post_1) [] Examples.empty_db in
  exists task p,
    out.2 = Some "promo_1"
    /\ refund_tasks out.1 = [task]
    /\ promotions out.1 !! "promo_1" = Some p
    /\ duration_days p = 3
    /\ refund_date task = p_created_at p + 7 * day_ms
    /\ refund_date task <> p_created_at p + Z.min 3 7 * day_ms.
Proof.
  cbv zeta. eexists; eexists.
  split; [vm_compute; reflexivity|].
  split; [vm_compute; reflexivity|].
  split; [vm_compute; reflexivity|].
  vm_compute. repeat split; try reflexivity. discriminate.
Qed.

(** The call of [generatePromotionId] throws before any statement that
    writes: a creation answers with the error and leaves the store as
    it was. *)
Lemma createPromotion_throws
  (clock : Clock) (request : PromotionRequest)
  (content : option Content) (candidates : list CandidateRow) (db : DB) :
  createPromotion clock request content candidates db = (db, None).
Proof. reflexivity. Qed.

(** C6: no refund task is created at creation time.  [createPromotion]
    calls [startPromotionExecution], whose first statement calls
    [this.generatePromotionId()], a method that the controller does not
    declare: for every request, every answer of the store and every
    state, the creation fails, no promotion is recorded and the refund
    tasks are those before the request, so that no task dated
    [min(duration, 7)] days, or any other number of days, after the
    creation exists.  For the request of three days of the examples the
    table of refund tasks stays empty. *)
Theorem creation_schedules_no_refund_task
  (clock : Clock) (request : PromotionRequest)
  (content : option Content) (candidates : list CandidateRow) (db : DB) :
  let out := createPromotion clock request content candidates db in
  out.2 = None
  /\ refund_tasks out.1 = refund_tasks db
  /\ promotions out.1 = promotions db
  /\ refund_tasks
       (createPromotion Examples.still_clock Examples.three_day_request
          (Some Examples.post_1) [] Examples.empty_db).1 = [].
Proof.
  cbv zeta. rewrite !createPromotion_throws. repeat split.
Qed.

End CreationFacts.

(** ** The sweeps *)

Section SweepFacts.

Import Lifecycle.
#[local] Open Scope Z_scope.

(** *** One refund *)

Lemma processRefund_eq (now : Z) (db : DB) (row : RefundRow) :
  processRefund now db row =
  {| promotions := complete_promotion now (promotions db) row;
     promotion_queue := promotion_queue db;
     promotion_expenses := promotion_expenses db;
     refund_tasks := map (fun t => complete_by now t row) (refund_tasks db);
     points_ledger := (points_ledger db ++ credit_of now row)%list |}.
Proof.
  unfold processRefund, credit_of, refund_of, complete_by, complete_promotion.
  destruct (0 <? Z.max 0 (rr_original_budget row - rr_total_spent row));
    cbn; rewrite ?app_nil_r; reflexivity.
Qed.

(** The sweep in closed form. *)
Lemma fold_processRefund (now : Z) (rows : list RefundRow) (db : DB) :
  fold_left (processRefund now) rows db =
  {| promotions := fold_left (complete_promotion now) rows (promotions db);
     promotion_queue := promotion_queue db;
     promotion_expenses := promotion_expenses db;
     refund_tasks :=
       map (fun t => fold_left (complete_by now) rows t) (refund_tasks db);
     points_ledger :=
       (points_ledger db ++ flat_map (credit_of now) rows)%list |}.
Proof.
  revert db. induction rows as [|row rows IH]; intros db; cbn [fold_left flat_map].
  - rewrite app_nil_r, map_id. destruct db; reflexivity.
  - rewrite IH, processRefund_eq. cbn [promotions promotion_queue
      promotion_expenses refund_tasks points_ledger].
    rewrite map_map, <- app_assoc. reflexivity.
Qed.

Lemma set_status_twice (s : PromotionStatus) (now : Z) (p : PromotionRow) :
  set_status s now (set_status s now p) = set_status s now p.
Proof. reflexivity. Qed.

Lemma fold_complete_promotion_lookup
  (now : Z) (rows : list RefundRow) (m : gmap string PromotionRow) (k : string) :
  fold_left (complete_promotion now) rows m !! k =
  if decide (k ∈ map rr_promotion_id rows)
  then set_status completed now <$> m !! k
  else m !! k.
Proof.
  revert m. induction rows as [|row rows IH]; intros m; cbn [fold_left map].
  - rewrite decide_False by apply not_elem_of_nil. reflexivity.
  - rewrite IH. unfold complete_promotion.
    destruct (decide (k = rr_promotion_id row)) as [Heq|Hne].
    + subst k. rewrite lookup_alter_eq.
      rewrite (decide_True (P := _ ∈ _ :: _)) by (apply elem_of_cons; tauto).
      destruct (decide _); destruct (m !! _); reflexivity.
    + rewrite lookup_alter_ne by congruence.
      destruct (decide (k ∈ map rr_promotion_id rows)) as [Hin|Hnin].
      * rewrite decide_True by (apply elem_of_cons; tauto). reflexivity.
      * rewrite decide_False; [reflexivity|]. rewrite elem_of_cons. tauto.
Qed.

Lemma fold_complete_by_fields (now : Z) (rows : list RefundRow) (t : RefundTaskRow) :
  t_promotion_id (fold_left (complete_by now) rows t) = t_promotion_id t
  /\ refund_date (fold_left (complete_by now) rows t) = refund_date t
  /\ original_budget (fold_left (complete_by now) rows t) = original_budget t.
Proof.
  revert t. induction rows as [|row rows IH]; intros t; cbn [fold_left].
  - repeat split.
  - destruct (IH (complete_by now t row)) as (-> & -> & ->).
    unfold complete_by. destruct (bool_decide _); repeat split.
Qed.

Lemma fold_complete_by_other (now : Z) (rows : list RefundRow) (t : RefundTaskRow) :
  t_promotion_id t ∉ map rr_promotion_id rows ->
  fold_left (complete_by now) rows t = t.
Proof.
  revert t. induction rows as [|row rows IH]; intros t Hnin; cbn [fold_left].
  - reflexivity.
  - cbn [map] in Hnin. apply not_elem_of_cons in Hnin as [Hne Hnin].
    unfold complete_by at 2. rewrite bool_decide_eq_false_2 by exact Hne.
    apply IH. exact Hnin.
Qed.

Lemma fold_complete_by_completed (now : Z) (rows : list RefundRow) (t : RefundTaskRow) :
  t_status t = task_completed ->
  t_status (fold_left (complete_by now) rows t) = task_completed.
Proof.
  revert t. induction rows as [|row rows IH]; intros t Hc; cbn [fold_left].
  - exact Hc.
  - apply IH. unfold complete_by. destruct (bool_decide _); [reflexivity | exact Hc].
Qed.

Lemma fold_complete_by_selected (now : Z) (rows : list RefundRow) (t : RefundTaskRow) :
  t_promotion_id t ∈ map rr_promotion_id rows ->
  t_status (fold_left (complete_by now) rows t) = task_completed.
Proof.
  revert t. induction rows as [|row rows IH]; intros t Hin; cbn [fold_left].
  - inversion Hin.
  - cbn [map] in Hin. destruct (decide (t_promotion_id t = rr_promotion_id row))
      as [Heq|Hne].
    + apply fold_complete_by_completed. unfold complete_by.
      rewrite bool_decide_eq_true_2 by exact Heq. reflexivity.
    + apply elem_of_cons in Hin as [Heq|Hin]; [congruence|].
      unfold complete_by at 2. rewrite bool_decide_eq_false_2 by exact Hne.
      apply IH. exact Hin.
Qed.

(** *** The refund sweep *)

Lemma processScheduledRefunds_eq (now : Z) (db : DB) :
  processScheduledRefunds now db =
  let rows := expiredPromotions now db in
  {| promotions := fold_left (complete_promotion now) rows (promotions db);
     promotion_queue := promotion_queue db;
     promotion_expenses := promotion_expenses db;
     refund_tasks :=
       map (fun t => fold_left (complete_by now) rows t) (refund_tasks db);
     points_ledger :=
       (points_ledger db ++ flat_map (credit_of now) rows)%list |}.
Proof. apply fold_processRefund. Qed.

Lemma refund_row_key (now : Z) (db : DB) (k : string * Z) (row : RefundRow) :
  In row (refund_row now db k) ->
  rr_promotion_id row = k.1 /\ rr_original_budget row = k.2.
Proof.
  unfold refund_row. destruct (promotions db !! k.1); [|intros []].
  intros [<-|[]]. split; reflexivity.
Qed.

Lemma due_task_spec (now : Z) (db : DB) (t : RefundTaskRow) :
  due_task now db t = true <->
  t_status t = task_scheduled /\ refund_date t <= now
  /\ is_Some (promotions db !! t_promotion_id t).
Proof.
  unfold due_task. rewrite !andb_true_iff, !bool_decide_eq_true, Z.leb_le.
  tauto.
Qed.

(** A promotion is selected exactly when one of its tasks is due. *)
Lemma selected_iff (now : Z) (db : DB) (pid : string) :
  pid ∈ map rr_promotion_id (expiredPromotions now db) <->
  exists t, In t (due_tasks now db) /\ t_promotion_id t = pid.
Proof.
  rewrite list_elem_of_In, in_map_iff. unfold expiredPromotions. split.
  - intros (row & <- & Hrow). apply in_flat_map in Hrow as (k & Hk & Hrow).
    rewrite <- list_elem_of_In, elem_of_remove_dups, list_elem_of_In in Hk.
    apply in_map_iff in Hk as (t & <- & Ht).
    exists t. split; [exact Ht|].
    apply refund_row_key in Hrow as [-> _]. reflexivity.
  - intros (t & Ht & <-).
    assert (Hd : due_task now db t = true).
    { unfold due_tasks in Ht. apply filter_In in Ht. tauto. }
    apply due_task_spec in Hd as (_ & _ & [p Hp]).
    eexists. split.
    2: { apply in_flat_map. exists (task_key t). split.
         - rewrite <- list_elem_of_In, elem_of_remove_dups, list_elem_of_In.
           apply in_map. exact Ht.
         - unfold refund_row. cbn [task_key fst]. rewrite Hp. left. reflexivity. }
    reflexivity.
Qed.

Lemma sweep_promotion_lookup (now : Z) (db : DB) (pid : string) :
  promotions (processScheduledRefunds now db) !! pid =
  if decide (pid ∈ map rr_promotion_id (expiredPromotions now db))
  then set_status completed now <$> promotions db !! pid
  else promotions db !! pid.
Proof.
  rewrite processScheduledRefunds_eq. cbv zeta. cbn [promotions].
  apply fold_complete_promotion_lookup.
Qed.




Lemma credits_app (db : DB) (pid : string) (l : list LedgerRow) :
  credits (with_ledger db (points_ledger db ++ l)) pid =
  (credits db pid ++ List.filter (fun e => bool_decide (reference_id e = pid)) l)%list.
Proof. unfold credits. cbn [points_ledger with_ledger]. apply List.filter_app. Qed.

Lemma credit_of_filter (now : Z) (pid : string) (rows : list RefundRow) :
  List.filter (fun e => bool_decide (reference_id e = pid))
    (flat_map (credit_of now) rows) =
  flat_map (credit_of now)
    (List.filter (fun row => bool_decide (rr_promotion_id row = pid)) rows).
Proof.
  apply filter_flat_map_comm; intros row Hrow; unfold credit_of;
    destruct (0 <? refund_of row); cbn [List.filter reference_id];
    rewrite ?Hrow; reflexivity.
Qed.

Lemma sweep_credits (now : Z) (db : DB) (pid : string) :
  credits (processScheduledRefunds now db) pid =
  (credits db pid ++
   flat_map (credit_of now)
     (List.filter (fun row => bool_decide (rr_promotion_id row = pid))
        (expiredPromotions now db)))%list.
Proof.
  rewrite processScheduledRefunds_eq. cbv zeta. unfold credits.
  cbn [points_ledger]. rewrite List.filter_app, credit_of_filter. reflexivity.
Qed.

Lemma sweep_tasks_of (now : Z) (db : DB) (pid : string) :
  tasks_of (processScheduledRefunds now db) pid =
  map (fun t => fold_left (complete_by now) (expiredPromotions now db) t)
    (tasks_of db pid).
Proof.
  rewrite processScheduledRefunds_eq. cbv zeta. unfold tasks_of.
  cbn [refund_tasks]. rewrite filter_map_comm. f_equal.
  apply filter_ext. intros t.
  destruct (fold_complete_by_fields now (expiredPromotions now db) t) as (-> & _).
  reflexivity.
Qed.

Lemma rows_of_none (pid : string) (rows : list RefundRow) :
  pid ∉ map rr_promotion_id rows ->
  List.filter (fun row => bool_decide (rr_promotion_id row = pid)) rows = [].
Proof.
  intros Hnin. apply filter_none. intros row Hrow.
  apply bool_decide_eq_false_2. intros <-. apply Hnin.
  apply list_elem_of_In, in_map. exact Hrow.
Qed.

(** A promotion that is not selected is left as it is. *)
Lemma sweep_untouched (now : Z) (db : DB) (pid : string) :
  pid ∉ map rr_promotion_id (expiredPromotions now db) ->
  promotions (processScheduledRefunds now db) !! pid = promotions db !! pid
  /\ credits (processScheduledRefunds now db) pid = credits db pid
  /\ tasks_of (processScheduledRefunds now db) pid = tasks_of db pid.
Proof.
  intros Hnin. split; [|split].
  - rewrite sweep_promotion_lookup, decide_False by exact Hnin. reflexivity.
  - rewrite sweep_credits, rows_of_none by exact Hnin. apply app_nil_r.
  - rewrite sweep_tasks_of. rewrite <- (map_id (tasks_of db pid)) at 2.
    apply map_ext_in. intros t Ht. apply fold_complete_by_other.
    unfold tasks_of in Ht. apply filter_In in Ht as [_ Ht].
    apply bool_decide_eq_true in Ht. rewrite Ht. exact Hnin.
Qed.



Lemma refund_row_filter (now : Z) (db : DB) (pid : string) (ks : list (string * Z)) :
  List.filter (fun row => bool_decide (rr_promotion_id row = pid))
    (flat_map (refund_row now db) ks) =
  flat_map (refund_row now db)
    (List.filter (fun k => bool_decide (k.1 = pid)) ks).
Proof.
  apply filter_flat_map_comm; intros k Hk; unfold refund_row;
    destruct (promotions db !! k.1); cbn [List.filter rr_promotion_id];
    rewrite ?Hk; reflexivity.
Qed.

(** The rows of a promotion, through its due tasks. *)
Lemma rows_of_promotion (now : Z) (db : DB) (pid : string) :
  List.filter (fun row => bool_decide (rr_promotion_id row = pid))
    (expiredPromotions now db) =
  flat_map (refund_row now db)
    (remove_dups
       (map task_key (List.filter (due_task now db) (tasks_of db pid)))).
Proof.
  unfold expiredPromotions. rewrite refund_row_filter, filter_remove_dups.
  rewrite filter_map_comm. unfold due_tasks, tasks_of.
  rewrite (filter_filter_comm (due_task now db)). reflexivity.
Qed.




(** *** The early stop *)

Lemma stopPromotionEarly_eq (pid reason : string) (now : Z) (db : DB) :
  stopPromotionEarly pid reason now db =
  ({| promotions := alter (set_status stopped_early now) pid (promotions db);
      promotion_queue :=
        map (fun q =>
               if bool_decide (q_promotion_id q = pid)
                  && bool_decide (q_status q = queue_scheduled)
               then cancel_queue reason now q else q)
          (promotion_queue db);
      promotion_expenses := promotion_expenses db;
      refund_tasks := refund_tasks db;
      points_ledger := (points_ledger db ++ early_credit now db pid)%list |},
   bool_decide (is_Some (promotions db !! pid))).
Proof.
  unfold stopPromotionEarly, checkRemainingBudget, early_credit.
  cbn [promotions with_promotions with_queue]. rewrite lookup_alter_eq.
  change (total_spent (with_promotions _ _) pid) with (total_spent db pid).
  destruct (promotions db !! pid) as [p|]; cbn.
  - destruct (0 <? Z.max 0 (budget_total p - total_spent db pid)); cbn;
      rewrite ?app_nil_r; reflexivity.
  - rewrite app_nil_r. reflexivity.
Qed.

Lemma early_credit_length (now : Z) (db : DB) (pid : string) :
  (length (early_credit now db pid) <= 1)%nat.
Proof.
  unfold early_credit. destruct (promotions db !! pid); [|cbn; lia].
  destruct (0 <? _); cbn; lia.
Qed.

Lemma early_credit_filter (now : Z) (db : DB) (id pid : string) :
  List.filter (fun e => bool_decide (reference_id e = pid)) (early_credit now db id) =
  if decide (id = pid) then early_credit now db id else [].
Proof.
  unfold early_credit. destruct (promotions db !! id) as [p|].
  - destruct (0 <? _); cbn [List.filter reference_id].
    + destruct (decide (id = pid)) as [Heq|Hne].
      * rewrite bool_decide_eq_true_2 by exact Heq. reflexivity.
      * rewrite bool_decide_eq_false_2 by exact Hne. reflexivity.
    + destruct (decide (id = pid)); reflexivity.
  - destruct (decide (id = pid)); reflexivity.
Qed.

(** What one early stop does to a promotion: its own, or another. *)
Lemma stop_effect (id reason : string) (now : Z) (db : DB) (pid : string) :
  let db' := (stopPromotionEarly id reason now db).1 in
  promotions db' !! pid =
    (if decide (id = pid)
     then set_status stopped_early now <$> promotions db !! pid
     else promotions db !! pid)
  /\ credits db' pid =
     (credits db pid ++ if decide (id = pid) then early_credit now db id else [])%list
  /\ tasks_of db' pid = tasks_of db pid.
Proof.
  cbv zeta. rewrite stopPromotionEarly_eq. cbn [fst]. split; [|split].
  - cbn [promotions]. destruct (decide (id = pid)) as [->|Hne].
    + apply lookup_alter_eq.
    + apply lookup_alter_ne. exact Hne.
  - unfold credits. cbn [points_ledger].
    rewrite List.filter_app, early_credit_filter. reflexivity.
  - reflexivity.
Qed.

Lemma stop_each_untouched (ids : list string) (now : Z) (db : DB) (pid : string) :
  pid ∉ ids ->
  promotions (stop_each ids now db) !! pid = promotions db !! pid
  /\ credits (stop_each ids now db) pid = credits db pid
  /\ tasks_of (stop_each ids now db) pid = tasks_of db pid.
Proof.
  revert db. induction ids as [|id ids IH]; intros db Hnin; cbn [stop_each].
  - repeat split.
  - apply not_elem_of_cons in Hnin as [Hne Hnin].
    destruct (stop_effect id "budget_exhausted" now db pid) as (H1 & H2 & H3).
    rewrite decide_False in H1 by congruence.
    rewrite decide_False in H2 by congruence. rewrite app_nil_r in H2.
    destruct (stopPromotionEarly id "budget_exhausted" now db) as [db' ok].
    cbn [fst] in *. destruct ok.
    + destruct (IH db' Hnin) as (I1 & I2 & I3).
      rewrite I1, I2, I3. repeat split; assumption.
    + repeat split; assumption.
Qed.

Lemma NoDup_map_filter {A B} (h : A -> B) (f : A -> bool) (l : list A) :
  List.NoDup (map h l) -> List.NoDup (map h (List.filter f l)).
Proof.
  induction l as [|x l IH]; cbn [map List.filter]; intros Hnd; [exact Hnd|].
  apply List.NoDup_cons_iff in Hnd as [Hnin Hnd].
  destruct (f x); cbn [map]; [|exact (IH Hnd)].
  apply List.NoDup_cons; [|exact (IH Hnd)].
  intros Hin. apply Hnin. apply in_map_iff in Hin as (y & Hy & Hin).
  apply in_map_iff. exists y. split; [exact Hy|].
  apply filter_In in Hin. tauto.
Qed.

Lemma map_is_fmap {A B} (h : A -> B) (l : list A) : map h l = h <$> l.
Proof. induction l as [|x l IH]; cbn; [|rewrite IH]; reflexivity. Qed.

Lemma exhaustedPromotions_NoDup (now : Z) (db : DB) :
  List.NoDup (exhaustedPromotions now db).
Proof.
  unfold exhaustedPromotions. apply NoDup_map_filter.
  rewrite map_is_fmap. apply NoDup_ListNoDup, NoDup_fst_map_to_list.
Qed.

Lemma exhaustedPromotions_active (now : Z) (db : DB) (id : string) :
  id ∈ exhaustedPromotions now db -> status_of db id = Some active.
Proof.
  unfold exhaustedPromotions. rewrite list_elem_of_In, in_map_iff.
  intros ([k p] & <- & Hin). apply filter_In in Hin as [Hin Hex].
  apply list_elem_of_In, elem_of_map_to_list in Hin.
  unfold status_of. cbn [fst snd] in *. rewrite Hin. cbn.
  unfold exhausted in Hex. rewrite !andb_true_iff, bool_decide_eq_true in Hex.
  f_equal. tauto.
Qed.

(** *** Credits, status and scheduled tasks of a promotion *)

Lemma stop_each_potential (ids : list string) (now : Z) (db : DB) (pid : string) :
  List.NoDup ids ->
  (forall id, id ∈ ids -> status_of db id = Some active) ->
  (refund_potential (stop_each ids now db) pid <= refund_potential db pid)%nat.
Proof.
  revert db. induction ids as [|id ids IH]; intros db Hnd Hact; cbn [stop_each].
  - lia.
  - apply List.NoDup_cons_iff in Hnd as [Hnin Hnd].
    pose proof (stop_effect id "budget_exhausted" now db pid) as (H1 & H2 & H3).
    assert (Hstep : (refund_potential
                       (stopPromotionEarly id "budget_exhausted" now db).1 pid
                     <= refund_potential db pid)%nat).
    { unfold refund_potential, active_count, scheduled_tasks, status_of.
      rewrite H1, H2, H3, length_app.
      destruct (decide (id = pid)) as [->|Hne]; [|cbn [length]; lia].
      pose proof (Hact pid ltac:(left)) as Ha. unfold status_of in Ha.
      pose proof (early_credit_length now db pid).
      destruct (promotions db !! pid) as [p|]; [|discriminate].
      cbn in Ha. injection Ha as Ha. cbn. rewrite Ha. lia. }
    assert (Hrest : forall id', id' ∈ ids ->
              status_of (stopPromotionEarly id "budget_exhausted" now db).1 id'
              = Some active).
    { intros id' Hin'. destruct (stop_effect id "budget_exhausted" now db id')
        as (K1 & _). unfold status_of. rewrite K1, decide_False.
      - apply (Hact id'). right. exact Hin'.
      - intros ->. apply Hnin, list_elem_of_In. exact Hin'. }
    destruct (stopPromotionEarly id "budget_exhausted" now db) as [db' ok].
    cbn [fst] in *. destruct ok; [|exact Hstep].
    etransitivity; [apply IH; assumption | exact Hstep].
Qed.

Lemma exhaustion_potential (now : Z) (db : DB) (pid : string) :
  (refund_potential (checkBudgetExhaustion now db) pid <= refund_potential db pid)%nat.
Proof.
  apply stop_each_potential.
  - apply exhaustedPromotions_NoDup.
  - apply exhaustedPromotions_active.
Qed.

Lemma credit_of_length (now : Z) (row : RefundRow) :
  (length (credit_of now row) <= 1)%nat.
Proof. unfold credit_of. destruct (0 <? _); cbn; lia. Qed.

Lemma refund_row_length (now : Z) (db : DB) (k : string * Z) :
  (length (refund_row now db k) <= 1)%nat.
Proof. unfold refund_row. destruct (promotions db !! k.1); cbn; lia. Qed.

Lemma filter_length_implied {A} (f g : A -> bool) (l : list A) :
  (forall x, f x = true -> g x = true) ->
  (length (List.filter f l) <= length (List.filter g l))%nat.
Proof.
  intros H. rewrite <- (filter_implied f g l H). apply filter_length_le.
Qed.

(** The rows of a promotion are no more than its scheduled tasks. *)
Lemma rows_of_promotion_length (now : Z) (db : DB) (pid : string) :
  (length (List.filter (fun row => bool_decide (rr_promotion_id row = pid))
             (expiredPromotions now db))
   <= length (scheduled_tasks db pid))%nat.
Proof.
  rewrite rows_of_promotion.
  etransitivity; [apply flat_map_length_le, refund_row_length|].
  etransitivity; [apply remove_dups_length_le|].
  rewrite length_map. unfold scheduled_tasks.
  apply filter_length_implied. intros t Ht.
  apply due_task_spec in Ht as (Hs & _). apply bool_decide_eq_true. exact Hs.
Qed.

Lemma sweep_potential (now : Z) (db : DB) (pid : string) :
  (refund_potential (processScheduledRefunds now db) pid
   <= refund_potential db pid)%nat.
Proof.
  destruct (decide (pid ∈ map rr_promotion_id (expiredPromotions now db)))
    as [Hsel|Hnsel].
  - unfold refund_potential.
    assert (Ha : active_count (processScheduledRefunds now db) pid = 0%nat).
    { unfold active_count, status_of.
      rewrite sweep_promotion_lookup, decide_True by exact Hsel.
      destruct (promotions db !! pid); reflexivity. }
    assert (Hs : scheduled_tasks (processScheduledRefunds now db) pid = []).
    { unfold scheduled_tasks. rewrite sweep_tasks_of. apply filter_none.
      intros t' Ht'. apply in_map_iff in Ht' as (t & <- & Ht).
      apply bool_decide_eq_false_2. rewrite fold_complete_by_selected.
      - discriminate.
      - unfold tasks_of in Ht. apply filter_In in Ht as [_ Ht].
        apply bool_decide_eq_true in Ht. rewrite Ht. exact Hsel. }
    rewrite Ha, Hs, sweep_credits, length_app. cbn [length].
    pose proof (rows_of_promotion_length now db pid).
    pose proof (flat_map_length_le (credit_of now)
                  (List.filter
                     (fun row => bool_decide (rr_promotion_id row = pid))
                     (expiredPromotions now db))
                  (credit_of_length now)).
    lia.
  - destruct (sweep_untouched now db pid Hnsel) as (H1 & H2 & H3).
    unfold refund_potential, active_count, scheduled_tasks, status_of.
    rewrite H1, H2, H3. lia.
Qed.

(** *** The status of a promotion under the sweeps *)

(** The exhaustion sweep leaves a promotion that is not active as it is. *)
Lemma exhaustion_untouched (now : Z) (db : DB) (pid : string) :
  status_of db pid <> Some active ->
  promotions (checkBudgetExhaustion now db) !! pid = promotions db !! pid
  /\ credits (checkBudgetExhaustion now db) pid = credits db pid
  /\ tasks_of (checkBudgetExhaustion now db) pid = tasks_of db pid.
Proof.
  intros Hna. apply stop_each_untouched. intros Hin.
  apply Hna, (exhaustedPromotions_active now). exact Hin.
Qed.

(** The refund sweep leaves the status or makes it [completed]. *)
Lemma sweep_status (now : Z) (db : DB) (pid : string) (st : PromotionStatus) :
  status_of db pid = Some st ->
  status_of (processScheduledRefunds now db) pid = Some st
  \/ status_of (processScheduledRefunds now db) pid = Some completed.
Proof.
  unfold status_of. rewrite sweep_promotion_lookup.
  destruct (decide _); destruct (promotions db !! pid); cbn; intros [= <-];
    auto.
Qed.

(** Every write of a status writes [completed] or [stopped_early]. *)
Lemma operation_status (db : DB) (op : Operation) (pid : string) (st : PromotionStatus) :
  status_of db pid = Some st ->
  status_of (run_operation db op) pid = Some st
  \/ status_of (run_operation db op) pid = Some completed
  \/ status_of (run_operation db op) pid = Some stopped_early.
Proof.
  intros Hst. unfold status_of in *. destruct op as [now row|id reason now];
    cbn [run_operation].
  - rewrite processRefund_eq. cbn [promotions]. unfold complete_promotion.
    destruct (decide (rr_promotion_id row = pid)) as [->|Hne].
    + rewrite lookup_alter_eq. destruct (promotions db !! pid); [|discriminate].
      right. left. reflexivity.
    + rewrite lookup_alter_ne by exact Hne. left. exact Hst.
  - destruct (stop_effect id reason now db pid) as (-> & _).
    destruct (decide (id = pid)); [|left; exact Hst].
    destruct (promotions db !! pid); [|discriminate].
    right. right. reflexivity.
Qed.

Lemma operations_never_active
  (ops : list Operation) (db : DB) (pid : string) (st : PromotionStatus) :
  status_of db pid = Some st -> st <> active ->
  exists st', status_of (run_operations ops db) pid = Some st' /\ st' <> active.
Proof.
  revert db st. induction ops as [|op ops IH]; intros db st Hst Hna;
    cbn [run_operations fold_left].
  - exists st. split; assumption.
  - destruct (operation_status db op pid st Hst) as [H|[H|H]].
    + exact (IH _ st H Hna).
    + apply (IH _ completed H). discriminate.
    + apply (IH _ stopped_early H). discriminate.
Qed.

(** C1, as the code has it: the status is written without a condition,
    and what holds of a promotion that has left [active] is this.
    Whatever refunds and early stops are applied to the store, in
    whatever order and for whatever rows and identifiers (those selected
    earlier by a racing run included), it never is [active] again.  When
    the sweeps run one after another, moreover, the exhaustion sweep,
    which selects active promotions only, never changes it, and the
    refund sweep leaves it or makes it [completed]: a [completed]
    promotion stays [completed], and a [stopped_early] one stays so or
    becomes [completed]. *)
Theorem status_settles
  (ss : list Sweep) (ops : list Operation) (db : DB) (pid : string)
  (st : PromotionStatus) :
  status_of db pid = Some st -> st <> active ->
  (exists st', status_of (run_operations ops db) pid = Some st' /\ st' <> active)
  /\ (forall now, status_of (checkBudgetExhaustion now db) pid = Some st)
  /\ (forall now,
        status_of (processScheduledRefunds now db) pid = Some st
        \/ status_of (processScheduledRefunds now db) pid = Some completed)
  /\ (status_of (run_sweeps ss db) pid = Some st
      \/ status_of (run_sweeps ss db) pid = Some completed).
Proof.
  intros Hst Hna.
  split; [exact (operations_never_active ops db pid st Hst Hna)|].
  split; [|split].
  - intros now. unfold status_of.
    destruct (exhaustion_untouched now db pid) as (-> & _); [|exact Hst].
    rewrite Hst. congruence.
  - intros now. apply sweep_status. exact Hst.
  - revert db st Hst Hna. induction ss as [|s ss IH]; intros db st Hst Hna;
      cbn [run_sweeps fold_left]; [left; exact Hst|].
    assert (Hstep : status_of (run_sweep db s) pid = Some st
                    \/ status_of (run_sweep db s) pid = Some completed).
    { destruct s as [now|now]; cbn [run_sweep].
      - apply sweep_status. exact Hst.
      - left. unfold status_of.
        destruct (exhaustion_untouched now db pid) as (-> & _); [|exact Hst].
        rewrite Hst. congruence. }
    destruct Hstep as [Hs|Hs].
    + apply (IH _ st Hs Hna).
    + destruct (IH _ completed Hs ltac:(discriminate)) as [H|H];
        right; exact H.
Qed.

(** C1, as stated, fails: stopped early on day 3, the promotion of
    scenario B is made [completed] by the refund sweep of day 7, its
    refund task being still scheduled. *)
Lemma stopped_early_then_completed :
  status_of Examples.db_spent_99 "promo_1" = Some active
  /\ status_of (run_sweeps [ExhaustionSweep Examples.day_3] Examples.db_spent_99)
       "promo_1" = Some stopped_early
  /\ status_of (run_sweeps Examples.stop_then_refund Examples.db_spent_99)
       "promo_1" = Some completed.
Proof. vm_compute. repeat split; reflexivity. Qed.

(** In a race both transitions apply, the later one last. *)
Lemma stale_stop_overwrites_completed :
  length Examples.racing_operations = 2%nat
  /\ status_of (run_operations (firstn 1 Examples.racing_operations)
                  Examples.db_spent_99) "promo_1" = Some completed
  /\ status_of (run_operations Examples.racing_operations Examples.db_spent_99)
       "promo_1" = Some stopped_early
  /\ map amount
       (credits (run_operations Examples.racing_operations Examples.db_spent_99)
          "promo_1") = [10000; 10000].
Proof. vm_compute. repeat split; reflexivity. Qed.

(** *** The credits of a promotion under the sweeps *)






Lemma sweeps_potential (ss : list Sweep) (db : DB) (pid : string) :
  (refund_potential (run_sweeps ss db) pid <= refund_potential db pid)%nat.
Proof.
  revert db. induction ss as [|s ss IH]; intros db; cbn [run_sweeps fold_left].
  - lia.
  - etransitivity; [exact (IH (run_sweep db s))|].
    destruct s as [now|now]; cbn [run_sweep].
    + apply sweep_potential.
    + apply exhaustion_potential.
Qed.

(** An active promotion with one scheduled refund task and no credit
    receives two credits at most. *)
Lemma at_most_two_credits (ss : list Sweep) (db : DB) (pid : string) :
  credits db pid = [] ->
  (length (scheduled_tasks db pid) <= 1)%nat ->
  (length (credits (run_sweeps ss db) pid) <= 2)%nat.
Proof.
  intros Hc Hs. pose proof (sweeps_potential ss db pid) as H.
  unfold refund_potential in H.
  rewrite Hc in H. cbn [length] in H.
  assert (active_count db pid <= 1)%nat.
  { unfold active_count. destruct (status_of db pid) as [[]|]; lia. }
  lia.
Qed.


End SweepFacts.

(** Scenario B after its early stop, under the refund sweep of day 7. *)
Lemma status_settles_witness :
  Lifecycle.status_of
    (Lifecycle.run_sweeps [Lifecycle.ExhaustionSweep Examples.day_3]
       Examples.db_spent_99) "promo_1" = Some Lifecycle.stopped_early
  /\ Lifecycle.stopped_early <> Lifecycle.active
  /\ (Lifecycle.status_of
        (Lifecycle.run_sweeps [Lifecycle.RefundSweep Examples.week_ms]
           (Lifecycle.run_sweeps [Lifecycle.ExhaustionSweep Examples.day_3]
              Examples.db_spent_99)) "promo_1" = Some Lifecycle.stopped_early
      \/ Lifecycle.status_of
           (Lifecycle.run_sweeps [Lifecycle.RefundSweep Examples.week_ms]
              (Lifecycle.run_sweeps [Lifecycle.ExhaustionSweep Examples.day_3]
                 Examples.db_spent_99)) "promo_1" = Some Lifecycle.completed).
Proof.
  assert (H1 : Lifecycle.status_of
                 (Lifecycle.run_sweeps [Lifecycle.ExhaustionSweep Examples.day_3]
                    Examples.db_spent_99) "promo_1"
               = Some Lifecycle.stopped_early) by (vm_compute; reflexivity).
  assert (H2 : Lifecycle.stopped_early <> Lifecycle.active) by discriminate.
  split; [exact H1|]. split; [exact H2|].
  exact (proj2 (proj2 (proj2
           (status_settles [Lifecycle.RefundSweep Examples.week_ms] []
              _ "promo_1" Lifecycle.stopped_early H1 H2)))).
Defined.

(** ** The exhaustion sweep, the expenses and the timers *)

Section ExhaustionFacts.

Import Lifecycle.
#[local] Open Scope Z_scope.

Lemma stop_each_cons (id : string) (ids : list string) (now : Z) (db : DB) :
  is_Some (promotions db !! id) ->
  stop_each (id :: ids) now db =
  stop_each ids now (stopPromotionEarly id "budget_exhausted" now db).1.
Proof.
  intros Hs. cbn [stop_each]. rewrite stopPromotionEarly_eq.
  rewrite bool_decide_eq_true_2 by exact Hs. reflexivity.
Qed.

Lemma stop_tables (id reason : string) (now : Z) (db : DB) :
  promotion_expenses (stopPromotionEarly id reason now db).1 = promotion_expenses db
  /\ refund_tasks (stopPromotionEarly id reason now db).1 = refund_tasks db
  /\ promotion_queue (stopPromotionEarly id reason now db).1 =
     map (fun q =>
            if bool_decide (q_promotion_id q = id)
               && bool_decide (q_status q = queue_scheduled)
            then cancel_queue reason now q else q)
       (promotion_queue db).
Proof. rewrite stopPromotionEarly_eq. repeat split. Qed.

Lemma stop_each_tables (ids : list string) (now : Z) (db : DB) :
  promotion_expenses (stop_each ids now db) = promotion_expenses db
  /\ refund_tasks (stop_each ids now db) = refund_tasks db.
Proof.
  revert db. induction ids as [|id ids IH]; intros db; cbn [stop_each].
  - split; reflexivity.
  - destruct (stop_tables id "budget_exhausted" now db) as (E & T & _).
    destruct (stopPromotionEarly id "budget_exhausted" now db) as [db' ok].
    cbn [fst] in E, T. destruct ok.
    + destruct (IH db') as [I1 I2]. rewrite I1, I2. split; assumption.
    + split; assumption.
Qed.

Lemma total_spent_expenses (db db' : DB) (pid : string) :
  promotion_expenses db' = promotion_expenses db ->
  total_spent db' pid = total_spent db pid.
Proof. intros H. unfold total_spent. rewrite H. reflexivity. Qed.

Lemma early_credit_frame (now : Z) (db db' : DB) (pid : string) :
  promotion_expenses db' = promotion_expenses db ->
  promotions db' !! pid = promotions db !! pid ->
  early_credit now db' pid = early_credit now db pid.
Proof.
  intros He Hp. unfold early_credit.
  rewrite Hp, (total_spent_expenses db db' pid He). reflexivity.
Qed.

Lemma stop_exists (id reason : string) (now : Z) (db : DB) (pid : string) :
  is_Some (promotions (stopPromotionEarly id reason now db).1 !! pid) <->
  is_Some (promotions db !! pid).
Proof.
  destruct (stop_effect id reason now db pid) as (Hp & _). cbv zeta in Hp.
  rewrite Hp. destruct (decide (id = pid)); [|reflexivity].
  rewrite fmap_is_Some. reflexivity.
Qed.

(** The early stops of identifiers that are all in the table. *)
Lemma stop_each_effect (ids : list string) (now : Z) (db : DB) (pid : string) :
  List.NoDup ids ->
  (forall id, id ∈ ids -> is_Some (promotions db !! id)) ->
  pid ∈ ids ->
  promotions (stop_each ids now db) !! pid =
    set_status stopped_early now <$> promotions db !! pid
  /\ credits (stop_each ids now db) pid =
     (credits db pid ++ early_credit now db pid)%list.
Proof.
  revert db. induction ids as [|id ids IH]; intros db Hnd Hex Hin.
  - apply elem_of_nil in Hin. destruct Hin.
  - apply List.NoDup_cons_iff in Hnd as [Hnotin Hnd].
    rewrite stop_each_cons by (apply Hex; left).
    destruct (stop_effect id "budget_exhausted" now db pid) as (Hp & Hc & _).
    cbv zeta in Hp, Hc.
    destruct (stop_tables id "budget_exhausted" now db) as (He & _ & _).
    set (db' := (stopPromotionEarly id "budget_exhausted" now db).1) in *.
    assert (Hex' : forall i, i ∈ ids -> is_Some (promotions db' !! i)).
    { intros i Hi. apply stop_exists. apply Hex. right. exact Hi. }
    destruct (decide (id = pid)) as [->|Hne].
    + assert (Hn : pid ∉ ids).
      { intros Hi. apply Hnotin. apply list_elem_of_In. exact Hi. }
      destruct (stop_each_untouched ids now db' pid Hn) as (U1 & U2 & _).
      rewrite U1, U2, Hp, Hc. split; reflexivity.
    + apply elem_of_cons in Hin as [Heq|Hin]; [congruence|].
      destruct (IH db' Hnd Hex' Hin) as [I1 I2].
      rewrite I1, I2, Hp, Hc, app_nil_r.
      rewrite (early_credit_frame now db db' pid He Hp). split; reflexivity.
Qed.

Lemma cancel_exhausted_nil (now : Z) (q : QueueRow) :
  cancel_exhausted [] now q = q.
Proof.
  unfold cancel_exhausted. rewrite bool_decide_eq_false_2; [reflexivity|].
  apply not_elem_of_nil.
Qed.

Lemma cancel_exhausted_cons (id : string) (ids : list string) (now : Z) (q : QueueRow) :
  cancel_exhausted ids now
    (if bool_decide (q_promotion_id q = id)
        && bool_decide (q_status q = queue_scheduled)
     then cancel_queue "budget_exhausted" now q else q) =
  cancel_exhausted (id :: ids) now q.
Proof.
  unfold cancel_exhausted.
  destruct (bool_decide_reflect (q_status q = queue_scheduled)) as [Hs|Hs].
  - destruct (bool_decide_reflect (q_promotion_id q = id)) as [Hi|Hi]; cbn [andb].
    + cbn [cancel_queue q_status q_promotion_id].
      rewrite (bool_decide_eq_false_2 (queue_cancelled = queue_scheduled))
        by discriminate.
      rewrite andb_false_r.
      rewrite (bool_decide_eq_true_2 (q_promotion_id q ∈ id :: ids))
        by (rewrite Hi; left).
      reflexivity.
    + rewrite (bool_decide_eq_true_2 (q_status q = queue_scheduled)) by exact Hs.
      rewrite !andb_true_r.
      rewrite (bool_decide_ext (q_promotion_id q ∈ ids) (q_promotion_id q ∈ id :: ids));
        [reflexivity|].
      rewrite elem_of_cons. tauto.
  - rewrite !andb_false_r.
    rewrite (bool_decide_eq_false_2 (q_status q = queue_scheduled)) by exact Hs.
    rewrite !andb_false_r. reflexivity.
Qed.

Lemma stop_each_queue (ids : list string) (now : Z) (db : DB) :
  (forall id, id ∈ ids -> is_Some (promotions db !! id)) ->
  promotion_queue (stop_each ids now db) =
  map (cancel_exhausted ids now) (promotion_queue db).
Proof.
  revert db. induction ids as [|id ids IH]; intros db Hex.
  - cbn [stop_each]. rewrite (map_ext _ id); [symmetry; apply map_id|].
    intros q. apply cancel_exhausted_nil.
  - rewrite stop_each_cons by (apply Hex; left).
    rewrite IH.
    + destruct (stop_tables id "budget_exhausted" now db) as (_ & _ & Hq).
      rewrite Hq, map_map. apply map_ext. intros q. apply cancel_exhausted_cons.
    + intros i Hi. apply stop_exists. apply Hex. right. exact Hi.
Qed.

Lemma exhaustedPromotions_iff (now : Z) (db : DB) (pid : string) :
  pid ∈ exhaustedPromotions now db <->
  exists p, promotions db !! pid = Some p /\ exhausted now db pid p = true.
Proof.
  unfold exhaustedPromotions. rewrite list_elem_of_In, in_map_iff. split.
  - intros ([k p] & Hk & Hin). cbn [fst] in Hk. subst k.
    apply List.filter_In in Hin as [Hin Hex]. cbn [fst snd] in Hex.
    exists p. split; [|exact Hex].
    apply elem_of_map_to_list. apply list_elem_of_In. exact Hin.
  - intros (p & Hp & Hex). exists (pid, p). split; [reflexivity|].
    apply List.filter_In. split; [|exact Hex].
    apply list_elem_of_In. apply elem_of_map_to_list. exact Hp.
Qed.

Lemma exhaustedPromotions_exist (now : Z) (db : DB) (id : string) :
  id ∈ exhaustedPromotions now db -> is_Some (promotions db !! id).
Proof.
  intros H. apply exhaustedPromotions_iff in H as (p & Hp & _).
  rewrite Hp. eexists; reflexivity.
Qed.

(** The exhaustion sweep on a promotion that it selects: an active
    promotion that has not expired and whose spend has reached 98% of
    its budget is stopped early; its scheduled queue rows, and those of
    the other promotions selected, are cancelled for the reason
    [budget_exhausted], and no other queue row is written; the author is
    credited the remaining budget when it is positive; the refund tasks
    and the expenses are not written. *)
Theorem exhaustion_sweep_stops
  (now : Z) (db : DB) (pid : string) (p : PromotionRow) :
  let db1 := checkBudgetExhaustion now db in
  let remaining := budget_total p - total_spent db pid in
  promotions db !! pid = Some p ->
  status p = active -> now < expires_at p ->
  98 * budget_total p <= 100 * total_spent db pid ->
  promotions db1 !! pid = Some (set_status stopped_early now p)
  /\ credits db1 pid =
     (credits db pid ++
      if 0 <? remaining
      then [ {| l_user_id := p_author_id p; amount := remaining;
                reference_id := pid; l_created_at := now |} ]
      else [])%list
  /\ promotion_queue db1 =
     map (cancel_exhausted (exhaustedPromotions now db) now) (promotion_queue db)
  /\ (forall q, In q (promotion_queue db1) ->
        q_promotion_id q = pid -> q_status q <> queue_scheduled)
  /\ refund_tasks db1 = refund_tasks db
  /\ promotion_expenses db1 = promotion_expenses db.
Proof.
  intros db1 remaining Hp Hst Hexp Hsp.
  assert (Hin : pid ∈ exhaustedPromotions now db).
  { apply exhaustedPromotions_iff. exists p. split; [exact Hp|].
    unfold exhausted. rewrite bool_decide_eq_true_2 by exact Hst.
    apply andb_true_intro. split; [apply andb_true_intro; split|].
    - reflexivity.
    - apply Z.ltb_lt. exact Hexp.
    - apply Z.leb_le. exact Hsp. }
  destruct (stop_each_effect (exhaustedPromotions now db) now db pid
              (exhaustedPromotions_NoDup now db)
              (exhaustedPromotions_exist now db) Hin) as [E1 E2].
  pose proof (stop_each_queue (exhaustedPromotions now db) now db
                (exhaustedPromotions_exist now db)) as Eq.
  destruct (stop_each_tables (exhaustedPromotions now db) now db) as [T1 T2].
  subst db1. unfold checkBudgetExhaustion.
  split; [rewrite E1, Hp; reflexivity|].
  split.
  { rewrite E2. unfold early_credit. rewrite Hp. subst remaining.
    destruct (Z.ltb_spec 0 (budget_total p - total_spent db pid)) as [Hpos|Hle].
    - rewrite Z.max_r by lia.
      destruct (Z.ltb_spec 0 (budget_total p - total_spent db pid)); [reflexivity|lia].
    - rewrite Z.max_l by lia. reflexivity. }
  split; [exact Eq|].
  split; [|split; assumption].
  intros q Hq Hpid Hs. rewrite Eq in Hq. apply in_map_iff in Hq as (q0 & Hq0 & _).
  subst q. unfold cancel_exhausted in Hs, Hpid.
  destruct (bool_decide_reflect (q_status q0 = queue_scheduled)) as [Hs0|Hs0].
  - destruct (bool_decide_reflect (q_promotion_id q0 ∈ exhaustedPromotions now db))
      as [Hi|Hi]; cbn [andb] in Hs, Hpid.
    + discriminate Hs.
    + apply Hi. rewrite Hpid. exact Hin.
  - rewrite andb_false_r in Hs. contradiction.
Qed.

(** The exhaustion sweep is idempotent at a given time: run again on
    its own result it selects no promotion and writes nothing. *)
Theorem exhaustion_sweep_idempotent (now : Z) (db : DB) :
  exhaustedPromotions now (checkBudgetExhaustion now db) = []
  /\ checkBudgetExhaustion now (checkBudgetExhaustion now db) =
     checkBudgetExhaustion now db.
Proof.
  assert (H : exhaustedPromotions now (checkBudgetExhaustion now db) = []).
  { destruct (exhaustedPromotions now (checkBudgetExhaustion now db)) as [|k l] eqn:E;
      [reflexivity|exfalso].
    assert (Hk : k ∈ exhaustedPromotions now (checkBudgetExhaustion now db))
      by (rewrite E; left).
    apply exhaustedPromotions_iff in Hk as (p' & Hp' & Hex').
    unfold checkBudgetExhaustion in Hp', Hex'.
    destruct (stop_each_tables (exhaustedPromotions now db) now db) as [T1 _].
    unfold exhausted in Hex'.
    rewrite (total_spent_expenses db _ k T1) in Hex'.
    destruct (decide (k ∈ exhaustedPromotions now db)) as [Hin|Hout].
    - destruct (stop_each_effect (exhaustedPromotions now db) now db k
                  (exhaustedPromotions_NoDup now db)
                  (exhaustedPromotions_exist now db) Hin) as [E1 _].
      rewrite E1 in Hp'. destruct (promotions db !! k) as [p|]; [|discriminate Hp'].
      injection Hp' as <-. cbn [set_status status] in Hex'.
      rewrite bool_decide_eq_false_2 in Hex' by discriminate. discriminate Hex'.
    - destruct (stop_each_untouched (exhaustedPromotions now db) now db k Hout)
        as (U1 & _ & _).
      rewrite U1 in Hp'. apply Hout. apply exhaustedPromotions_iff.
      exists p'. split; assumption. }
  split; [exact H|].
  unfold checkBudgetExhaustion at 1. rewrite H. reflexivity.
Qed.

End ExhaustionFacts.

Section LedgerFacts.

Import Lifecycle.
#[local] Open Scope Z_scope.

Lemma same_terms_refl (p : PromotionRow) : same_terms p p.
Proof. unfold same_terms. repeat split. Qed.

Lemma same_terms_set_status (s : PromotionStatus) (now : Z) (p : PromotionRow) :
  same_terms p (set_status s now p).
Proof. unfold same_terms. repeat split. Qed.

Lemma same_terms_trans (p q r : PromotionRow) :
  same_terms p q -> same_terms q r -> same_terms p r.
Proof. unfold same_terms. intros H1 H2. intuition congruence. Qed.

Lemma terms_kept_refl (db : DB) : terms_kept db db.
Proof.
  intros pid. destruct (promotions db !! pid); [apply same_terms_refl | exact I].
Qed.

Lemma terms_kept_trans (a b c : DB) :
  terms_kept a b -> terms_kept b c -> terms_kept a c.
Proof.
  intros H1 H2 pid. specialize (H1 pid). specialize (H2 pid).
  destruct (promotions a !! pid), (promotions b !! pid), (promotions c !! pid);
    try tauto.
  eapply same_terms_trans; eassumption.
Qed.

Lemma terms_kept_lookup (db db' : DB) :
  (forall pid, promotions db' !! pid = promotions db !! pid
               \/ exists s t, promotions db' !! pid =
                              set_status s t <$> promotions db !! pid) ->
  terms_kept db db'.
Proof.
  intros H pid. destruct (H pid) as [E|(s & t & E)]; rewrite E.
  - destruct (promotions db !! pid); [apply same_terms_refl | exact I].
  - destruct (promotions db !! pid); cbn; [apply same_terms_set_status | exact I].
Qed.

Lemma stop_terms (id reason : string) (now : Z) (db : DB) :
  terms_kept db (stopPromotionEarly id reason now db).1.
Proof.
  apply terms_kept_lookup. intros pid.
  destruct (stop_effect id reason now db pid) as (Hp & _). cbv zeta in Hp.
  rewrite Hp. destruct (decide (id = pid)); [right; eauto | left; reflexivity].
Qed.

Lemma stop_each_terms (ids : list string) (now : Z) (db : DB) :
  terms_kept db (stop_each ids now db).
Proof.
  revert db. induction ids as [|id ids IH]; intros db; cbn [stop_each].
  - apply terms_kept_refl.
  - pose proof (stop_terms id "budget_exhausted" now db) as H.
    destruct (stopPromotionEarly id "budget_exhausted" now db) as [db' ok].
    cbn [fst] in H. destruct ok; [|exact H].
    eapply terms_kept_trans; [exact H | apply IH].
Qed.

Lemma run_sweep_terms (db : DB) (s : Sweep) :
  terms_kept db (run_sweep db s)
  /\ promotion_expenses (run_sweep db s) = promotion_expenses db.
Proof.
  destruct s as [now|now]; cbn [run_sweep].
  - split.
    + apply terms_kept_lookup. intros pid. rewrite sweep_promotion_lookup.
      destruct (decide _); [right; eauto | left; reflexivity].
    + rewrite processScheduledRefunds_eq. reflexivity.
  - split.
    + apply stop_each_terms.
    + apply stop_each_tables.
Qed.

(** What no sweep writes: under any runs of the two sweeps the table of
    expenses is unchanged, no promotion is added or removed, and a
    promotion keeps its post, author, budget, duration, targeting and
    dates of creation and expiry (a sweep writes its status and its date
    of completion only); so the remaining budget that
    [checkRemainingBudget] reports for a promotion is the same before
    and after. *)
Theorem sweeps_keep_budgets (ss : list Sweep) (db : DB) :
  promotion_expenses (run_sweeps ss db) = promotion_expenses db
  /\ terms_kept db (run_sweeps ss db)
  /\ (forall pid,
        checkRemainingBudget (run_sweeps ss db) pid = checkRemainingBudget db pid).
Proof.
  assert (H : promotion_expenses (run_sweeps ss db) = promotion_expenses db
              /\ terms_kept db (run_sweeps ss db)).
  { revert db. induction ss as [|s ss IH]; intros db; cbn [run_sweeps fold_left].
    - split; [reflexivity | apply terms_kept_refl].
    - destruct (run_sweep_terms db s) as [T E].
      destruct (IH (run_sweep db s)) as [IE IT]. unfold run_sweeps in *.
      split; [rewrite IE; exact E|].
      eapply terms_kept_trans; eassumption. }
  destruct H as [E T]. split; [exact E|]. split; [exact T|].
  intros pid. unfold checkRemainingBudget.
  rewrite (total_spent_expenses db _ pid E).
  specialize (T pid).
  destruct (promotions db !! pid) as [p|],
           (promotions (run_sweeps ss db) !! pid) as [p'|]; try tauto.
  cbn. destruct T as (_ & _ & Hb & _). rewrite Hb. reflexivity.
Qed.

Lemma total_spent_app (db : DB) (pid : string) (es : list ExpenseRow) :
  total_spent (with_expenses db (promotion_expenses db ++ es)) pid =
  total_spent db pid
  + foldr Z.add 0
      (map cost (List.filter (fun e => bool_decide (e_promotion_id e = pid)) es)).
Proof.
  unfold total_spent, with_expenses. cbn [promotion_expenses].
  rewrite List.filter_app, map_app, foldr_app.
  generalize (map cost (List.filter (fun e => bool_decide (e_promotion_id e = pid))
                          (promotion_expenses db))).
  intros l. induction l as [|x l IH]; cbn [foldr]; [lia|]. rewrite IH. lia.
Qed.

(** Recording an expense.  The insert succeeds exactly when the store
    accepts the three texts for their columns (the identifier as
    VARCHAR(255), the user as a UUID, the action as VARCHAR(50)), the
    promotion is in the table and the cost fits DECIMAL(8,4): neither
    the status of the promotion nor its budget is read.  On success one
    row is added, the spend of that promotion grows by the cost, the
    spend of every other promotion and every other table are unchanged,
    and the remaining budget becomes [max 0 (budget - spend - cost)]; on
    failure nothing is written. *)
Theorem expense_recorded
  (uuid_in : string -> option string)
  (varchar_in : nat -> string -> option string)
  (id user action : string) (c : Z) (db : DB) :
  let out := recordPromotionExpense uuid_in varchar_in id user action c db in
  (out.2 = true <->
   exists pid,
     varchar_in 255%nat id = Some pid
     /\ is_Some (uuid_in user) /\ is_Some (varchar_in 50%nat action)
     /\ is_Some (promotions db !! pid) /\ Z.abs c < 100000000)
  /\ (out.2 = false -> out.1 = db)
  /\ (out.2 = true ->
      exists pid uid act,
        varchar_in 255%nat id = Some pid
        /\ uuid_in user = Some uid /\ varchar_in 50%nat action = Some act
        /\ promotion_expenses out.1 =
           (promotion_expenses db ++
            [ {| e_promotion_id := pid; e_user_id := uid;
                 action_type := act; cost := c |} ])%list
        /\ (forall k, total_spent out.1 k =
                      total_spent db k + if decide (k = pid) then c else 0)
        /\ (forall p, promotions db !! pid = Some p ->
              checkRemainingBudget out.1 pid =
              Some (Z.max 0 (budget_total p - total_spent db pid - c))))
  /\ promotions out.1 = promotions db
  /\ promotion_queue out.1 = promotion_queue db
  /\ refund_tasks out.1 = refund_tasks db
  /\ points_ledger out.1 = points_ledger db.
Proof.
  cbv zeta. unfold recordPromotionExpense.
  destruct (varchar_in 255%nat id) as [pid|] eqn:Hid;
    [destruct (uuid_in user) as [uid|] eqn:Hu;
     [destruct (varchar_in 50%nat action) as [act|] eqn:Ha|]|].
  2-4: cbn [fst snd];
    (split; [split; [discriminate|];
             intros (? & ? & [? ?] & [? ?] & _); congruence|]);
    (split; [reflexivity|]); (split; [discriminate|]); repeat split.
  destruct (bool_decide_reflect (is_Some (promotions db !! pid))) as [Hs|Hs];
    [destruct (Z.ltb_spec (Z.abs c) 100000000) as [Hc|Hc]|]; cbn [andb fst snd].
  - assert (Ht : forall k,
               total_spent
                 (with_expenses db
                    (promotion_expenses db ++
                     [{| e_promotion_id := pid; e_user_id := uid;
                         action_type := act; cost := c |}])) k =
               total_spent db k + (if decide (k = pid) then c else 0)).
    { intros k. rewrite total_spent_app. cbn [List.filter e_promotion_id].
      destruct (decide (k = pid)) as [->|Hne].
      - rewrite bool_decide_eq_true_2 by reflexivity. cbn. f_equal. lia.
      - rewrite bool_decide_eq_false_2 by congruence. reflexivity. }
    split; [split; [intros _; exists pid; eauto 10 | reflexivity]|].
    split; [discriminate|]. split; [|repeat split].
    intros _. exists pid, uid, act. do 3 (split; [reflexivity|]).
    split; [reflexivity|]. split; [exact Ht|].
    intros p Hp. unfold checkRemainingBudget. rewrite Ht.
    cbn [with_expenses promotions]. rewrite Hp. cbn.
    rewrite decide_True by reflexivity. f_equal. lia.
  - split; [split; [discriminate|]; intros (? & E & _ & _ & _ & ?);
            injection E as <-; lia|].
    split; [reflexivity|]. split; [discriminate|]. repeat split.
  - split; [split; [discriminate|]; intros (? & E & _ & _ & ? & _);
            injection E as <-; tauto|].
    split; [reflexivity|]. split; [discriminate|]. repeat split.
Qed.




(** The refund sweep before the refund date: a promotion none of whose
    scheduled tasks has reached its date keeps its row, its credits and
    its tasks. *)
Theorem refund_sweep_not_due (now : Z) (db : DB) (pid : string) :
  (forall t, In t (refund_tasks db) -> t_promotion_id t = pid ->
             t_status t = task_scheduled -> now < refund_date t) ->
  promotions (processScheduledRefunds now db) !! pid = promotions db !! pid
  /\ credits (processScheduledRefunds now db) pid = credits db pid
  /\ tasks_of (processScheduledRefunds now db) pid = tasks_of db pid.
Proof.
  intros H. apply sweep_untouched. intros Hsel.
  apply selected_iff in Hsel as (t & Ht & Hpid).
  unfold due_tasks in Ht. apply filter_In in Ht as [Hin Hdue].
  apply due_task_spec in Hdue as (Hs & Hd & _).
  specialize (H t Hin Hpid Hs). lia.
Qed.

Lemma run_calls_intervals (cs : list Call) (s : Scheduler) :
  exists more,
    intervals (run_calls cs s) = (intervals s ++ more)%list
    /\ length more = (3 * effective_starts (isRunning s) cs)%nat.
Proof.
  revert s. induction cs as [|c cs IH]; intros s; cbn [run_calls fold_left].
  - exists []. split; [symmetry; apply app_nil_r | reflexivity].
  - destruct c; cbn [run_call effective_starts].
    + unfold start. destruct (isRunning s) eqn:Hr; cbn [fst].
      * destruct (IH s) as (more & E & L). rewrite Hr in L.
        exists more. split; [exact E|]. rewrite L. lia.
      * match goal with |- context [fold_left run_call cs ?s1] =>
          destruct (IH s1) as (more & E & L) end.
        cbn [isRunning intervals] in E, L. unfold run_calls in E.
        eexists. split; [rewrite E, <- app_assoc; reflexivity|].
        rewrite length_app, L. cbn [length]. lia.
    + destruct (IH (stop s)) as (more & E & L). cbn [stop isRunning intervals] in E, L.
      exists more. split; [exact E | exact L].
Qed.

(** The timers of the scheduler.  [stop] clears no interval: under any
    calls of [start] and [stop] the intervals registered before stay,
    and every [start] that finds the service stopped registers three
    more; a [start] that finds it running registers none. *)
Theorem scheduler_intervals_accumulate (cs : list Call) (s : Scheduler) :
  exists more,
    intervals (run_calls cs s) = (intervals s ++ more)%list
    /\ length more = (3 * effective_starts (isRunning s) cs)%nat
    /\ intervals (run_calls [Start; Start] s) = intervals (run_calls [Start] s)
    /\ length (intervals (run_calls [Start; Stop; Start] s)) =
       (length (intervals (run_calls [Start] s)) + 3)%nat.
Proof.
  destruct (run_calls_intervals cs s) as (more & E & L).
  exists more. split; [exact E|]. split; [exact L|].
  unfold run_calls. cbn [fold_left run_call]. unfold start, stop.
  destruct (isRunning s) eqn:Hr; cbn [fst isRunning intervals]; rewrite ?Hr;
    cbn [fst isRunning intervals]; split;
    rewrite ?length_app; cbn [length]; try reflexivity; lia.
Qed.

End LedgerFacts.

(** ** Creation: what it leaves in the store *)

Section RecordingFacts.

Import JS Lifecycle Controller.
#[local] Open Scope Z_scope.

Lemma findTargetsWithinFramework_length
  (c : Content) (candidates : list CandidateRow) :
  (length (Targeting.findTargetsWithinFramework c candidates) <= 1000)%nat.
Proof.
  unfold Targeting.findTargetsWithinFramework, slice. cbn [skipn Nat.sub].
  apply firstn_le_length.
Qed.

(** The bounds of the first day of the queue, for 1 to 1000 targets:
    [slice(0 * usersPerDay, 1 * usersPerDay)] starts at index 0 and ends
    at an index of 1 or more. *)
Lemma first_day_checked :
  forallb
    (fun n =>
       Nat.eqb
         (relative_index n
            (Number_of_Z 0 * Math_ceil (Number_of_nat n / 7))%float) 0
       && Nat.leb 1
            (relative_index n
               ((Number_of_Z 0 + 1) * Math_ceil (Number_of_nat n / 7))%float))
    (seq 1 1000) = true.
Proof. vm_compute. reflexivity. Qed.

Lemma createDeliveryQueue_undefined
  (now : Z) (id : string) (users : list TargetUser) (db : DB) :
  users <> [] -> (length users <= 1000)%nat ->
  (forall u, In u users -> userId u = None) ->
  createDeliveryQueue now id users db = (db, false).
Proof.
  intros Hne Hlen Hnone. unfold createDeliveryQueue. cbn [enqueue_days].
  pose proof first_day_checked as Hc. rewrite forallb_forall in Hc.
  specialize (Hc (length users)).
  assert (Hin : In (length users) (seq 1 1000)).
  { apply in_seq. destruct users; [congruence|]. cbn [length] in *. lia. }
  apply Hc in Hin. apply andb_true_iff in Hin as [Ha Hb].
  apply Nat.eqb_eq in Ha. apply Nat.leb_le in Hb.
  unfold slice_by, slice. rewrite Ha. cbn [skipn]. rewrite Nat.sub_0_r.
  set (k := relative_index (length users)
              ((Number_of_Z 0 + 1) * Math_ceil (Number_of_nat (length users) / 7))%float)
    in *.
  clearbody k. destruct k as [|k]; [lia|].
  destruct users as [|u users]; [congruence|].
  cbn [firstn skipn enqueue_users]. rewrite (Hnone u) by (left; reflexivity).
  reflexivity.
Qed.

Lemma initiateDelivery_candidates
  (now : Z) (id : string) (content : option Content)
  (candidates : list CandidateRow) (db : DB) :
  initiateDelivery now id content candidates db =
  (db, match content, candidates with
       | Some _, [] => true
       | _, _ => false
       end).
Proof.
  unfold initiateDelivery. destruct content as [c|]; [|reflexivity].
  destruct candidates as [|r rs]; [reflexivity|].
  apply createDeliveryQueue_undefined.
  - rewrite findTargetsWithinFramework_store_order. discriminate.
  - rewrite length_map. apply findTargetsWithinFramework_length.
  - intros u Hu. apply in_map_iff in Hu as (s & <- & _). reflexivity.
Qed.

(** The delivery never fills the queue.  The targets are the scored
    rows of the store, which carry a [user_id] and no [userId], and
    [createDeliveryQueue] inserts [user.userId], which is [undefined],
    into a column that is NOT NULL: the first insert throws.
    [initiateDelivery] returns without an error exactly when the post
    exists and the store returns no candidate, and in no case does it
    leave a row in any table. *)
Theorem initiateDelivery_never_queues
  (now : Z) (id : string) (content : option Content)
  (candidates : list CandidateRow) (db : DB) :
  let out := initiateDelivery now id content candidates db in
  out.1 = db
  /\ (out.2 = true <-> is_Some content /\ candidates = []).
Proof.
  cbv zeta. rewrite initiateDelivery_candidates. cbn [fst snd].
  split; [reflexivity|].
  destruct content as [c|]; [destruct candidates as [|r rs]|].
  - split; [intros _; split; eauto | reflexivity].
  - split; [discriminate | intros [_ H]; discriminate H].
  - split; [discriminate | intros [[? H] _]; discriminate H].
Qed.

Lemma run_sweeps_terms (ss : list Sweep) (db : DB) :
  terms_kept db (run_sweeps ss db).
Proof.
  revert db. induction ss as [|s ss IH]; intros db; cbn [run_sweeps fold_left].
  - apply terms_kept_refl.
  - eapply terms_kept_trans; [apply run_sweep_terms | apply IH].
Qed.

(** Creation requests leave no trace.  Every creation throws at the
    call of [generatePromotionId], before any statement that writes, so
    a history of creation requests and sweeps leaves the store that its
    sweeps alone leave: the promotions of the table are those that were
    there at the start, with their budget, duration, author and dates,
    and a table that is empty stays empty. *)
Theorem creations_record_nothing (es : list Event) (db : DB) :
  run_events es db = run_sweeps (sweeps_of es) db
  /\ terms_kept db (run_events es db)
  /\ (promotions db = ∅ -> promotions (run_events es db) = ∅).
Proof.
  assert (H : run_events es db = run_sweeps (sweeps_of es) db).
  { revert db. induction es as [|e es IH]; intros db; [reflexivity|].
    unfold run_events, run_sweeps in *. cbn [fold_left sweeps_of flat_map].
    rewrite IH. destruct e as [clock request content candidates|s];
      cbn [run_event app fold_left].
    - rewrite createPromotion_throws. reflexivity.
    - reflexivity. }
  split; [exact H|]. rewrite H.
  pose proof (run_sweeps_terms (sweeps_of es) db) as T.
  split; [exact T|].
  intros Hempty. apply map_eq. intros pid. specialize (T pid).
  rewrite Hempty, lookup_empty in T. rewrite lookup_empty.
  destruct (promotions (run_sweeps (sweeps_of es) db) !! pid);
    [destruct T | reflexivity].
Qed.

End RecordingFacts.

(** ** Early stops called directly; a scheduled task followed by the refund *)

Section CompositionFacts.

Import Lifecycle Controller.
#[local] Open Scope Z_scope.

(** An early stop of an identifier that is not in the table: the call
    throws [Promotion not found] after its two updates; no promotion and
    no ledger, task or expense row is written, and the queue rows it
    cancels are those that name the identifier, of which a store that
    keeps the foreign key of the queue has none. *)
Theorem stopPromotionEarly_unknown
  (pid reason : string) (now : Z) (db : DB) :
  promotions db !! pid = None ->
  let out := stopPromotionEarly pid reason now db in
  out.2 = false
  /\ promotions out.1 = promotions db
  /\ points_ledger out.1 = points_ledger db
  /\ refund_tasks out.1 = refund_tasks db
  /\ promotion_expenses out.1 = promotion_expenses db
  /\ ((forall q, In q (promotion_queue db) ->
         is_Some (promotions db !! q_promotion_id q)) ->
      out.1 = db).
Proof.
  intros Hnone. cbv zeta. rewrite stopPromotionEarly_eq. cbn [fst snd].
  assert (Hp : alter (set_status stopped_early now) pid (promotions db) = promotions db).
  { apply map_eq. intros k. destruct (decide (pid = k)) as [->|Hne].
    - rewrite lookup_alter_eq, Hnone. reflexivity.
    - apply lookup_alter_ne. exact Hne. }
  assert (Hc : early_credit now db pid = []).
  { unfold early_credit. rewrite Hnone. reflexivity. }
  split; [apply bool_decide_eq_false_2; rewrite Hnone; intros [? H]; discriminate H|].
  cbn [promotions points_ledger refund_tasks promotion_expenses].
  rewrite Hp, Hc, app_nil_r. repeat split.
  intros Hfk. destruct db as [ps qs es ts ls]. cbn in *. f_equal.
  rewrite <- (map_id qs) at 2. apply map_ext_in. intros q Hq.
  rewrite bool_decide_eq_false_2; [reflexivity|].
  intros Heq. specialize (Hfk q Hq). rewrite Heq, Hnone in Hfk.
  destruct Hfk as [? H]. discriminate H.
Qed.



End CompositionFacts.

(** ** The plan of the optimizer: targets and activity *)

Section PlanFacts.

Import JS Optimizer.
#[local] Open Scope float_scope.

Context (Math_log2 : float -> float).

(** The index of the split, for 0 to 1000 targets: [Math.floor(n * 0.7)]
    in double arithmetic is [7n/10] rounded down, or one less. *)
Lemma split_index_checked :
  forallb
    (fun n =>
       let k := relative_index n (Math_floor (Number_of_nat n * 0.7)) in
       Nat.leb (10 * k) (7 * n) && Nat.leb (7 * n) (10 * k + 10))
    (seq 0 1001) = true.
Proof. vm_compute. reflexivity. Qed.

(** The split of the targets of a plan.  The primary targets followed
    by the secondary targets are the targets found, in their order: no
    target is lost or listed twice.  The primary targets are the first
    [Math.floor(n * 0.7)] of the [n] targets, which in double arithmetic
    is seven tenths of [n] rounded down, or one less; [totalReach] is
    [n], and [n] is at most 1000. *)
Theorem plan_targets_split
  (env : Env) (st : Store) (request : PromotionRequest) (c : Content) :
  let targets :=
    Targeting.findTargetsWithinFramework c
      (queryCandidatesInFramework st (targeting request)) in
  let t := plan_targeting (plan_for Math_log2 env st request c) in
  (primaryTargets t ++ secondaryTargets t)%list = targets
  /\ (10 * length (primaryTargets t) <= 7 * length targets)%nat
  /\ (7 * length targets <= 10 * length (primaryTargets t) + 10)%nat
  /\ totalReach t = Number_of_nat (length targets)
  /\ (length targets <= 1000)%nat.
Proof.
  cbv zeta. cbn [plan_for plan_targeting primaryTargets secondaryTargets totalReach].
  set (targets := Targeting.findTargetsWithinFramework c _).
  assert (Hlen : (length targets <= 1000)%nat)
    by apply findTargetsWithinFramework_length.
  unfold slice_by, slice_from, slice.
  change (relative_index (length targets) 0) with 0%nat.
  cbn [skipn]. rewrite Nat.sub_0_r.
  pose proof split_index_checked as Hc. rewrite forallb_forall in Hc.
  specialize (Hc (length targets)).
  assert (Hin : In (length targets) (seq 0 1001)) by (apply in_seq; lia).
  apply Hc in Hin. cbv zeta in Hin.
  set (k := relative_index (length targets)
              (Math_floor (Number_of_nat (length targets) * 0.7))) in *.
  clearbody k. apply andb_true_iff in Hin as [H1 H2].
  apply Nat.leb_le in H1. apply Nat.leb_le in H2.
  change (skipn 0 targets) with targets.
  split; [apply firstn_skipn|].
  rewrite length_firstn.
  repeat split; try lia; try exact Hlen; reflexivity.
Qed.

Lemma wealth_is_capitalised (w : option WealthLevel) :
  wealth_is w "Whale" || wealth_is w "Dolphin" = false.
Proof. destruct w as [[]|]; reflexivity. Qed.

Lemma activity_fold (users : list TargetUser) (patterns : list float) :
  fold_left
    (fun patterns user =>
       if wealth_is (wealthLevel user) "Whale"
          || wealth_is (wealthLevel user) "Dolphin"
       then add_hours 9 18 0.3 patterns
       else add_hours 19 23 0.2 patterns)
    users patterns =
  Nat.iter (length users) (add_hours 19 23 0.2) patterns.
Proof.
  revert patterns. induction users as [|u users IH]; intros patterns.
  - reflexivity.
  - cbn [fold_left length]. rewrite wealth_is_capitalised, IH.
    rewrite Nat.iter_succ_r. reflexivity.
Qed.

Lemma evening_iter (n : nat) (a b : float) :
  exists b', Nat.iter n (add_hours 19 23 0.2) (repeat a 19 ++ repeat b 5)%list =
             (repeat a 19 ++ repeat b' 5)%list.
Proof.
  induction n as [|n IH].
  - exists b. reflexivity.
  - destruct IH as (b' & E). exists (b' + 0.2). rewrite Nat.iter_succ, E.
    reflexivity.
Qed.

(** The activity profile of an audience.  The test of the tier of a
    user against [Whale] and [Dolphin] never succeeds, the tiers being
    written in lower case: every user raises the hours 19 to 23 and no
    user raises the hours 9 to 18.  So the profile depends on the number
    of users only, its 24 entries are one value for the hours 0 to 18
    and one value for the hours 19 to 23. *)
Theorem activity_profile_ignores_tiers
  (users : list TargetUser) (f : TargetUser -> TargetUser) :
  analyzeUserActivityPatterns (map f users) = analyzeUserActivityPatterns users
  /\ exists a b,
       analyzeUserActivityPatterns users = (repeat a 19 ++ repeat b 5)%list.
Proof.
  unfold analyzeUserActivityPatterns. rewrite !activity_fold, length_map.
  split; [reflexivity|].
  destruct (evening_iter (length users) 0.1 0.1) as (b & E).
  change (repeat 0.1 24) with (repeat 0.1 19 ++ repeat 0.1 5)%list.
  rewrite E.
  set (m := Protector.Math_max_list _). clearbody m.
  exists (0.1 / m), (b / m). reflexivity.
Qed.

Lemma findTargetsWithinFramework_nil (c : Content) :
  Targeting.findTargetsWithinFramework c [] = [].
Proof. reflexivity. Qed.

Lemma selectDayTargets_nil {A} (day totalDays : float) :
  selectDayTargets (@nil A) day totalDays = [].
Proof.
  unfold selectDayTargets, slice_by, slice. rewrite skipn_nil. apply firstn_nil.
Qed.

Lemma calculateExpectedBusinessValue_nil (c : Content) :
  calculateExpectedBusinessValue c [] = nan.
Proof.
  unfold calculateExpectedBusinessValue.
  change (calculateAudienceBusinessValue []) with nan.
  rewrite mul_nan_r, !mul_nan_l. reflexivity.
Qed.

Lemma Math_min_nan_r (x : float) : Math_min x nan = nan.
Proof.
  unfold Math_min. change (is_nan nan) with true. rewrite orb_true_r. reflexivity.
Qed.

(** The plan for a request that no candidate matches.  The optimizer
    returns a plan: it reaches nobody, has no primary or secondary
    target and an average relevance of 0, and every day of its schedule
    has no target.  The mean engagement of the empty audience is [0 / 0],
    so the estimated clicks, engagements and follows, the expected ROI
    and the probability of reaching the goal are [NaN]. *)
Theorem plan_without_candidates
  (env : Env) (st : Store) (request : PromotionRequest) (c : Content) :
  queryCandidatesInFramework st (targeting request) = [] ->
  let p := plan_for Math_log2 env st request c in
  primaryTargets (plan_targeting p) = []
  /\ secondaryTargets (plan_targeting p) = []
  /\ totalReach (plan_targeting p) = 0
  /\ averageRelevance (plan_targeting p) = 0
  /\ (forall d, In d (dailySchedule (schedule p)) -> ds_targets d = [])
  /\ estimatedClicks (expectedOutcome p) = nan
  /\ estimatedEngagements (expectedOutcome p) = nan
  /\ estimatedFollows (expectedOutcome p) = nan
  /\ expectedROI (expectedOutcome p) = nan
  /\ goalAchievementProbability (expectedOutcome p) = nan.
Proof.
  intros Hq. cbv zeta.
  cbn [plan_for plan_targeting primaryTargets secondaryTargets totalReach
         averageRelevance schedule expectedOutcome].
  rewrite Hq, findTargetsWithinFramework_nil. cbn [map length].
  split; [reflexivity|]. split; [reflexivity|]. split; [reflexivity|].
  split; [reflexivity|].
  split.
  { intros d Hd. unfold createOptimalSchedule in Hd. cbn [dailySchedule] in Hd.
    apply in_map_iff in Hd as (day & <- & _). cbn [ds_targets].
    apply selectDayTargets_nil. }
  unfold predictPromotionOutcome.
  cbn [estimatedClicks estimatedEngagements estimatedFollows expectedROI
         goalAchievementProbability map length].
  change (JS.sum [] / Number_of_nat 0) with nan.
  rewrite !mul_nan_r, !mul_nan_l.
  change (Math_floor nan) with nan.
  split; [reflexivity|]. split; [reflexivity|]. split; [reflexivity|].
  split.
  - rewrite calculateExpectedBusinessValue_nil. apply div_nan_l.
  - unfold calculateGoalAchievementProbability, calculateAudienceQuality.
    cbn [map length]. change (JS.sum [] / Number_of_nat 0) with nan.
    repeat first [rewrite mul_nan_l | rewrite add_nan_r | rewrite add_nan_l
                 | rewrite div_nan_l].
    apply Math_min_nan_r.
Qed.

End PlanFacts.

Section ScheduleFacts.

Import JS Optimizer.
#[local] Open Scope float_scope.

Context (Math_log2 : float -> float).

(** For 0 to 1000 targets and a whole number of 1 to 7 days, the slices
    of the days follow one another from the first target to the last,
    and there is one for each day. *)
Lemma day_cuts_checked :
  forallb
    (fun n =>
       forallb
         (fun d =>
            let cuts := day_cuts n (Number_of_nat d) in
            chain_ok 0 cuts n && Nat.eqb (length cuts) d)
         (seq 1 7))
    (seq 0 1001) = true.
Proof. vm_compute. reflexivity. Qed.

Lemma chain_concat {A} (l : list A) (cuts : list (nat * nat)) (start : nat) :
  chain_ok start cuts (length l) = true ->
  concat (map (fun ab => slice ab.1 ab.2 l) cuts) = skipn start l.
Proof.
  revert start. induction cuts as [|[a b] cuts IH]; intros start H; cbn [chain_ok] in H.
  - apply Nat.eqb_eq in H. subst start. cbn. symmetry. apply skipn_all.
  - apply andb_true_iff in H as [H Hc]. apply andb_true_iff in H as [Ha Hab].
    apply Nat.eqb_eq in Ha. apply Nat.leb_le in Hab. subst a.
    cbn [map concat fst snd]. rewrite (IH b Hc). unfold slice.
    replace (skipn b l) with (skipn (b - start) (skipn start l)).
    + apply firstn_skipn.
    + rewrite skipn_skipn. f_equal. lia.
Qed.

Lemma selectDayTargets_cuts {A} (l : list A) (totalDays : float) :
  map (fun day => selectDayTargets l day totalDays) (loop_range totalDays) =
  map (fun ab => slice ab.1 ab.2 l) (day_cuts (length l) totalDays).
Proof. unfold day_cuts. rewrite map_map. reflexivity. Qed.

(** The schedule covers the targets.  For a duration of a whole number
    of 1 to 7 days, the schedule of the plan has one entry for each
    day, and the targets of its days, taken in the order of the days,
    are the targets found, in their order: every target is scheduled on
    one day, and on one only. *)
Theorem schedule_covers_targets
  (env : Env) (st : Store) (request : PromotionRequest) (c : Content) (d : nat) :
  (1 <= d <= 7)%nat ->
  duration (budget request) = Number_of_nat d ->
  let days := dailySchedule (schedule (plan_for Math_log2 env st request c)) in
  length days = d
  /\ concat (map ds_targets days) =
     Targeting.findTargetsWithinFramework c
       (queryCandidatesInFramework st (targeting request)).
Proof.
  intros Hd Hdur. cbv zeta.
  cbn [plan_for schedule]. unfold createOptimalSchedule. cbn [dailySchedule].
  set (targets := Targeting.findTargetsWithinFramework c _).
  assert (Hlen : (length targets <= 1000)%nat)
    by apply findTargetsWithinFramework_length.
  rewrite Hdur, map_map. cbn [ds_targets].
  pose proof day_cuts_checked as H. rewrite forallb_forall in H.
  specialize (H (length targets)).
  assert (Hn : In (length targets) (seq 0 1001)) by (apply in_seq; lia).
  apply H in Hn. rewrite forallb_forall in Hn. specialize (Hn d).
  assert (Hin : In d (seq 1 7)) by (apply in_seq; lia).
  apply Hn in Hin. cbv zeta in Hin. apply andb_true_iff in Hin as [Hc Hl].
  apply Nat.eqb_eq in Hl.
  split.
  - rewrite length_map. unfold day_cuts in Hl. rewrite length_map in Hl. exact Hl.
  - rewrite selectDayTargets_cuts. rewrite (chain_concat targets _ 0 Hc). reflexivity.
Qed.

End ScheduleFacts.
(** ** Prices: range, tiers and time *)

Section PriceFacts.

Import JS Pricing.
#[local] Open Scope float_scope.

Lemma price_unfold
  (day : Z) (levels : list WealthLevel) (quality0 contentQuality timeOfDay : float)
  (region : string) (action : ActionType) (user : TargetUser) :
  calculateActionPrice action user
    (calculateDynamicPricing day levels quality0 timeOfDay region) contentQuality =
  basePrices_table action
  * ToNumber (option_map wealthMultipliers_table (wealthLevel user))
  * prop_or_else
      (obj_get (calculateDemandMultipliers day timeOfDay region) (demand_key user)) 1.
Proof. reflexivity. Qed.








(** Neither the hour, nor the day of the week, nor the quality of the
    content reaches the price.  The time multipliers are stored under
    the keys [business_hours], [evening] and [weekend], and the price
    looks the multiplier up under the country of the user; no quality
    discount is read.  Unless the country is one of these three words,
    two strategies built for the same region at different hours, on
    different days, for different target tiers and for different
    qualities give the same price, whatever quality is passed as the
    fourth argument. *)
Theorem calculateActionPrice_ignores_time
  (day1 day2 : Z) (levels1 levels2 : list WealthLevel)
  (quality1 quality2 contentQuality1 contentQuality2 timeOfDay1 timeOfDay2 : float)
  (region : string) (action : ActionType) (user : TargetUser) :
  demand_key user ∉ time_keys ->
  calculateActionPrice action user
    (calculateDynamicPricing day1 levels1 quality1 timeOfDay1 region)
    contentQuality1 =
  calculateActionPrice action user
    (calculateDynamicPricing day2 levels2 quality2 timeOfDay2 region)
    contentQuality2.
Proof.
  intros Hk. rewrite !price_unfold.
  rewrite (demand_lookup day1 timeOfDay1 region _ Hk).
  rewrite (demand_lookup day2 timeOfDay2 region _ Hk). reflexivity.
Qed.

End PriceFacts.

(** ** Ranges of the scores *)

Section RangeFacts.

Import JS.
#[local] Open Scope float_scope.

Lemma SFcompare_refl (f : SpecFloat.spec_float) :
  f <> S754_nan -> SFcompare f f = Some Eq.
Proof.
  destruct f as [s|s| |s m e]; intros H; try destruct s; try reflexivity;
    try congruence.
  all: cbn; rewrite Z.compare_refl;
    change (PosDef.Pos.compare_cont Eq m m) with (Pos.compare m m);
    rewrite Pos.compare_refl; reflexivity.
Qed.

Lemma is_nan_spec (x : float) :
  is_nan x = match Prim2SF x with S754_nan => true | _ => false end.
Proof.
  unfold is_nan. rewrite FloatAxioms.eqb_spec. unfold SFeqb.
  destruct (Prim2SF x) as [s|s| |s m e] eqn:E; try reflexivity.
  all: rewrite SFcompare_refl by discriminate; reflexivity.
Qed.

Lemma ltb_leb (x y : float) : (x <? y) = true -> (x <=? y) = true.
Proof.
  rewrite ltb_spec, leb_spec. unfold SFltb, SFleb.
  destruct (SFcompare _ _) as [[]|]; congruence.
Qed.

(** The order of the doubles is total away from [NaN]. *)
Lemma not_ltb_leb (x y : float) :
  is_nan x = false -> is_nan y = false -> (x <? y) = false -> (y <=? x) = true.
Proof.
  rewrite !is_nan_spec, ltb_spec, leb_spec. unfold SFleb, SFltb.
  destruct (Prim2SF x) as [s|s| |s m e], (Prim2SF y) as [s'|s'| |s' m' e'];
    simpl; try destruct s; try destruct s'; simpl; try congruence.
  all: rewrite (Z.compare_antisym e e'); destruct (e ?= e')%Z; simpl;
    try congruence.
  all: change (PosDef.Pos.compare_cont Eq m' m) with (Pos.compare m' m);
    change (PosDef.Pos.compare_cont Eq m m') with (Pos.compare m m');
    rewrite (Pos.compare_antisym m m'); destruct (Pos.compare m m'); simpl;
    congruence.
Qed.

Lemma leb_refl (x : float) : is_nan x = false -> (x <=? x) = true.
Proof.
  rewrite is_nan_spec, leb_spec. unfold SFleb. intros H.
  rewrite SFcompare_refl; [reflexivity|].
  destruct (Prim2SF x); congruence.
Qed.

Lemma Math_min_nan (a b : float) :
  is_nan a || is_nan b = true -> Math_min a b = nan.
Proof. intros H. unfold Math_min. rewrite H. reflexivity. Qed.

Lemma Math_max_nan (a b : float) :
  is_nan a || is_nan b = true -> Math_max a b = nan.
Proof. intros H. unfold Math_max. rewrite H. reflexivity. Qed.

Lemma Math_min_cases (a b : float) :
  is_nan a = false -> is_nan b = false ->
  (Math_min a b = a /\ (a <=? b) = true) \/ (Math_min a b = b /\ (b <=? a) = true).
Proof.
  intros Ha Hb. unfold Math_min. rewrite Ha, Hb. cbn [orb].
  destruct (a <? b) eqn:Hab; [left; split; [reflexivity | apply ltb_leb; exact Hab]|].
  destruct (b <? a) eqn:Hba; [right; split; [reflexivity | apply ltb_leb; exact Hba]|].
  destruct (get_sign a).
  - left. split; [reflexivity | apply not_ltb_leb; assumption].
  - right. split; [reflexivity | apply not_ltb_leb; assumption].
Qed.

Lemma Math_max_cases (a b : float) :
  is_nan a = false -> is_nan b = false ->
  (Math_max a b = b /\ (a <=? b) = true) \/ (Math_max a b = a /\ (b <=? a) = true).
Proof.
  intros Ha Hb. unfold Math_max. rewrite Ha, Hb. cbn [orb].
  destruct (a <? b) eqn:Hab; [left; split; [reflexivity | apply ltb_leb; exact Hab]|].
  destruct (b <? a) eqn:Hba; [right; split; [reflexivity | apply ltb_leb; exact Hba]|].
  destruct (get_sign a).
  - left. split; [reflexivity | apply not_ltb_leb; assumption].
  - right. split; [reflexivity | apply not_ltb_leb; assumption].
Qed.

(** [Math.min(hi, x)] is [NaN] or at most [hi]. *)
Lemma Math_min_bound (hi x : float) :
  is_nan hi = false -> Math_min hi x = nan \/ (Math_min hi x <=? hi) = true.
Proof.
  intros Hhi. destruct (is_nan x) eqn:Hx.
  - left. apply Math_min_nan. rewrite Hx. apply orb_true_r.
  - right. destruct (Math_min_cases hi x Hhi Hx) as [[-> _]|[-> H]].
    + apply leb_refl. exact Hhi.
    + exact H.
Qed.

(** [Math.max(lo, x)] is [NaN] or at least [lo]. *)
Lemma Math_max_bound (lo x : float) :
  is_nan lo = false -> Math_max lo x = nan \/ (lo <=? Math_max lo x) = true.
Proof.
  intros Hlo. destruct (is_nan x) eqn:Hx.
  - left. apply Math_max_nan. rewrite Hx. apply orb_true_r.
  - right. destruct (Math_max_cases lo x Hlo Hx) as [[-> H]|[-> _]].
    + exact H.
    + apply leb_refl. exact Hlo.
Qed.

(** [Math.min(hi, Math.max(lo, x))] for [lo <= hi]. *)
Lemma clamp_min_max (lo hi x : float) :
  is_nan lo = false -> is_nan hi = false -> (lo <=? hi) = true ->
  Math_min hi (Math_max lo x) = nan
  \/ between lo hi (Math_min hi (Math_max lo x)) = true.
Proof.
  intros Hlo Hhi Hle. destruct (is_nan x) eqn:Hx.
  - left. rewrite (Math_max_nan lo x) by (rewrite Hx; apply orb_true_r).
    apply Math_min_nan. apply orb_true_r.
  - right. unfold between.
    destruct (Math_max_cases lo x Hlo Hx) as [[-> H]|[-> H]].
    + destruct (Math_min_cases hi x Hhi Hx) as [[-> H']|[-> H']].
      * rewrite Hle, (leb_refl hi Hhi). reflexivity.
      * rewrite H, H'. reflexivity.
    + destruct (Math_min_cases hi lo Hhi Hlo) as [[-> H']|[-> H']].
      * rewrite Hle, (leb_refl hi Hhi). reflexivity.
      * rewrite (leb_refl lo Hlo), Hle. reflexivity.
Qed.

(** [Math.max(lo, Math.min(hi, x))] for [lo <= hi]. *)
Lemma clamp_max_min (lo hi x : float) :
  is_nan lo = false -> is_nan hi = false -> (lo <=? hi) = true ->
  Math_max lo (Math_min hi x) = nan
  \/ between lo hi (Math_max lo (Math_min hi x)) = true.
Proof.
  intros Hlo Hhi Hle. destruct (is_nan x) eqn:Hx.
  - left. rewrite (Math_min_nan hi x) by (rewrite Hx; apply orb_true_r).
    apply Math_max_nan. apply orb_true_r.
  - right. unfold between.
    destruct (Math_min_cases hi x Hhi Hx) as [[-> H]|[-> H]].
    + destruct (Math_max_cases lo hi Hlo Hhi) as [[-> H']|[-> H']].
      * rewrite Hle, (leb_refl hi Hhi). reflexivity.
      * rewrite (leb_refl lo Hlo), Hle. reflexivity.
    + destruct (Math_max_cases lo x Hlo Hx) as [[-> H']|[-> H']].
      * rewrite H', H. reflexivity.
      * rewrite (leb_refl lo Hlo), Hle. reflexivity.
Qed.

End RangeFacts.

Section ScoreFacts.

Import JS Targeting.
#[local] Open Scope float_scope.

(** The scores of the targets.  Every target returned is a candidate of
    the store with its three scores; its relevance score is between 0
    and 100 and its engagement probability is at most 0.9, unless they
    are [NaN]. *)
Theorem targets_scores_in_range (c : Content) (candidates : list CandidateRow) :
  Forall
    (fun s =>
       In (row s) candidates
       /\ s = score c (row s)
       /\ (sc_relevanceScore s = nan
           \/ between 0 100 (sc_relevanceScore s) = true)
       /\ (sc_engagementProbability s = nan
           \/ (sc_engagementProbability s <=? 0.9) = true))
    (findTargetsWithinFramework c candidates).
Proof.
  rewrite findTargetsWithinFramework_store_order.
  apply Forall_forall. intros s Hs. apply list_elem_of_In in Hs.
  assert (Hs' : In s (map (score c) candidates)).
  { rewrite <- (firstn_skipn 1000 (map (score c) candidates)).
    apply in_or_app. left. exact Hs. }
  clear Hs. rename Hs' into Hs. apply in_map_iff in Hs as (r & <- & Hr).
  cbn [score row sc_relevanceScore sc_engagementProbability].
  split; [exact Hr|]. split; [reflexivity|]. split.
  - unfold calculateRelevanceScore. apply clamp_min_max; reflexivity.
  - unfold predictEngagementProbability. apply Math_min_bound. reflexivity.
Qed.

(** The ranking keeps the order of the store.  The rows that are
    ranked carry [wealth_level] and no [wealthLevel], so the value of
    every candidate and the comparator of every two candidates are
    [NaN]; the sort moves nothing, and the targets are the first 1000
    candidates in the order in which the store returned them. *)
Theorem ranking_keeps_store_order (c : Content) (candidates : list CandidateRow) :
  (forall a b, compareByValue a b = nan)
  /\ findTargetsWithinFramework c candidates =
     firstn 1000 (map (score c) candidates)
  /\ map row (findTargetsWithinFramework c candidates) = firstn 1000 candidates.
Proof.
  split; [exact compareByValue_nan|].
  rewrite findTargetsWithinFramework_store_order. split; [reflexivity|].
  rewrite <- firstn_map, map_map. cbn [score row]. rewrite map_id. reflexivity.
Qed.

End ScoreFacts.

Section QualityFacts.

Import JS Protector.
#[local] Open Scope float_scope.

(** The content quality check.  The score is between 0 and 100, unless
    it is [NaN].  A post that the store does not hold, or a promotion
    without a post identifier, has the score 0 and the issue
    [post_not_found]: it is no error, and the promotion is rejected for
    [content_quality_too_low] whatever its target users are. *)
Theorem checkContentQuality_range
  (st : Store) (now : float) (promotion : Promotion) (users : list TargetUser) :
  (score (checkContentQuality st now (postId promotion)) = nan
   \/ between 0 100 (score (checkContentQuality st now (postId promotion))) = true)
  /\ (post_quality st (postId promotion) = None ->
      checkContentQuality st now (postId promotion) =
        {| score := 0; issues := ["post_not_found"] |}
      /\ checkPromotionSafety st now promotion users =
         {| approved := false; safetyScore := 0;
            rejectionReason := Some content_quality_too_low;
            constraints := None |}).
Proof.
  split.
  - unfold checkContentQuality. destruct (post_quality st (postId promotion)) as [p|].
    + cbv zeta.
      destruct (or_else (pq_text_length p) 0 <? 50);
        [|destruct (200 <? or_else (pq_text_length p) 0)];
        destruct (168 <? _); cbn [score]; apply clamp_max_min; reflexivity.
    + right. reflexivity.
  - intros Hnone. unfold checkPromotionSafety, checkContentQuality. rewrite Hnone.
    split; reflexivity.
Qed.

End QualityFacts.


Section FrequencyFacts.

Import JS Protector.
#[local] Open Scope float_scope.

(** For 100 to 1000 users the size of the sample, [Math.min(n, 100)],
    is 100. *)
Lemma sample_size_checked :
  forallb (fun n => Leibniz.eqb (Math_min (Number_of_nat n) 100) 100)
    (seq 100 901) = true.
Proof. vm_compute. reflexivity. Qed.

(** The frequency check reads the first 100 target users only: the
    users after them change neither the users found in violation nor
    the rate, so the check of a list of up to 1000 users is the check
    of its first 100. *)
Theorem frequency_check_first_100
  (st : Store) (sample rest : list TargetUser) :
  length sample = 100%nat ->
  (length (sample ++ rest) <= 1000)%nat ->
  checkFrequencyLimits st (sample ++ rest)%list = checkFrequencyLimits st sample.
Proof.
  intros Hs Hlen.
  assert (Hv : violating st (sample ++ rest) = violating st sample).
  { unfold violating, slice. rewrite !skipn_O, Nat.sub_0_r.
    rewrite firstn_app, Hs, Nat.sub_diag, firstn_O, app_nil_r. reflexivity. }
  assert (Hsize : forall n, (100 <= n <= 1000)%nat ->
                            Math_min (Number_of_nat n) 100 = 100).
  { intros n Hn. pose proof sample_size_checked as H.
    rewrite forallb_forall in H. apply Leibniz.eqb_spec. apply H.
    apply in_seq. lia. }
  assert (Hr : violationRate st (sample ++ rest) = violationRate st sample).
  { unfold violationRate. rewrite Hv, !Hsize; [reflexivity | lia |].
    rewrite length_app in Hlen |- *. lia. }
  unfold checkFrequencyLimits. rewrite Hv, Hr. reflexivity.
Qed.

End FrequencyFacts.

(** ** The report and the recommendations *)

Section ReportFacts.

Import Controller.

Context (Number_of_string : string -> float).

(** The report of a promotion is never delivered.  The insights are
    computed, but the suggestions are computed from the performance
    data, which has no [expectedOutcome]: reading [expectedROI] of it
    throws, and the handler answers 500 with the code [REPORT_ERROR] for
    every identifier; without an identifier it answers 400.  No request
    is answered with a report. *)
Theorem getPromotionReport_fails (promotionId : option string) :
  is_Some (generatePerformanceInsights
             (getPromotionPerformance (default "" promotionId)))
  /\ generateOptimizationSuggestions Number_of_string
       (getPromotionPerformance (default "" promotionId)) = None
  /\ getPromotionReport Number_of_string promotionId =
     match promotionId with
     | None | Some "" =>
         {| http_status := 400;
            report_body := ReportFailure "MISSING_PROMOTION_ID" |}
     | Some _ =>
         {| http_status := 500; report_body := ReportFailure "REPORT_ERROR" |}
     end.
Proof.
  split; [eexists; reflexivity|]. split; [reflexivity|].
  destruct promotionId as [[|a s]|]; reflexivity.
Qed.

Lemma no_tier_is_Whale (levels : list WealthLevel) :
  existsb (fun w => String.eqb (wealth_key w) "Whale") levels = false.
Proof.
  induction levels as [|w levels IH]; [reflexivity|].
  cbn [existsb]. rewrite IH. destruct w; reflexivity.
Qed.

(** The recommendations of an estimate.  The recommendation of a budget
    of 100 coins for high-net-worth targets is given when the target
    tiers include [Whale], which no tier is, the tiers being written in
    lower case: it is never given, whatever the tiers and the budget,
    and the recommendations are those of the daily budget and of the
    efficiency. *)
Theorem whale_recommendation_never
  (params : EstimateParams) (optimization : Pricing.BudgetOptimization) :
  generatePricingRecommendations params optimization =
    ((if (ep_budget params / ep_duration params <? 10)%float
      then ["建议增加每日预算至少到10 COCO币以获得更好效果"] else [])
     ++ (if (Pricing.efficiencyScore optimization <? 60)%float
         then ["当前预算分配效率较低，建议调整财富等级组合"] else []))%list
  /\ ~ In "定向高净值用户建议预算至少100 COCO币"
         (generatePricingRecommendations params optimization).
Proof.
  assert (H : generatePricingRecommendations params optimization =
    ((if (ep_budget params / ep_duration params <? 10)%float
      then ["建议增加每日预算至少到10 COCO币以获得更好效果"] else [])
     ++ (if (Pricing.efficiencyScore optimization <? 60)%float
         then ["当前预算分配效率较低，建议调整财富等级组合"] else []))%list).
  { unfold generatePricingRecommendations. rewrite no_tier_is_Whale. reflexivity. }
  split; [exact H|]. rewrite H.
  destruct (_ <? 10)%float; destruct (_ <? 60)%float; cbn;
    intros Hin; repeat (destruct Hin as [Hin|Hin]; [discriminate Hin|]);
    exact Hin.
Qed.

End ReportFacts.

(** ** The prediction of the consumption *)

Section ConsumptionFacts.

Import JS Pricing.
#[local] Open Scope float_scope.

(** For up to 100 users and a whole number of 1 to 30 days, the slices
    of the days are blocks of [n / d] users, on integers. *)
Lemma reach_cuts_checked :
  forallb
    (fun n =>
       forallb
         (fun d => cuts_eqb (reach_cuts n (Number_of_nat d)) (block_cuts (n / d) d))
         (seq 1 30))
    (seq 0 101) = true.
Proof. vm_compute. reflexivity. Qed.

Lemma cuts_eqb_eq (a b : list (nat * nat)) : cuts_eqb a b = true -> a = b.
Proof.
  revert b. induction a as [|[x y] a IH]; intros [|[x' y'] b] H; cbn in H;
    try discriminate; [reflexivity|].
  apply andb_true_iff in H as [H Hr]. apply andb_true_iff in H as [Hx Hy].
  apply Nat.eqb_eq in Hx. apply Nat.eqb_eq in Hy. subst.
  rewrite (IH b Hr). reflexivity.
Qed.

Lemma firstn_add {A} (a b : nat) (l : list A) :
  firstn (a + b) l = (firstn a l ++ firstn b (skipn a l))%list.
Proof.
  revert l. induction a as [|a IH]; intros l; [reflexivity|].
  destruct l as [|x l]; cbn [Nat.add firstn skipn app].
  - rewrite firstn_nil. reflexivity.
  - rewrite IH. reflexivity.
Qed.

Lemma blocks_concat {A} (q d : nat) (l : list A) :
  concat (map (fun ab => slice ab.1 ab.2 l) (block_cuts q d)) = firstn (d * q) l.
Proof.
  unfold block_cuts. rewrite map_map. cbn [fst snd].
  induction d as [|d IH].
  - reflexivity.
  - rewrite seq_S, map_app, concat_app, IH. cbn [map concat Nat.add].
    rewrite app_nil_r. unfold slice.
    replace ((d + 1) * q - d * q)%nat with q by lia.
    replace (S d * q)%nat with (d * q + q)%nat by lia.
    symmetry. apply firstn_add.
Qed.

Lemma calculateDaySpend_cuts
  (users : list TargetUser) (pricing : PricingStrategy) (duration : float)
  (budget : float) :
  dailySpend (predictBudgetConsumption budget users pricing duration) =
  map (fun ab => calculateDaySpend (slice ab.1 ab.2 users) pricing)
    (reach_cuts (length users) duration).
Proof.
  unfold predictBudgetConsumption, reach_cuts. cbn [dailySpend].
  rewrite map_map. reflexivity.
Qed.

(** The cohorts of the prediction.  For up to 100 users and a whole
    number [d] of 1 to 30 days, the spend of a day is the spend of a
    block of [q] users, [q] being the number of users divided by [d]
    and rounded down; the blocks follow one another from the first
    user, so that the users after the first [d * q] are counted on no
    day. *)
Theorem predictBudgetConsumption_cohorts
  (budget : float) (users : list TargetUser) (pricing : PricingStrategy) (d : nat) :
  (length users <= 100)%nat -> (1 <= d <= 30)%nat ->
  let q := (length users / d)%nat in
  dailySpend (predictBudgetConsumption budget users pricing (Number_of_nat d)) =
    map (fun k => calculateDaySpend (slice (k * q) ((k + 1) * q) users) pricing)
      (seq 0 d)
  /\ concat (map (fun k => slice (k * q) ((k + 1) * q) users) (seq 0 d)) =
     firstn (d * q) users.
Proof.
  intros Hn Hd. cbv zeta.
  pose proof reach_cuts_checked as H. rewrite forallb_forall in H.
  specialize (H (length users)).
  assert (Hin : In (length users) (seq 0 101)) by (apply in_seq; lia).
  apply H in Hin. rewrite forallb_forall in Hin. specialize (Hin d).
  assert (Hind : In d (seq 1 30)) by (apply in_seq; lia).
  apply Hin in Hind. apply cuts_eqb_eq in Hind.
  split.
  - rewrite calculateDaySpend_cuts, Hind. unfold block_cuts. rewrite map_map.
    reflexivity.
  - rewrite <- (blocks_concat (length users / d) d users).
    unfold block_cuts. rewrite map_map. reflexivity.
Qed.

End ConsumptionFacts.

(** ** The endpoint [/promotions/fetch] *)

Section FetchFacts.

Import JS Fetch.
#[local] Open Scope float_scope.

Lemma digits2_pos_bound (m : positive) :
  (Z.pos m < 2 ^ Z.pos (SpecFloat.digits2_pos m))%Z.
Proof.
  induction m as [m IH|m IH|]; cbn [SpecFloat.digits2_pos].
  - rewrite Pos2Z.inj_succ, Z.pow_succ_r by lia. lia.
  - rewrite Pos2Z.inj_succ, Z.pow_succ_r by lia. lia.
  - reflexivity.
Qed.

(** The mantissa of a double has at most 53 digits. *)
Lemma mantissa_bound (x : float) (s : bool) (m : positive) (e : Z) :
  Prim2SF x = S754_finite s m e -> (Z.pos m < 2 ^ 53)%Z.
Proof.
  intros E. pose proof (Prim2SF_valid x) as V. rewrite E in V.
  unfold SpecFloat.valid_binary, SpecFloat.bounded in V.
  apply andb_true_iff in V as [V _].
  unfold SpecFloat.canonical_mantissa in V.
  apply Z.eqb_eq in V. unfold SpecFloat.fexp, SpecFloat.emin in V.
  pose proof (digits2_pos_bound m) as D.
  assert (Hd : (Z.pos (SpecFloat.digits2_pos m) <= 53)%Z).
  { unfold prec, emax in V. lia. }
  eapply Z.lt_le_trans; [exact D|].
  apply Z.pow_le_mono_r; lia.
Qed.

Lemma SFcompare_positive (m : positive) (e : Z) (m' : positive) (e' : Z) :
  SFcompare (S754_finite false m e) (S754_finite false m' e') =
  Some match (e ?= e')%Z with
       | Lt => Lt
       | Gt => Gt
       | Eq => Pos.compare m m'
       end.
Proof. reflexivity. Qed.

(** The index that [slice] makes of a double between 0 and 5. *)
Lemma relative_index_between (len : nat) (x : float) :
  between 0 5 x = true -> (relative_index len x <= 5)%nat.
Proof.
  unfold between. intros H. apply andb_true_iff in H as [H0 H5].
  rewrite leb_spec in H0, H5. unfold relative_index.
  pose proof (mantissa_bound x) as Hm.
  change (Prim2SF 5) with (S754_finite false 5629499534213120 (-50)) in H5.
  change (Prim2SF 0) with (S754_zero false) in H0.
  destruct (Prim2SF x) as [s|s| |s m e]; try lia.
  - destruct s; [lia | discriminate H5].
  - specialize (Hm s m e eq_refl).
    destruct s; [discriminate H0|].
    unfold SFleb in H5. rewrite SFcompare_positive in H5.
    destruct (Z.compare_spec e (-50)) as [He|He|He]; [| |discriminate H5].
    + subst e. change (0 <=? -50)%Z with false. cbv iota.
      change (- -50)%Z with 50%Z.
      assert (Hle : (m <= 5629499534213120)%positive).
      { unfold Pos.le. intros Hgt. rewrite Hgt in H5. discriminate H5. }
      apply Pos2Z.pos_le_pos in Hle.
      assert (Hq : (Z.pos m / 2 ^ 50 <= 5)%Z).
      { apply Z.div_le_upper_bound; [reflexivity|].
        change (2 ^ 50 * 5)%Z with 5629499534213120%Z. exact Hle. }
      lia.
    + destruct (Z.leb_spec 0 e) as [Hpos|Hneg]; [lia|].
      assert (Hq : (Z.pos m / 2 ^ (- e) <= 4)%Z).
      { apply Z.div_le_upper_bound; [apply Z.pow_pos_nonneg; lia|].
        assert (H51 : (2 ^ 51 <= 2 ^ (- e))%Z) by (apply Z.pow_le_mono_r; lia).
        change (2 ^ 53)%Z with 9007199254740992%Z in Hm.
        change (2 ^ 51)%Z with 2251799813685248%Z in H51.
        lia. }
      lia.
Qed.

Lemma or_else_not_nan (x d : float) :
  is_nan d = false -> is_nan (or_else x d) = false.
Proof.
  intros Hd. unfold or_else, truthy.
  destruct (is_nan x) eqn:E; cbn [orb negb]; [exact Hd|].
  destruct (is_zero x); cbn [negb]; [exact Hd | exact E].
Qed.

Lemma limit_between (body : Body) : between 0 5 (limit body) = true.
Proof.
  unfold limit, between.
  assert (Ht : is_nan (prop_or_else (desired_total body) 3) = false).
  { unfold prop_or_else. destruct (desired_total body);
      [apply or_else_not_nan|]; reflexivity. }
  set (t := prop_or_else (desired_total body) 3) in *. clearbody t.
  destruct (Math_max_cases t 0 Ht eq_refl) as [[-> H]|[-> H]].
  - reflexivity.
  - destruct (Math_min_cases t 5 Ht eq_refl) as [[-> H']|[-> H']].
    + rewrite H, H'. reflexivity.
    + reflexivity.
Qed.

Lemma slice_by_In {A} (a b : float) (l : list A) (x : A) :
  In x (slice_by a b l) -> In x l.
Proof.
  unfold slice_by, slice. intros H.
  rewrite <- (firstn_skipn (relative_index (length l) a) l).
  apply in_or_app. right.
  rewrite <- (firstn_skipn
                (relative_index (length l) b - relative_index (length l) a)
                (skipn (relative_index (length l) a) l)).
  apply in_or_app. left. exact H.
Qed.

(** The size of the answer.  The limit is [desired.total], or 3 when it
    is absent or 0, brought between 0 and 5: the answer has at most 5
    items, an absent total and a total of 0 ask for 3, and a negative
    total gives no item. *)
Theorem fetch_at_most_five
  (env : Settings) (now : float) (body : Body) (rows : list PostRow) :
  (length (fetch env now body rows) <= 5)%nat
  /\ between 0 5 (limit body) = true
  /\ (desired_total body = None \/ desired_total body = Some 0 ->
      limit body = 3)
  /\ (forall t, desired_total body = Some t -> (t <? 0) = true ->
        fetch env now body rows = []).
Proof.
  split; [|split; [apply limit_between|split]].
  - unfold fetch, slice_by, slice. rewrite length_firstn.
    pose proof (relative_index_between
                  (length (Targeting.sort byPriority
                     (map (score env now body)
                        (List.filter (wealth_allowed body)
                           (List.filter (within_budget env)
                              (List.filter (not_excluded body) rows))))))
                  (limit body) (limit_between body)) as H.
    lia.
  - intros [H|H]; unfold limit; rewrite H; reflexivity.
  - intros t Ht Hneg. unfold fetch, limit. rewrite Ht. cbn [prop_or_else].
    pose proof Hneg as Hc. rewrite ltb_spec in Hc. unfold SFltb in Hc.
    assert (Hnan : is_nan t = false).
    { rewrite is_nan_spec. destruct (Prim2SF t); try reflexivity.
      discriminate Hc. }
    assert (Hz : is_zero t = false).
    { unfold is_zero. rewrite FloatAxioms.eqb_spec. unfold SFeqb.
      change (Prim2SF zero) with (Prim2SF 0).
      destruct (SFcompare (Prim2SF t) (Prim2SF 0)) as [[]|];
        try discriminate Hc; reflexivity. }
    unfold or_else, truthy. rewrite Hnan, Hz. cbn [orb negb].
    unfold Math_max. rewrite Hnan, Hneg. cbn [orb is_nan].
    change (is_nan 0) with false. cbn [orb].
    change (Math_min 0 5) with 0.
    unfold slice_by, slice.
    change (relative_index _ 0) with 0%nat. reflexivity.
Qed.

(** What the answer never holds.  Every item of the answer is the item
    of a row of the query whose post is not among the posts seen, whose
    author is not among the authors blocked, whose promotional spend is
    below its budget, and whose target tiers, when the viewer has a
    tier and the row has some, include the tier of the viewer. *)
Theorem fetch_items_allowed
  (env : Settings) (now : float) (body : Body) (rows : list PostRow) :
  Forall
    (fun item =>
       exists r,
         In r rows
         /\ item = score env now body r
         /\ postId item = id r /\ authorId item = author_id r
         /\ (id r ∉ seenPostIds body)
         /\ (author_id r ∉ blockedAuthorIds body)
         /\ (spent env r <? or_else (promo_budget_coco r) 0) = true
         /\ wealth_allowed body r = true)
    (fetch env now body rows).
Proof.
  apply Forall_forall. intros item Hin. apply list_elem_of_In in Hin.
  unfold fetch in Hin. apply slice_by_In in Hin.
  apply (Permutation_in _ (sort_perm byPriority _)) in Hin.
  apply in_map_iff in Hin as (r & <- & Hr).
  apply filter_In in Hr as [Hr Hw].
  apply filter_In in Hr as [Hr Hb].
  apply filter_In in Hr as [Hr He].
  exists r. split; [exact Hr|]. split; [reflexivity|].
  split; [reflexivity|]. split; [reflexivity|].
  unfold not_excluded in He. apply andb_true_iff in He as [H1 H2].
  apply negb_true_iff in H1. apply negb_true_iff in H2.
  apply bool_decide_eq_false in H1. apply bool_decide_eq_false in H2.
  repeat split; assumption.
Qed.

End FetchFacts.

(** ** Instances *)



(** Scenario A on day 3: the refund date is day 7. *)
Lemma refund_sweep_not_due_witness :
  Lifecycle.promotions
    (Lifecycle.processScheduledRefunds Examples.day_3 Examples.db_spent_40)
    !! "promo_1" = Some Examples.promotion_100
  /\ Lifecycle.credits
       (Lifecycle.processScheduledRefunds Examples.day_3 Examples.db_spent_40)
       "promo_1" = [].
Proof.
  assert (H : forall t,
             In t (Lifecycle.refund_tasks Examples.db_spent_40) ->
             Lifecycle.t_promotion_id t = "promo_1" ->
             Lifecycle.t_status t = Lifecycle.task_scheduled ->
             (Examples.day_3 < Lifecycle.refund_date t)%Z).
  { intros t [<-|[]] _ _. vm_compute. reflexivity. }
  pose proof (refund_sweep_not_due Examples.day_3 Examples.db_spent_40 "promo_1" H)
    as (Hp & Hc & _).
  split; [exact Hp | exact Hc].
Defined.

(** Scenario B: 99 coins spent of 100 on day 3. *)
Lemma exhaustion_sweep_stops_witness :
  Lifecycle.promotions
    (Lifecycle.checkBudgetExhaustion Examples.day_3 Examples.db_spent_99)
    !! "promo_1" =
  Some (Lifecycle.set_status Lifecycle.stopped_early Examples.day_3
          Examples.promotion_100)
  /\ Lifecycle.credits
       (Lifecycle.checkBudgetExhaustion Examples.day_3 Examples.db_spent_99)
       "promo_1" =
     [ {| Lifecycle.l_user_id := "author-1"; Lifecycle.amount := 10000;
          Lifecycle.reference_id := "promo_1";
          Lifecycle.l_created_at := Examples.day_3 |} ].
Proof.
  assert (H1 : Lifecycle.promotions Examples.db_spent_99 !! "promo_1"
               = Some Examples.promotion_100) by (vm_compute; reflexivity).
  assert (H2 : Lifecycle.status Examples.promotion_100 = Lifecycle.active)
    by reflexivity.
  assert (H3 : (Examples.day_3 < Lifecycle.expires_at Examples.promotion_100)%Z)
    by (vm_compute; reflexivity).
  assert (H4 : (98 * Lifecycle.budget_total Examples.promotion_100
                <= 100 * Lifecycle.total_spent Examples.db_spent_99 "promo_1")%Z)
    by (vm_compute; discriminate).
  pose proof (exhaustion_sweep_stops Examples.day_3 Examples.db_spent_99 "promo_1"
                Examples.promotion_100 H1 H2 H3 H4) as (Hp & Hc & _).
  split; [exact Hp | exact Hc].
Defined.

(** An early stop in the empty store. *)
Lemma stopPromotionEarly_unknown_witness :
  Lifecycle.promotions Examples.empty_db !! "promo_1" = None
  /\ (Lifecycle.stopPromotionEarly "promo_1" "budget_exhausted" Examples.day_3
        Examples.empty_db).2 = false.
Proof.
  assert (H : Lifecycle.promotions Examples.empty_db !! "promo_1" = None)
    by reflexivity.
  split; [exact H|].
  exact (proj1 (stopPromotionEarly_unknown "promo_1" "budget_exhausted"
                  Examples.day_3 Examples.empty_db H)).
Defined.



(** The post of the examples in a store that returns no candidate. *)
Lemma plan_without_candidates_witness :
  Optimizer.queryCandidatesInFramework Examples.store_without_candidates
    (Optimizer.targeting Examples.request_1) = []
  /\ Optimizer.expectedROI
       (Optimizer.expectedOutcome
          (Optimizer.plan_for (fun x => x) Examples.env_1
             Examples.store_without_candidates Examples.request_1
             Examples.post_1)) = nan.
Proof.
  assert (H : Optimizer.queryCandidatesInFramework
                Examples.store_without_candidates
                (Optimizer.targeting Examples.request_1) = []) by reflexivity.
  split; [exact H|].
  pose proof (plan_without_candidates (fun x => x) Examples.env_1
                Examples.store_without_candidates Examples.request_1
                Examples.post_1 H) as Hplan.
  cbv zeta in Hplan.
  exact (proj1 (proj2 (proj2 (proj2 (proj2 (proj2 (proj2 (proj2 (proj2 Hplan))))))))).
Defined.

(** The two whales over the seven days of the request of the examples. *)
Lemma schedule_covers_targets_witness :
  Optimizer.duration (Optimizer.budget Examples.request_1) = JS.Number_of_nat 7
  /\ length
       (Optimizer.dailySchedule
          (Optimizer.schedule
             (Optimizer.plan_for (fun x => x) Examples.env_1
                Examples.optimizer_store Examples.request_1 Examples.post_1)))
     = 7%nat.
Proof.
  assert (H1 : (1 <= 7 <= 7)%nat) by lia.
  assert (H2 : Optimizer.duration (Optimizer.budget Examples.request_1)
               = JS.Number_of_nat 7) by (vm_compute; reflexivity).
  split; [exact H2|].
  exact (proj1 (schedule_covers_targets (fun x => x) Examples.env_1
                  Examples.optimizer_store Examples.request_1 Examples.post_1
                  7 H1 H2)).
Defined.


(** A user without a location: premium content on a Monday at 10 and
    content of quality 50 on a Saturday at 20. *)
Lemma calculateActionPrice_ignores_time_witness :
  (Pricing.demand_key (Examples.user_of whale 90) ∉ Pricing.time_keys)
  /\ Pricing.calculateActionPrice like (Examples.user_of whale 90)
       (Pricing.calculateDynamicPricing 1 [whale] 95 10 "CN") 95 =
     Pricing.calculateActionPrice like (Examples.user_of whale 90)
       (Pricing.calculateDynamicPricing 6 [foam] 50 20 "CN") 50.
Proof.
  assert (H : Pricing.demand_key (Examples.user_of whale 90) ∉ Pricing.time_keys).
  { apply (bool_decide_unpack _). vm_compute. exact I. }
  split; [exact H|].
  exact (calculateActionPrice_ignores_time 1 6 [whale] [foam] 95 50 95 50 10 20 "CN"
           like (Examples.user_of whale 90) H).
Defined.

(** A hundred users followed by fifty more. *)
Lemma frequency_check_first_100_witness :
  length Examples.hundred_users = 100%nat
  /\ Protector.checkFrequencyLimits Examples.quiet_store
       (Examples.hundred_users ++ Examples.fifty_users)%list =
     Protector.checkFrequencyLimits Examples.quiet_store Examples.hundred_users.
Proof.
  assert (H1 : length Examples.hundred_users = 100%nat) by reflexivity.
  assert (H2 : (length (Examples.hundred_users ++ Examples.fifty_users) <= 1000)%nat)
    by (vm_compute; lia).
  split; [exact H1|].
  exact (frequency_check_first_100 Examples.quiet_store Examples.hundred_users
           Examples.fifty_users H1 H2).
Defined.

(** A hundred users over thirty days: three users a day, ten on no day. *)
Lemma predictBudgetConsumption_cohorts_witness :
  (length Examples.hundred_users <= 100)%nat
  /\ concat
       (map (fun k =>
               JS.slice (k * (length Examples.hundred_users / 30))
                 ((k + 1) * (length Examples.hundred_users / 30))
                 Examples.hundred_users)
          (seq 0 30)) =
     firstn (30 * (length Examples.hundred_users / 30)) Examples.hundred_users.
Proof.
  assert (H1 : (length Examples.hundred_users <= 100)%nat) by (vm_compute; lia).
  assert (H2 : (1 <= 30 <= 30)%nat) by lia.
  split; [exact H1|].
  exact (proj2 (predictBudgetConsumption_cohorts 100 Examples.hundred_users
                  (Pricing.calculateDynamicPricing 1 [whale] 60 10 "CN") 30
                  H1 H2)).
Defined.
